(** * bbc_scraper: a shallow embedding of Generic_webscrape/bbc_scraper.py

    The script has two stages.  [scrape_category_to_csv] fetches one index
    page, selects the anchors whose [href] contains [/article/] and writes
    the resolved, deduplicated URLs to a CSV file.  [process_csv_to_json]
    reads that file back, calls [scrape_article_metadata] on every row and
    dumps each record to a JSON file under [json_output].

    Modelling conventions.
    - A Python [str] is a [string]; a character is an [ascii], read as a
      code point below 256.  The tables for [str.strip] and for the regular
      expression class [\w] are the ones of Python 3 on that range.
    - A parsed document is a tree of [node]s: BeautifulSoup's [Tag]
      (name, attribute dict, contents) and its strings, each with the class
      the parser gave it ([NavigableString], [Comment], [Script], ...).
      The [BeautifulSoup] object itself is a [Tag].  [find(string=...)] and
      [.string] see every string; [get_text] sees the classes the tag takes
      for text (bs4 4.9 and later).
    - The libraries the script calls into (requests, html.parser, urljoin,
      csv, json, the clock) are the fields of the class [Collaborators].
      [requests_get] is [requests.get] followed by [raise_for_status].
    - The script's effects are threaded through a [state]: the external
      world, the files, the directories and the lines printed.  The
      exceptions that leave the script are [KeyError], the [ValueError] of
      [urljoin] on an href and the [FileNotFoundError] of [open(path, 'w')].
    - The file system is a store keyed by the path as the script writes it,
      and [dirs] holds the names under which a directory exists: a file is
      opened for writing when the directory part of its path is empty, the
      root or one of these names.  A row read back from the CSV file maps
      every field name of the header to a string or to [None].
    - [urljoin] gives the URL when the call returns, and [urljoin_raises]
      the message of the [ValueError] when it raises.  Line 18 joins the
      two parameters of the run before anything else happens: a statement
      about the request for [urljoin base category] is about a run in
      which that call has returned, and the statements about the hrefs of
      the page say so with [urljoin_raises base category = None].  On
      which hrefs line 52 raises is read off [urljoin_raises].
    - A [Tag] is always true in a condition ([bs4] defines its [__bool__]
      so), hence the tests of the rules are tests for [None]. *)

From Stdlib Require Import String Ascii List Arith Lia.
From stdpp Require Import base gmap strings list pretty.
Import ListNotations.
#[local] Set Warnings "-clear-no-such-hyp".
Local Open Scope string_scope.
Local Open Scope list_scope.

(** ** Python strings *)

Module PyStr.

Definition nl : string := String (ascii_of_nat 10) EmptyString.

(** [str.isspace] on code points below 256. *)
Definition is_space (c : ascii) : bool :=
  let n := nat_of_ascii c in
  (((9 <=? n) && (n <=? 13)) || ((28 <=? n) && (n <=? 32))
   || (n =? 133) || (n =? 160))%nat.

(** The class [\w] of [re] on a [str] pattern, code points below 256. *)
Definition is_word (c : ascii) : bool :=
  let n := nat_of_ascii c in
  (((48 <=? n) && (n <=? 57)) || ((65 <=? n) && (n <=? 90))
   || (n =? 95) || ((97 <=? n) && (n <=? 122))
   || (n =? 170) || (n =? 178) || (n =? 179) || (n =? 181)
   || (n =? 185) || (n =? 186) || ((188 <=? n) && (n <=? 190))
   || ((192 <=? n) && (n <=? 214)) || ((216 <=? n) && (n <=? 246))
   || (248 <=? n))%nat.

Definition hyphen : ascii := "-"%char.
Definition underscore : ascii := "_"%char.

Fixpoint lstrip (s : string) : string :=
  match s with
  | EmptyString => EmptyString
  | String c s' => if is_space c then lstrip s' else s
  end.

(** [rstrip]: a character is kept when something that is not white space
    follows it or it is not white space itself. *)
Fixpoint rstrip (s : string) : string :=
  match s with
  | EmptyString => EmptyString
  | String c s' =>
      match rstrip s' with
      | EmptyString => if is_space c then EmptyString else String c EmptyString
      | r => String c r
      end
  end.

(** [s.strip()] *)
Definition strip (s : string) : string := rstrip (lstrip s).

Definition nonempty (s : string) : bool :=
  match s with EmptyString => false | String _ _ => true end.

(** [sep.join(l)] *)
Fixpoint join (sep : string) (l : list string) : string :=
  match l with
  | [] => EmptyString
  | [x] => x
  | x :: rest => x ++ sep ++ join sep rest
  end.

(** [sub in s] *)
Fixpoint contains (sub s : string) : bool :=
  String.prefix sub s
  || match s with
     | EmptyString => false
     | String _ s' => contains sub s'
     end.

Definition lower_char (c : ascii) : ascii :=
  let n := nat_of_ascii c in
  if ((65 <=? n) && (n <=? 90))%nat then ascii_of_nat (n + 32) else c.

Fixpoint map_chars (f : ascii -> ascii) (s : string) : string :=
  match s with
  | EmptyString => EmptyString
  | String c s' => String (f c) (map_chars f s')
  end.

(** [s[:n]] *)
Fixpoint take (n : nat) (s : string) : string :=
  match n, s with
  | S n', String c s' => String c (take n' s')
  | _, _ => EmptyString
  end.

Fixpoint drop (n : nat) (s : string) : string :=
  match n, s with
  | S n', String _ s' => drop n' s'
  | _, _ => s
  end.

(** [s.replace(old, new)] for a non-empty [old]: left to right, without
    overlaps.  [skip] counts the characters of a match still to be
    dropped. *)
Fixpoint replace_from (old new : string) (skip : nat) (s : string) : string :=
  match s with
  | EmptyString => EmptyString
  | String c s' =>
      match skip with
      | S k => replace_from old new k s'
      | O =>
          if String.prefix old s
          then new ++ replace_from old new (String.length old - 1) s'
          else String c (replace_from old new 0 s')
      end
  end.

Definition replace (old new s : string) : string := replace_from old new 0 s.

(** [s.split(sep)[0]] for a one-character separator. *)
Fixpoint split_head (sep : ascii) (s : string) : string :=
  match s with
  | EmptyString => EmptyString
  | String c s' =>
      if Ascii.eqb c sep then EmptyString else String c (split_head sep s')
  end.

Fixpoint all_chars (p : ascii -> bool) (s : string) : bool :=
  match s with
  | EmptyString => true
  | String c s' => p c && all_chars p s'
  end.

(** Zero-padded decimal, as the numeric directives of [strftime]. *)
Fixpoint zeros (n : nat) : string :=
  match n with O => EmptyString | S n' => String "0"%char (zeros n') end.

Definition zfill (width n : nat) : string :=
  let d := pretty n in zeros (width - String.length d) ++ d.

End PyStr.

(** ** Text predicates *)

Module Text.

(** The string begins with white space. *)
Definition starts_space (s : string) : bool :=
  match s with
  | EmptyString => false
  | String c _ => PyStr.is_space c
  end.

(** The string ends with white space. *)
Fixpoint ends_space (s : string) : bool :=
  match s with
  | EmptyString => false
  | String c EmptyString => PyStr.is_space c
  | String _ s' => ends_space s'
  end.

(** Characters that matter in a path or a file name. *)
Definition is_dot (c : ascii) : bool := Ascii.eqb c "."%char.
Definition is_slash (c : ascii) : bool := Ascii.eqb c "/"%char.

Definition plain (c : ascii) : bool :=
  negb (is_dot c) && negb (is_slash c) && negb (PyStr.is_space c).

End Text.

(** ** Paths *)

Module Fs.

(** The part of a path up to its last slash, the slash included. *)
Fixpoint head_to_last_slash (p : string) : option string :=
  match p with
  | EmptyString => None
  | String c p' =>
      match head_to_last_slash p' with
      | Some h => Some (String c h)
      | None => if Text.is_slash c then Some (String c EmptyString) else None
      end
  end.

(** [s.rstrip('/')] *)
Fixpoint rstrip_slashes (s : string) : string :=
  match s with
  | EmptyString => EmptyString
  | String c s' =>
      match rstrip_slashes s' with
      | EmptyString => if Text.is_slash c then EmptyString else String c EmptyString
      | r => String c r
      end
  end.

(** [os.path.dirname] on a POSIX system. *)
Definition dirname (p : string) : string :=
  match head_to_last_slash p with
  | None => EmptyString
  | Some h => if PyStr.all_chars Text.is_slash h then h else rstrip_slashes h
  end.

(** [open(p, 'w')] finds the directory it is to write in: the current one,
    the root, or a directory that exists under the name the path gives. *)
Definition parent_exists (dirs : gset string) (p : string) : bool :=
  let d := dirname p in
  PyStr.all_chars Text.is_slash d || bool_decide (d ∈ dirs).

End Fs.

(** ** The document tree and the BeautifulSoup queries the script uses *)

(** The classes of string [bs4] builds with [html.parser]. *)
Inductive string_class : Type :=
| PlainString | CData | Comment | Declaration | Doctype | ProcessingInstruction
| Script | Stylesheet | TemplateString | RubyTextString | RubyParenthesisString.

#[global] Instance string_class_eq_dec : EqDecision string_class.
Proof. solve_decision. Defined.

#[warnings="-register-all"] Inductive node : Type :=
| NavigableString (cls : string_class) (s : string)
| Tag (name : string) (attrs : gmap string string) (contents : list node).

Module Bs4.

(** [tag.descendants]: every node below [n], in document order. *)
Fixpoint descendants (n : node) : list node :=
  match n with
  | NavigableString _ _ => []
  | Tag _ _ cs => flat_map (fun c => c :: descendants c) cs
  end.

Definition is_tag (nm : string) (n : node) : bool :=
  match n with
  | NavigableString _ _ => false
  | Tag nm' _ _ => String.eqb nm' nm
  end.

(** [tag.get(key)] *)
Definition get (key : string) (n : node) : option string :=
  match n with
  | NavigableString _ _ => None
  | Tag _ a _ => a !! key
  end.

Definition attr_is (key value : string) (n : node) : bool :=
  match get key n with
  | Some v => String.eqb v value
  | None => false
  end.

(** [tag.find_all(nm)], recursive. *)
Definition find_all (nm : string) (n : node) : list node :=
  List.filter (is_tag nm) (descendants n).

(** [tag.find(nm)] *)
Definition find (nm : string) (n : node) : option node :=
  head (find_all nm n).

(** [tag.find(nm, {key: value})] *)
Definition find_attr (nm key value : string) (n : node) : option node :=
  head (List.filter (fun d => is_tag nm d && attr_is key value d) (descendants n)).

(** The CSS selector [nm[key*="sub"]]. *)
Definition select_attr_contains (nm key sub : string) (n : node) : list node :=
  List.filter
    (fun d => is_tag nm d
              && match get key d with
                 | Some v => PyStr.contains sub v
                 | None => false
                 end)
    (descendants n).

(** The strings below [n], of every class, in document order. *)
Fixpoint strings (n : node) : list string :=
  match n with
  | NavigableString _ s => [s]
  | Tag _ _ cs => flat_map strings cs
  end.

(** The strings below [n] whose class is one of [types]. *)
Fixpoint strings_of (types : list string_class) (n : node) : list string :=
  match n with
  | NavigableString c s => if bool_decide (c ∈ types) then [s] else []
  | Tag _ _ cs => flat_map (strings_of types) cs
  end.

(** [tag.interesting_string_types]: what [get_text] takes for text below a
    tag of this name. *)
Definition interesting_string_types (nm : string) : list string_class :=
  if String.eqb nm "script" then [Script]
  else if String.eqb nm "style" then [Stylesheet]
  else if String.eqb nm "template" then [TemplateString]
  else if String.eqb nm "rt" then [RubyTextString]
  else if String.eqb nm "rp" then [RubyParenthesisString]
  else [PlainString; CData].

Definition name_of (n : node) : string :=
  match n with
  | NavigableString _ _ => EmptyString
  | Tag nm _ _ => nm
  end.

(** [tag.contents] *)
Definition contents (n : node) : list node :=
  match n with
  | NavigableString _ _ => []
  | Tag _ _ cs => cs
  end.

(** [tag.get_text(strip=True)]: every string below the tag that is of one
    of its interesting classes is stripped on its own, the empty ones are
    dropped and the rest is concatenated. *)
Definition get_text_strip (n : node) : string :=
  PyStr.join EmptyString
    (List.filter PyStr.nonempty
       (List.map PyStr.strip
          (strings_of (interesting_string_types (name_of n)) n))).

(** [tag.string]: the single string child, looked for through single
    children. *)
Fixpoint dot_string (n : node) : option string :=
  match n with
  | NavigableString _ s => Some s
  | Tag _ _ cs =>
      match cs with
      | [c] => dot_string c
      | _ => None
      end
  end.

(** The first result a list gives, each element being tried together with
    the elements that follow it. *)
Definition first_some {A B : Type} (f : A -> list A -> option B)
  : list A -> option B :=
  fix go (l : list A) : option B :=
    match l with
    | [] => None
    | c :: rest =>
        match f c rest with
        | Some r => Some r
        | None => go rest
        end
    end.

(** First node below [n], in document order, that satisfies [p], with the
    siblings that follow it. *)
Fixpoint find_with_siblings (p : node -> bool) (n : node)
  : option (node * list node) :=
  match n with
  | NavigableString _ _ => None
  | Tag _ _ cs =>
      first_some
        (fun c rest => if p c then Some (c, rest) else find_with_siblings p c)
        cs
  end.

(** [tag.find_next_sibling(nm)] given the siblings that follow [tag]. *)
Definition find_next_sibling (nm : string) (siblings : list node) : option node :=
  head (List.filter (is_tag nm) siblings).

(** [soup.find(string=q).parent]: the parent of the first string, in
    document order, that satisfies [q]. *)
Fixpoint find_string_parent (q : string -> bool) (n : node) : option node :=
  match n with
  | NavigableString _ _ => None
  | Tag _ _ cs =>
      first_some
        (fun c _ =>
           match c with
           | NavigableString _ s => if q s then Some n else None
           | Tag _ _ _ => find_string_parent q c
           end)
        cs
  end.

End Bs4.

(** ** Results and exceptions *)

Inductive exn : Type :=
| KeyError (key : string)
| ValueError (msg : string)
| FileNotFoundError (path : string).

Inductive outcome (A : Type) : Type :=
| Returned (a : A)
| Raised (e : exn).
Arguments Returned {A} a.
Arguments Raised {A} e.

Definition outcome_bind {A B : Type} (o : outcome A) (k : A -> outcome B) : outcome B :=
  match o with
  | Returned a => k a
  | Raised e => Raised e
  end.

(** [tag[key]] *)
Definition getitem (n : node) (key : string) : outcome string :=
  match Bs4.get key n with
  | Some v => Returned v
  | None => Raised (KeyError key)
  end.

(** ** The extraction rules of [scrape_article_metadata] *)

(** The dict returned by [scrape_article_metadata]; [tags] is already the
    joined string. *)
Record metadata : Type := Metadata {
  title : string;
  summary : string;
  publish_date : string;
  article_image : string;
  article_content : string;
  image_credit : string;
  tags : string
}.

Module Rules.

Definition title_rule (soup : node) : string :=
  match Bs4.find "h1" soup with
  | Some h => Bs4.get_text_strip h
  | None => "Title not found"
  end.

Definition summary_rule (soup : node) : outcome string :=
  match Bs4.find_attr "meta" "name" "description" soup with
  | Some summary_tag => getitem summary_tag "content"
  | None => Returned "Summary not found"
  end.

Definition publish_date_rule (soup : node) : string :=
  match Bs4.find "time" soup with
  | Some time_tag => Bs4.get_text_strip time_tag
  | None => "Publish date not found"
  end.

Definition article_image_rule (soup : node) : outcome string :=
  match Bs4.find_attr "meta" "property" "og:image" soup with
  | Some image_tag => getitem image_tag "content"
  | None => Returned "Image not found"
  end.

Definition article_content_rule (soup : node) : string :=
  match Bs4.find_attr "main" "id" "main-content" soup with
  | Some main_content_area =>
      let paragraphs := Bs4.find_all "p" main_content_area in
      PyStr.join PyStr.nl
        (List.filter PyStr.nonempty (List.map Bs4.get_text_strip paragraphs))
  | None => "Article content not found."
  end.

(** [re.compile(r'Image (source|credit)', re.IGNORECASE).search(s)] *)
Definition credit_pattern (s : string) : bool :=
  let l := PyStr.map_chars PyStr.lower_char s in
  PyStr.contains "image source" l || PyStr.contains "image credit" l.

Definition image_credit_rule (soup : node) : string :=
  match Bs4.find_string_parent credit_pattern soup with
  | Some parent => Bs4.get_text_strip parent
  | None => "Image credit not found"
  end.

(** [soup.find('h2', string='Related Topics')] *)
Definition is_tags_heading (n : node) : bool :=
  Bs4.is_tag "h2" n
  && match Bs4.dot_string n with
     | Some s => String.eqb s "Related Topics"
     | None => false
     end.

Definition tags_rule (soup : node) : list string :=
  match Bs4.find_with_siblings is_tags_heading soup with
  | Some (tags_heading, siblings) =>
      match Bs4.find_next_sibling "ul" siblings with
      | Some tags_list => List.map Bs4.get_text_strip (Bs4.find_all "a" tags_list)
      | None => []
      end
  | None => []
  end.

End Rules.

(** Lines 80 to 124: the rules in the order the source evaluates them. *)
Definition scrape_soup (soup : node) : outcome metadata :=
  let title := Rules.title_rule soup in
  outcome_bind (Rules.summary_rule soup) (fun summary =>
  let publish_date := Rules.publish_date_rule soup in
  outcome_bind (Rules.article_image_rule soup) (fun article_image =>
  let article_content := Rules.article_content_rule soup in
  let image_credit := Rules.image_credit_rule soup in
  let tags := Rules.tags_rule soup in
  Returned (Metadata title summary publish_date article_image article_content
              image_credit (PyStr.join ", " tags)))).

(** ** The collaborators *)

(** What [requests.get] gives: a response, or the message of the
    [RequestException] it raised (no connection, timeout, no scheme, ...). *)
Inductive http_answer : Type :=
| HttpResponse (status_code : nat) (reason url text : string)
| GetRaised (e : string).

(** [requests.get] followed by [raise_for_status]: the text of the response,
    or the message of the [RequestException] one of the two raised. *)
Inductive fetch_result : Type :=
| Response (text : string)
| RequestException (e : string).

(** [response.raise_for_status()]: an [HTTPError] for a status from 400 to
    599, nothing for any other status. *)
Definition raise_for_status (a : http_answer) : fetch_result :=
  match a with
  | GetRaised e => RequestException e
  | HttpResponse code reason url text =>
      if ((400 <=? code) && (code <? 500))%nat then
        RequestException (pretty code ++ " Client Error: " ++ reason ++ " for url: " ++ url)
      else if ((500 <=? code) && (code <? 600))%nat then
        RequestException (pretty code ++ " Server Error: " ++ reason ++ " for url: " ++ url)
      else Response text
  end.

Record datetime : Type := Datetime {
  year : nat; month : nat; day : nat;
  hour : nat; minute : nat; second : nat; microsecond : nat
}.

(** [dt.strftime('%Y%m%d%H%M%S')] *)
Definition strftime (dt : datetime) : string :=
  PyStr.zfill 4 (year dt) ++ PyStr.zfill 2 (month dt) ++ PyStr.zfill 2 (day dt)
  ++ PyStr.zfill 2 (hour dt) ++ PyStr.zfill 2 (minute dt) ++ PyStr.zfill 2 (second dt).

Class Collaborators : Type := {
  (** what the script cannot see: the network and the clock *)
  World : Type;
  http_get : World -> string -> http_answer * World;
  datetime_now : World -> datetime * World;
  (** [BeautifulSoup(text, 'html.parser')] *)
  parse_html : string -> node;
  (** [urllib.parse.urljoin]: the URL when the call returns, and the
      message of the [ValueError] when it raises *)
  urljoin : string -> string -> string;
  urljoin_raises : string -> string -> option string;
  (** the text [csv.writer] produces for a list of rows *)
  csv_writer : list (list string) -> string;
  (** the dicts [csv.DictReader] yields for the text of a file *)
  csv_DictReader : string -> list (gmap string (option string));
  (** [json.dump(metadata, indent=4, ensure_ascii=False)] *)
  json_dump : metadata -> string
}.

(** Lines 24 and 25, lines 69 and 70. *)
Definition requests_get `{C : Collaborators} (w : World) (url : string)
  : fetch_result * World :=
  let (a, w') := http_get w url in (raise_for_status a, w').

(** [str(v)] for a value that is a string or [None]. *)
Definition py_str (v : option string) : string :=
  match v with
  | Some s => s
  | None => "None"
  end.

(** [os.path.join] on a POSIX system, two components. *)
Definition os_path_join (a b : string) : string :=
  if String.prefix "/" b then b
  else if String.eqb a EmptyString then b
  else if String.eqb (PyStr.drop (String.length a - 1) a) "/" then a ++ b
  else a ++ "/" ++ b.

(** [re.sub(r'[^\w-]', '_', title)[:50]] *)
Definition keeps (c : ascii) : bool := PyStr.is_word c || Ascii.eqb c PyStr.hyphen.

Definition safe_title (title : string) : string :=
  PyStr.take 50
    (PyStr.map_chars (fun c => if keeps c then c else PyStr.underscore) title).

(** Line 153. *)
Definition json_filename (website_name category title timestamp : string) : string :=
  website_name ++ "_" ++ category ++ "_" ++ safe_title title ++ "_" ++ timestamp ++ ".json".

Definition output_dir : string := "json_output".

(** Line 171. *)
Definition website_name_of (base_url : string) : string :=
  PyStr.replace "." "_"
    (PyStr.split_head "/"%char
       (PyStr.replace "www." EmptyString (PyStr.replace "https://" EmptyString base_url))).

(** ** The script *)

Section Script.
Context `{C : Collaborators}.

Record state : Type := State {
  world : World;
  files : gmap string string;
  dirs : gset string;
  stdout : list string
}.

Definition M (A : Type) : Type := state -> outcome A * state.

Definition ret {A : Type} (a : A) : M A := fun st => (Returned a, st).

Definition bind {A B : Type} (m : M A) (k : A -> M B) : M B :=
  fun st =>
    match m st with
    | (Returned a, st') => k a st'
    | (Raised e, st') => (Raised e, st')
    end.

Local Notation "'let*' x ':=' m 'in' k" := (bind m (fun x => k))
  (at level 10, x name, k at level 200).
Local Notation "m ';;' k" := (bind m (fun _ => k))
  (at level 100, right associativity).

Definition lift {A : Type} (o : outcome A) : M A := fun st => (o, st).

Definition print (line : string) : M unit :=
  fun st => (Returned tt, State (world st) (files st) (dirs st) (stdout st ++ [line])).

Definition fetch (url : string) : M fetch_result :=
  fun st =>
    let (r, w) := requests_get (world st) url in
    (Returned r, State w (files st) (dirs st) (stdout st)).

Definition now : M datetime :=
  fun st =>
    let (dt, w) := datetime_now (world st) in
    (Returned dt, State w (files st) (dirs st) (stdout st)).

(** [open(path, 'r')]: [None] stands for [FileNotFoundError]. *)
Definition read_file (path : string) : M (option string) :=
  fun st => (Returned (files st !! path), st).

(** [open(path, 'w')] and the writes up to the end of the [with] block;
    [FileNotFoundError] when the directory to write in does not exist. *)
Definition write_file (path content : string) : M unit :=
  fun st =>
    if Fs.parent_exists (dirs st) path then
      (Returned tt, State (world st) (<[path := content]> (files st)) (dirs st) (stdout st))
    else (Raised (FileNotFoundError path), st).

(** [os.makedirs(path, exist_ok=True)] *)
Definition makedirs (path : string) : M unit :=
  fun st =>
    (Returned tt, State (world st) (files st) ({[path]} ∪ dirs st) (stdout st)).

Fixpoint for_each {A : Type} (body : A -> M unit) (l : list A) : M unit :=
  match l with
  | [] => ret tt
  | x :: rest => body x ;; for_each body rest
  end.

(** *** Part 1: [scrape_category_to_csv] *)

(** Line 36. *)
Definition select_article_links (soup : node) : list node :=
  Bs4.select_attr_contains "a" "href" "/article/" soup.

(** Lines 48 to 55: the rows the loop writes, [seen] being [seen_urls], and
    the message of the [ValueError] that ended the loop, if one did. *)
Fixpoint write_rows (base_url category : string) (article_links : list node)
    (seen : gset string) : list (list string) * option string :=
  match article_links with
  | [] => ([], None)
  | link :: rest =>
      match Bs4.get "href" link with
      | Some relative_url =>
          if PyStr.nonempty relative_url then
            match urljoin_raises base_url relative_url with
            | Some msg => ([], Some msg)
            | None =>
                let full_url := urljoin base_url relative_url in
                if decide (full_url ∈ seen) then write_rows base_url category rest seen
                else
                  let (rows, err) :=
                    write_rows base_url category rest ({[full_url]} ∪ seen) in
                  ([base_url; category; full_url] :: rows, err)
            end
          else write_rows base_url category rest seen
      | None => write_rows base_url category rest seen
      end
  end.

(** The hrefs that pass the test of line 51. *)
Definition usable_hrefs (links : list node) : list string :=
  List.filter PyStr.nonempty (omap (Bs4.get "href") links).

Definition csv_header : list string := ["website"; "category"; "article_url"].

Definition scrape_category_to_csv (base_url category csv_name : string) : M unit :=
  let category_url := urljoin base_url category in
  print ("[*] Scraping category page: " ++ category_url) ;;
  let* r := fetch category_url in
  match r with
  | RequestException e =>
      print ("[!] Error fetching category page: " ++ e)
  | Response text =>
      let soup := parse_html text in
      let article_links := select_article_links soup in
      match article_links with
      | [] =>
          print ("[!] No article links found on " ++ category_url
                 ++ ". The website structure may have changed, or the selector needs an update.")
      | _ :: _ =>
          print ("[*] Found " ++ pretty (length article_links)
                 ++ " potential article links.") ;;
          let (rows, err) := write_rows base_url category article_links ∅ in
          write_file csv_name (csv_writer (csv_header :: rows)) ;;
          match err with
          | Some msg => lift (Raised (ValueError msg))
          | None => print ("[+] Successfully saved article URLs to " ++ csv_name)
          end
      end
  end.

(** *** Part 2: [scrape_article_metadata] and [process_csv_to_json] *)

(** [None] is the value the source returns when the fetch fails. *)
Definition scrape_article_metadata (article_url : string) : M (option metadata) :=
  print ("    -> Scraping article: " ++ article_url) ;;
  let* r := fetch article_url in
  match r with
  | RequestException e =>
      print ("    [!] Failed to fetch article " ++ article_url ++ ": " ++ e) ;;
      ret None
  | Response text =>
      let* md := lift (scrape_soup (parse_html text)) in
      ret (Some md)
  end.

(** [row['article_url']]: a string, or [None] for a field the row lacks. *)
Definition row_getitem (row : gmap string (option string)) (key : string)
  : M (option string) :=
  match row !! key with
  | Some v => ret v
  | None => lift (Raised (KeyError key))
  end.

(** Lines 146 to 159: the body of the loop.  [requests] and the f-strings
    both take [str(article_url)]. *)
Definition process_row (website_name category : string)
    (row : gmap string (option string)) : M unit :=
  let* article_url := row_getitem row "article_url" in
  let* md := scrape_article_metadata (py_str article_url) in
  match md with
  | Some md =>
      let* dt := now in
      let timestamp := strftime dt in
      let filename := json_filename website_name category (title md) timestamp in
      let filepath := os_path_join output_dir filename in
      write_file filepath (json_dump md) ;;
      print ("    [+] Successfully saved metadata to " ++ filepath ++ PyStr.nl)
  | None => ret tt
  end.

Definition process_articles (website_name category : string)
    (articles : list (gmap string (option string))) : M unit :=
  for_each (process_row website_name category) articles.

Definition process_csv_to_json (csv_name website_name category : string) : M unit :=
  let* f := read_file csv_name in
  match f with
  | None => print ("[!] CSV file not found: " ++ csv_name)
  | Some text =>
      let articles := csv_DictReader text in
      print (PyStr.nl ++ "[*] Starting to process " ++ pretty (length articles)
             ++ " articles from " ++ csv_name) ;;
      makedirs output_dir ;;
      print ("[*] JSON files will be saved in the '" ++ output_dir ++ "/' directory.") ;;
      process_articles website_name category articles
  end.

(** *** The entry point, lines 169 to 174 *)
Definition main (base_url category csv_name : string) : M unit :=
  scrape_category_to_csv base_url category csv_name ;;
  let website_name := website_name_of base_url in
  process_csv_to_json csv_name website_name category ;;
  print "[*] All tasks completed.".

End Script.

(** ** Fixtures: a small site served from a table *)

Module Fixture.

Definition q (s : string) : string := "'" ++ s ++ "'".

Definition text (s : string) : node := NavigableString PlainString s.
Definition comment (s : string) : node := NavigableString Comment s.
Definition elem (nm : string) (cs : list node) : node := Tag nm ∅ cs.
Definition elem1 (nm k v : string) (cs : list node) : node := Tag nm {[k := v]} cs.
Definition document (cs : list node) : node := Tag "[document]" ∅ cs.

Definition base : string := "https://example.com".

(** Index pages. *)
Definition culture_html : string :=
  "<a href='/article/a'>A</a><a href='/article/a'>A again</a><a href='/article/b'>B</a>".
Definition culture_soup : node :=
  document [ elem1 "a" "href" "/article/a" [text "A"];
             elem1 "a" "href" "/article/a" [text "A again"];
             elem1 "a" "href" "/article/b" [text "B"] ].

Definition travel_html : string :=
  "<ul><li><a href='/travel/article/x'>X</a></li><li><a href='/about'>About</a></li><li><a href='/article/y'>Y</a></li></ul>".
Definition travel_soup : node :=
  document [ elem "ul"
               [ elem "li" [elem1 "a" "href" "/travel/article/x" [text "X"]];
                 elem "li" [elem1 "a" "href" "/about" [text "About"]];
                 elem "li" [elem1 "a" "href" "/article/y" [text "Y"]] ] ].

Definition empty_html : string := "<p>Nothing here</p><a href='/about'>About</a>".
Definition empty_soup : node :=
  document [ elem "p" [text "Nothing here"];
             elem1 "a" "href" "/about" [text "About"] ].

(** An index page with a [link] element, an anchor elsewhere, an anchor
    without href and a repeated article. *)
Definition mixed_html : string :=
  "<link href='/article/z'><a href='/article/a'>A</a><a href='/about'>About</a><a>No href</a><a href='/article/a'>A again</a><div><a href='/x/article/b'>B</a></div>".
Definition mixed_soup : node :=
  document [ elem1 "link" "href" "/article/z" [];
             elem1 "a" "href" "/article/a" [text "A"];
             elem1 "a" "href" "/about" [text "About"];
             elem "a" [text "No href"];
             elem1 "a" "href" "/article/a" [text "A again"];
             elem "div" [elem1 "a" "href" "/x/article/b" [text "B"]] ].

(** An index page whose second article link cannot be resolved. *)
Definition broken_html : string :=
  "<a href='/article/a'>A</a><a href='//[bad/article/x'>X</a><a href='/article/b'>B</a>".
Definition broken_soup : node :=
  document [ elem1 "a" "href" "/article/a" [text "A"];
             elem1 "a" "href" "//[bad/article/x" [text "X"];
             elem1 "a" "href" "/article/b" [text "B"] ].

(** Article pages. *)
Definition full_html : string :=
  "<html><head><meta name='description' content='A summary'><meta property='og:image' content='https://example.com/i.png'></head><body><h1> Markets rally </h1><time>1 May 2024</time><main id='main-content'><div><p> First. </p><p>  </p><p>Second <b>bold</b> end.</p></div><span>Image source, Getty</span></main><h2>Related Topics</h2><p>x</p><ul><li><a href='/t/b'>Business</a></li><li><a href='/t/m'> Markets </a></li></ul></body></html>".
Definition related_heading : node := elem "h2" [text "Related Topics"].
Definition related_gap : node := elem "p" [text "x"].
Definition related_list : node :=
  elem "ul"
    [ elem "li" [elem1 "a" "href" "/t/b" [text "Business"]];
      elem "li" [elem1 "a" "href" "/t/m" [text " Markets "]] ].
Definition main_area : node :=
  elem1 "main" "id" "main-content"
    [ elem "div"
        [ elem "p" [text " First. "];
          elem "p" [text "  "];
          elem "p" [text "Second "; elem "b" [text "bold"]; text " end."] ];
      elem "span" [text "Image source, Getty"] ].
Definition full_soup : node :=
  document
    [ elem "html"
        [ elem "head"
            [ Tag "meta" {[ "name" := "description"; "content" := "A summary" ]} [];
              Tag "meta" {[ "property" := "og:image";
                            "content" := "https://example.com/i.png" ]} [] ];
          elem "body"
            [ elem "h1" [text " Markets rally "];
              elem "time" [text "1 May 2024"];
              main_area;
              related_heading; related_gap; related_list ] ] ].

(** The same article without a level-1 heading. *)
Definition untitled_html : string :=
  "<html><head><meta name='description' content='A summary'></head><body><time>1 May 2024</time><main id='main-content'><p>Only paragraph</p></main></body></html>".
Definition untitled_soup : node :=
  document
    [ elem "html"
        [ elem "head"
            [ Tag "meta" {[ "name" := "description"; "content" := "A summary" ]} [] ];
          elem "body"
            [ elem "time" [text "1 May 2024"];
              elem1 "main" "id" "main-content" [elem "p" [text "Only paragraph"]] ] ] ].

(** A description tag that carries no [content] attribute. *)
Definition bare_meta_html : string :=
  "<html><head><meta name='description'></head><body><h1>Title</h1></body></html>".
Definition bare_meta_soup : node :=
  document
    [ elem "html"
        [ elem "head" [elem1 "meta" "name" "description" []];
          elem "body" [elem "h1" [text "Title"]] ] ].

(** The body sits in a [div], not in a [main]. *)
Definition div_content_html : string :=
  "<html><body><div id='main-content'><p>Hi</p></div></body></html>".
Definition div_content_soup : node :=
  document
    [ elem "html"
        [ elem "body" [elem1 "div" "id" "main-content" [elem "p" [text "Hi"]]] ] ].

(** A paragraph with inline markup. *)
Definition inline_html : string :=
  "<main id='main-content'><p>Hello <b>world</b></p></main>".
Definition inline_soup : node :=
  document
    [ elem1 "main" "id" "main-content"
        [ elem "p" [text "Hello "; elem "b" [text "world"]] ] ].

(** An article with comments, a script, repeated elements and decoys. *)
Definition rich_html : string :=
  "<html><head><meta name='keywords' content='k'><meta name='description' content=' A summary '><meta name='description' content='Second'><meta property='og:image' content='https://example.com/i.png'></head><body><div id='main-content'><p>Not the body</p></div><h1> Markets <!-- draft -->rally </h1><h1>Second title</h1><time>1 May 2024</time><time>2 May 2024</time><main id='main-content'><div><p> First. </p><p>  </p><p>Second <b>bold</b><script>var x=1;</script> end.<!-- note --></p></div><figure><span>Image source, Getty<!-- agency --></span><p>Caption</p></figure></main><main id='main-content'><p>Other main</p></main><h2>More</h2><ul><li><a href='/w'>Wrong</a></li></ul><h2><b>Related</b> Topics</h2><ul><li><a href='/o'>Other</a></li></ul><div><h2>Related Topics</h2><p>x</p><ol><li><a href='/t/o'>Ordered</a></li></ol><ul><li><a href='/t/b'> Business </a></li><li><a href='/t/n'>New <b>York</b><!-- c --></a></li></ul><ul><li><a href='/t/l'>Later</a></li></ul></div></body></html>".
Definition rich_title : node :=
  elem "h1" [text " Markets "; comment " draft "; text "rally "].
Definition rich_time : node := elem "time" [text "1 May 2024"].
Definition rich_summary : node :=
  Tag "meta" {[ "name" := "description"; "content" := " A summary " ]} [].
Definition rich_image : node :=
  Tag "meta" {[ "property" := "og:image"; "content" := "https://example.com/i.png" ]} [].
Definition rich_credit : node :=
  elem "span" [text "Image source, Getty"; comment " agency "].
Definition rich_main : node :=
  elem1 "main" "id" "main-content"
    [ elem "div"
        [ elem "p" [text " First. "];
          elem "p" [text "  "];
          elem "p" [ text "Second "; elem "b" [text "bold"];
                     elem "script" [NavigableString Script "var x=1;"];
                     text " end."; comment " note " ] ];
      elem "figure" [ rich_credit; elem "p" [text "Caption"] ] ].
Definition rich_heading : node := elem "h2" [text "Related Topics"].
Definition rich_gap : node := elem "p" [text "x"].
Definition rich_ordered : node :=
  elem "ol" [ elem "li" [elem1 "a" "href" "/t/o" [text "Ordered"]] ].
Definition rich_list : node :=
  elem "ul"
    [ elem "li" [elem1 "a" "href" "/t/b" [text " Business "]];
      elem "li" [elem1 "a" "href" "/t/n"
                   [text "New "; elem "b" [text "York"]; comment " c "]] ].
Definition rich_later : node :=
  elem "ul" [ elem "li" [elem1 "a" "href" "/t/l" [text "Later"]] ].
Definition rich_head : node :=
  elem "head"
    [ Tag "meta" {[ "name" := "keywords"; "content" := "k" ]} [];
      rich_summary;
      Tag "meta" {[ "name" := "description"; "content" := "Second" ]} [];
      rich_image ].
Definition rich_decoy : node :=
  elem1 "div" "id" "main-content" [elem "p" [text "Not the body"]].
Definition rich_more : node := elem "h2" [text "More"].
Definition rich_wrong : node :=
  elem "ul" [ elem "li" [elem1 "a" "href" "/w" [text "Wrong"]] ].
Definition rich_split : node :=
  elem "h2" [elem "b" [text "Related"]; text " Topics"].
Definition rich_other : node :=
  elem "ul" [ elem "li" [elem1 "a" "href" "/o" [text "Other"]] ].
Definition rich_topics : node :=
  elem "div" [rich_heading; rich_gap; rich_ordered; rich_list; rich_later].
Definition rich_body : list node :=
  [ rich_decoy;
    rich_title;
    elem "h1" [text "Second title"];
    rich_time;
    elem "time" [text "2 May 2024"];
    rich_main;
    elem1 "main" "id" "main-content" [elem "p" [text "Other main"]];
    rich_more; rich_wrong; rich_split; rich_other; rich_topics ].
Definition rich_soup : node :=
  document [ elem "html" [ rich_head; elem "body" rich_body ] ].

(** A page without a level-1 heading whose description tag carries no
    [content] attribute. *)
Definition untitled_bare_html : string :=
  "<html><head><meta name='description'></head><body><time>1 May 2024</time><main id='main-content'><p>Only paragraph</p></main><span>Image credit: AP</span></body></html>".
Definition untitled_bare_soup : node :=
  document
    [ elem "html"
        [ elem "head" [elem1 "meta" "name" "description" []];
          elem "body"
            [ elem "time" [text "1 May 2024"];
              elem1 "main" "id" "main-content" [elem "p" [text "Only paragraph"]];
              elem "span" [text "Image credit: AP"] ] ] ].

(** A heading split by inline markup, followed by a list. *)
Definition split_heading_html : string :=
  "<h2><b>Related</b> Topics</h2><ul><li><a href='/t/b'>Business</a></li></ul>".
Definition split_heading_soup : node :=
  document
    [ elem "h2" [elem "b" [text "Related"]; text " Topics"];
      elem "ul" [ elem "li" [elem1 "a" "href" "/t/b" [text "Business"]] ] ].

(** The topics in an ordered list. *)
Definition ordered_topics_html : string :=
  "<h2>Related Topics</h2><ol><li><a href='/t/b'>Business</a></li></ol>".
Definition ordered_topics_soup : node :=
  document
    [ elem "h2" [text "Related Topics"];
      elem "ol" [ elem "li" [elem1 "a" "href" "/t/b" [text "Business"]] ] ].

(** A topic with inline markup. *)
Definition inline_topic_html : string :=
  "<h2>Related Topics</h2><ul><li><a href='/t/n'>New <b>York</b></a></li></ul>".
Definition inline_topic_soup : node :=
  document
    [ elem "h2" [text "Related Topics"];
      elem "ul" [ elem "li" [elem1 "a" "href" "/t/n"
                               [text "New "; elem "b" [text "York"]]] ] ].

Definition pages : list (string * node) :=
  [ (culture_html, culture_soup); (travel_html, travel_soup);
    (empty_html, empty_soup); (full_html, full_soup);
    (untitled_html, untitled_soup); (bare_meta_html, bare_meta_soup);
    (div_content_html, div_content_soup); (inline_html, inline_soup);
    (mixed_html, mixed_soup); (broken_html, broken_soup);
    (rich_html, rich_soup); (untitled_bare_html, untitled_bare_soup);
    (split_heading_html, split_heading_soup);
    (ordered_topics_html, ordered_topics_soup);
    (inline_topic_html, inline_topic_soup);
    (EmptyString, document []) ].

Fixpoint assoc {A : Type} (k : string) (l : list (string * A)) : option A :=
  match l with
  | [] => None
  | (k', v) :: rest => if String.eqb k k' then Some v else assoc k rest
  end.

Definition parse (html : string) : node :=
  match assoc html pages with Some n => n | None => document [text html] end.

Definition ok (url html : string) : string * http_answer :=
  (url, HttpResponse 200 "OK" url html).

(** What the site answers; anything else is a 404. *)
Definition site : list (string * http_answer) :=
  [ ok "https://example.com/culture" culture_html;
    ok "https://example.com/travel" travel_html;
    ok "https://example.com/empty" empty_html;
    ok "https://example.com/mixed" mixed_html;
    ok "https://example.com/broken" broken_html;
    ok "https://example.com/news/world" culture_html;
    ("https://example.com/down",
     HttpResponse 503 "Service Unavailable" "https://example.com/down" EmptyString);
    ok "https://example.com/article/a" full_html;
    ("https://example.com/article/b",
     HttpResponse 500 "Internal Server Error" "https://example.com/article/b"
       EmptyString);
    ok "https://example.com/article/c" untitled_html;
    ok "https://example.com/article/d" bare_meta_html;
    ("https://example.com/article/e",
     HttpResponse 304 "Not Modified" "https://example.com/article/e" EmptyString);
    ok "https://example.com/article/r" rich_html;
    ok "https://example.com/article/u" untitled_bare_html;
    ("None", GetRaised "Invalid URL 'None': No scheme supplied. Perhaps you meant https://None?") ].

(** The world is the list of the URLs requested so far.  One address
    times out on the very first request and serves a page without article
    links afterwards. *)
Definition flaky : string := "https://example.com/flaky".

Definition get (w : list string) (url : string) : http_answer :=
  if String.eqb url flaky then
    match w with
    | [] => GetRaised "Read timed out"
    | _ :: _ => HttpResponse 200 "OK" url empty_html
    end
  else
    match assoc url site with
    | Some r => r
    | None => HttpResponse 404 "Not Found" url EmptyString
    end.

Definition join_url (b r : string) : string :=
  if PyStr.contains "://" r then r
  else if String.prefix "/" r then b ++ r else b ++ "/" ++ r.

(** A reference with an unbalanced bracket in its host. *)
Definition join_error (b r : string) : option string :=
  if PyStr.contains "//[" r then Some "Invalid IPv6 URL" else None.

Definition clock : datetime := Datetime 2024 5 1 9 30 7 1234.

Definition crlf : string := String (ascii_of_nat 13) PyStr.nl.

Definition write_csv (rows : list (list string)) : string :=
  PyStr.join EmptyString (List.map (fun r => (PyStr.join "," r ++ crlf)%string) rows).

(** Splits at every [sep]. *)
Fixpoint split (sep : ascii) (s : string) : list string :=
  match s with
  | EmptyString => [EmptyString]
  | String c s' =>
      if Ascii.eqb c sep then EmptyString :: split sep s'
      else match split sep s' with
           | [] => [String c EmptyString]
           | w :: ws => String c w :: ws
           end
  end.

Definition cr : ascii := ascii_of_nat 13.

Definition not_cr (c : ascii) : bool := negb (Ascii.eqb c cr).

Fixpoint filter_chars (p : ascii -> bool) (s : string) : string :=
  match s with
  | EmptyString => EmptyString
  | String c s' => if p c then String c (filter_chars p s') else filter_chars p s'
  end.

Definition read_rows (text : string) : list (list string) :=
  List.map (split ","%char)
    (List.filter PyStr.nonempty (split (ascii_of_nat 10) (filter_chars not_cr text))).

(** The fields of a row under the field names, [None] for the fields a
    short row lacks. *)
Definition pad (fieldnames r : list string) : list (option string) :=
  List.map Some r ++ List.repeat None (length fieldnames - length r).

Definition read_dicts (text : string) : list (gmap string (option string)) :=
  match read_rows text with
  | [] => []
  | fieldnames :: rows =>
      List.map
        (fun r => list_to_map (zip fieldnames (pad fieldnames r))
                  : gmap string (option string))
        rows
  end.

Definition dump (md : metadata) : string :=
  "{title: " ++ q (title md) ++ ", summary: " ++ q (summary md)
  ++ ", publish_date: " ++ q (publish_date md)
  ++ ", article_image: " ++ q (article_image md)
  ++ ", article_content: " ++ q (article_content md)
  ++ ", image_credit: " ++ q (image_credit md)
  ++ ", tags: " ++ q (tags md) ++ "}".

#[export] Instance table : Collaborators := {|
  World := list string;
  http_get := fun w url => (get w url, w ++ [url]);
  datetime_now := fun w => (clock, w);
  parse_html := parse;
  urljoin := join_url;
  urljoin_raises := join_error;
  csv_writer := write_csv;
  csv_DictReader := read_dicts;
  json_dump := dump
|}.

Definition start (fs : gmap string string) : state := State [] fs ∅ [].

(** The state of a stage that finds the output directory in place. *)
Definition ready : state := State [] ∅ {[ "json_output" ]} [].

(** A row of the handoff file as [csv.DictReader] yields it. *)
Definition row_of (url : string) : gmap string (option string) :=
  {[ "website" := Some base; "category" := Some "culture"; "article_url" := Some url ]}.

(** A row that is one field short. *)
Definition short_row : gmap string (option string) :=
  {[ "website" := Some base; "category" := Some "culture"; "article_url" := None ]}.

(** A handoff file left by an earlier run. *)
Definition stale_csv : string :=
  write_csv [csv_header; [base; "culture"; "https://example.com/article/a"]].

End Fixture.

(** ** The specification's wording, for comparison with the script *)

Module Spec.

(** Deduplication by string equality that keeps every URL at the place
    where it is seen first. *)
Fixpoint first_seen (l : list string) : list string :=
  match l with
  | [] => []
  | x :: rest => x :: List.filter (fun y => negb (String.eqb y x)) (first_seen rest)
  end.

Fixpoint filter_chars (p : ascii -> bool) (s : string) : string :=
  match s with
  | EmptyString => EmptyString
  | String c s' => if p c then String c (filter_chars p s') else filter_chars p s'
  end.

(** The title with everything but word characters and hyphens stripped,
    cut to 50 characters. *)
Definition sanitized_title (title : string) : string :=
  PyStr.take 50 (filter_chars keeps title).

(** The shape [{site}_{category}_{sanitized-title}_{timestamp}]. *)
Definition output_name (site category title timestamp : string) : string :=
  site ++ "_" ++ category ++ "_" ++ sanitized_title title ++ "_" ++ timestamp.

(** The text nodes below [n]: its strings but for comments, declarations
    and the contents of script, style and template elements. *)
Fixpoint text_nodes (n : node) : list string :=
  match n with
  | NavigableString PlainString s | NavigableString CData s => [s]
  | NavigableString _ _ => []
  | Tag _ _ cs => flat_map text_nodes cs
  end.

(** The whitespace-trimmed text of an element. *)
Definition trimmed_text (n : node) : string :=
  PyStr.strip (PyStr.join EmptyString (text_nodes n)).

(** The text of an element as the script takes it: the text nodes stripped
    one by one, the empty ones dropped, the rest concatenated. *)
Definition packed_text (n : node) : string :=
  PyStr.join EmptyString
    (List.filter PyStr.nonempty (List.map PyStr.strip (text_nodes n))).

(** The body text: the trimmed texts of the paragraphs below the first
    element whose id is [main-content], the empty ones dropped. *)
Definition article_content (soup : node) : string :=
  match head (List.filter (Bs4.attr_is "id" "main-content") (Bs4.descendants soup)) with
  | Some container =>
      PyStr.join PyStr.nl
        (List.filter PyStr.nonempty
           (List.map trimmed_text (Bs4.find_all "p" container)))
  | None => "Article content not found."
  end.

(** "A level-2 heading whose text is exactly Related Topics". *)
Definition heading_text_is (d : node) : bool :=
  Bs4.is_tag "h2" d
  && String.eqb (PyStr.join EmptyString (text_nodes d)) "Related Topics".

(** "A list element". *)
Definition is_list (d : node) : bool := Bs4.is_tag "ul" d || Bs4.is_tag "ol" d.

(** The tags in the words of the specification. *)
Definition tags (soup : node) : list string :=
  match Bs4.find_with_siblings heading_text_is soup with
  | Some (_, siblings) =>
      match head (List.filter is_list siblings) with
      | Some l => List.map trimmed_text (Bs4.find_all "a" l)
      | None => []
      end
  | None => []
  end.

(** [n.string] is [s]: [n] is a string, or an element whose only child has
    the string [s]. *)
Inductive sole_string : node -> string -> Prop :=
| sole_here c s : sole_string (NavigableString c s) s
| sole_below nm a child s :
    sole_string child s -> sole_string (Tag nm a [child]) s.

(** The heading line 106 looks for. *)
Definition related_heading (d : node) : Prop :=
  exists a cs, d = Tag "h2" a cs /\ sole_string d "Related Topics".

(** [h] is the first node satisfying [P] in the document order of the trees
    [l] (a node, then what is below it, then what follows it), and [sibs]
    are the siblings that follow [h]. *)
Inductive first_with_followers (P : node -> Prop)
  : list node -> node -> list node -> Prop :=
| first_here c rest : P c -> first_with_followers P (c :: rest) c rest
| first_inside c rest h sibs :
    ~ P c -> first_with_followers P (Bs4.contents c) h sibs ->
    first_with_followers P (c :: rest) h sibs
| first_later c rest h sibs :
    ~ P c -> (forall d, d ∈ Bs4.descendants c -> ~ P d) ->
    first_with_followers P rest h sibs ->
    first_with_followers P (c :: rest) h sibs.

(** An [a] element whose href [h] holds [/article/]. *)
Definition article_anchor (d : node) (h : string) : Prop :=
  exists a cs pre post,
    d = Tag "a" a cs /\ a !! "href" = Some h
    /\ h = (pre ++ "/article/" ++ post)%string.

(** The hrefs of the article anchors among the nodes [l], in order. *)
Inductive article_hrefs : list node -> list string -> Prop :=
| hrefs_nil : article_hrefs [] []
| hrefs_take d l h hs :
    article_anchor d h -> article_hrefs l hs -> article_hrefs (d :: l) (h :: hs)
| hrefs_skip d l hs :
    (forall h, ~ article_anchor d h) -> article_hrefs l hs -> article_hrefs (d :: l) hs.

(** A fetch that fails: [requests.get] raises, or the status is a client or
    a server error; [e] is the message of the exception. *)
Inductive failed : http_answer -> string -> Prop :=
| failed_get e : failed (GetRaised e) e
| failed_client code reason url text :
    400 <= code < 500 ->
    failed (HttpResponse code reason url text)
      (pretty code ++ " Client Error: " ++ reason ++ " for url: " ++ url)
| failed_server code reason url text :
    500 <= code < 600 ->
    failed (HttpResponse code reason url text)
      (pretty code ++ " Server Error: " ++ reason ++ " for url: " ++ url).

(** A string without a slash. *)
Definition no_slash (s : string) : Prop :=
  PyStr.all_chars (fun c => negb (Text.is_slash c)) s = true.

(** What the code that calls [scrape_category_to_csv] has in hand when
    the call is over: the value returned and the file system. *)
Definition caller_view `{C : Collaborators} (r : outcome unit * state)
  : outcome unit * gmap string string * gset string :=
  (r.1, files r.2, dirs r.2).

(** "A failed index fetch is fatal to the run": nothing is requested and
    nothing is written after it. *)
Definition index_failure_fatal (C : Collaborators) : Prop :=
  forall base category csv_name st e w' o st',
    requests_get (world st) (urljoin base category) = (RequestException e, w') ->
    main base category csv_name st = (o, st') ->
    world st' = w' /\ files st' = files st.

(** "The caller can tell a page without links from a failed fetch". *)
Definition no_links_distinguished (C : Collaborators) : Prop :=
  forall base category csv_name st1 st2 text w1 e w2,
    files st1 = files st2 -> dirs st1 = dirs st2 ->
    requests_get (world st1) (urljoin base category) = (Response text, w1) ->
    select_article_links (parse_html text) = [] ->
    requests_get (world st2) (urljoin base category) = (RequestException e, w2) ->
    caller_view (scrape_category_to_csv base category csv_name st1)
    <> caller_view (scrape_category_to_csv base category csv_name st2).

(** "An article whose response has a status outside 200 to 299 is skipped
    and gets no output file". *)
Definition non_2xx_is_skipped (C : Collaborators) : Prop :=
  forall website category (row : gmap string (option string)) url st
         code reason u text w',
    row !! "article_url" = Some (Some url) ->
    http_get (world st) url = (HttpResponse code reason u text, w') ->
    (code < 200 \/ 300 <= code) ->
    exists st',
      process_row website category row st = (Returned tt, st')
      /\ files st' = files st.

End Spec.

(** ** More fixtures *)

Module Fixture2.

(** A page whose container holds no paragraph. *)
Definition bare_main_html : string :=
  "<main id='main-content'><span>Caption only</span></main>".
Definition bare_main_soup : node :=
  Fixture.document
    [ Fixture.elem1 "main" "id" "main-content"
        [ Fixture.elem "span" [Fixture.text "Caption only"] ] ].

(** A handoff file whose header has no [article_url] column. *)
Definition headless_csv : string :=
  Fixture.write_csv [ ["website"; "url"];
                      [Fixture.base; "https://example.com/article/a"];
                      [Fixture.base; "https://example.com/article/b"] ].

(** A handoff file whose second row is one field short. *)
Definition short_csv : string :=
  Fixture.write_csv [ csv_header;
                      [Fixture.base; "culture"; "https://example.com/article/b"];
                      [Fixture.base; "culture"];
                      [Fixture.base; "culture"; "https://example.com/article/a"] ].

(** A page where the only string that names a credit is a comment. *)
Definition commented_credit_html : string :=
  "<div><!-- Image source --><p>Body</p></div>".
Definition commented_credit_soup : node :=
  Fixture.document
    [ Fixture.elem "div"
        [ Fixture.comment " Image source ";
          Fixture.elem "p" [Fixture.text "Body"] ] ].

(** The record of [Fixture.full_soup]. *)
Definition full_record : metadata :=
  Metadata "Markets rally" "A summary" "1 May 2024" "https://example.com/i.png"
    ("First." ++ PyStr.nl ++ "Secondboldend.") "Image source, Getty"
    "Business, Markets".

End Fixture2.

(** The dict [csv.DictReader] makes of a row written under the header of
    line 46. *)
Definition dict_of_row (r : list string) : gmap string (option string) :=
  list_to_map (zip csv_header (List.map Some r)).

(** ** A relation between the states before and after a step *)

Section Frame.
Context `{C : Collaborators}.

(** No file has disappeared, and no directory has appeared but the output
    directory. *)
Definition grows (st st' : state) : Prop :=
  dom (files st) ⊆ dom (files st')
  /\ dirs st ⊆ dirs st'
  /\ dirs st' ⊆ {[output_dir]} ∪ dirs st.

(** A computation that only grows the state, however it ends. *)
Definition growing {A : Type} (m : M A) : Prop :=
  forall st, grows st (m st).2.

End Frame.

(** * Properties *)

(** ** The document tree *)

Lemma node_nested_ind (P : node -> Prop) :
  (forall k s, P (NavigableString k s)) ->
  (forall nm a cs, Forall P cs -> P (Tag nm a cs)) ->
  forall n, P n.
Proof.
  intros Hs Ht.
  fix IH 1.
  intros [k s | nm a cs].
  - apply Hs.
  - apply Ht.
    induction cs as [| c cs IHcs].
    + constructor.
    + constructor; [apply IH | exact IHcs].
Qed.

Lemma descendants_child n c :
  c ∈ Bs4.contents n -> c ∈ Bs4.descendants n.
Proof.
  destruct n as [k s | nm a cs]; simpl; [intros H; inversion H |].
  intros Hc. apply list_elem_of_In, in_flat_map.
  exists c. split; [by apply list_elem_of_In | by left].
Qed.

Lemma descendants_trans n c d :
  c ∈ Bs4.contents n -> d ∈ Bs4.descendants c -> d ∈ Bs4.descendants n.
Proof.
  destruct n as [k s | nm a cs]; simpl; [intros H; inversion H |].
  intros Hc Hd. apply list_elem_of_In, in_flat_map.
  exists c. split; [by apply list_elem_of_In | right; by apply list_elem_of_In].
Qed.

(** What [find_with_siblings] finds is the first node, in document order,
    that satisfies [p], and the list it returns is the tail of the contents
    of that node's parent. *)
Lemma find_with_siblings_sound p n :
  match Bs4.find_with_siblings p n with
  | None => List.filter p (Bs4.descendants n) = []
  | Some (h, sibs) =>
      head (List.filter p (Bs4.descendants n)) = Some h
      /\ exists parent pre,
           (parent = n \/ parent ∈ Bs4.descendants n)
           /\ Bs4.contents parent = pre ++ h :: sibs
  end.
Proof.
  induction n as [k s | nm a cs IH] using node_nested_ind; [reflexivity |].
  cbn [Bs4.find_with_siblings Bs4.descendants].
  set (f := fun c rest => if p c then Some (c, rest) else Bs4.find_with_siblings p c).
  assert (Hgo : forall l pre, cs = pre ++ l ->
    match Bs4.first_some f l with
    | None => List.filter p (flat_map (fun c => c :: Bs4.descendants c) l) = []
    | Some (h, sibs) =>
        head (List.filter p (flat_map (fun c => c :: Bs4.descendants c) l)) = Some h
        /\ exists parent pre',
             (parent = Tag nm a cs \/ parent ∈ Bs4.descendants (Tag nm a cs))
             /\ Bs4.contents parent = pre' ++ h :: sibs
    end).
  { induction l as [| c rest IHl]; intros pre Hcs; [reflexivity |].
    assert (Hc : c ∈ cs) by (subst cs; set_solver).
    pose proof (proj1 (Forall_forall _ _) IH c Hc) as IHc. cbv beta in IHc.
    cbn [Bs4.first_some flat_map List.filter app]. unfold f at 1.
    destruct (p c) eqn:Hp.
    - split; [reflexivity |].
      exists (Tag nm a cs), pre. split; [by left | exact Hcs].
    - rewrite List.filter_app.
      destruct (Bs4.find_with_siblings p c) as [[h sibs] |].
      + destruct IHc as [Hh (parent & pre' & Hpar & Hcont)].
        split.
        * revert Hh.
          destruct (List.filter p (Bs4.descendants c)); [discriminate | tauto].
        * exists parent, pre'. split; [| exact Hcont].
          right. destruct Hpar as [-> | Hpar].
          -- by apply (descendants_child (Tag nm a cs)).
          -- by apply (descendants_trans (Tag nm a cs) c).
      + rewrite IHc. cbn [app].
        apply (IHl (pre ++ [c])). by rewrite <- app_assoc. }
  exact (Hgo cs [] eq_refl).
Qed.

(** ** Deduplication in first-seen order *)

Lemma filter_filter_and {A : Type} (f g : A -> bool) (l : list A) :
  List.filter f (List.filter g l) = List.filter (fun x => g x && f x) l.
Proof.
  induction l as [| x l IH]; [reflexivity |].
  simpl. destruct (g x); simpl; [destruct (f x) |]; by rewrite IH.
Qed.

Lemma eqb_neq_true (x y : string) : negb (String.eqb x y) = true <-> x <> y.
Proof.
  rewrite negb_true_iff. split.
  - intros H ->. by rewrite String.eqb_refl in H.
  - intros H. by apply String.eqb_neq.
Qed.

Lemma first_seen_elem (l : list string) (x : string) :
  x ∈ Spec.first_seen l <-> x ∈ l.
Proof.
  induction l as [| y l IH]; [reflexivity |].
  simpl. rewrite !elem_of_cons, list_elem_of_In, filter_In, <- list_elem_of_In.
  rewrite IH, eqb_neq_true.
  destruct (decide (x = y)); intuition congruence.
Qed.

Lemma NoDup_list_filter {A : Type} (f : A -> bool) (l : list A) :
  NoDup l -> NoDup (List.filter f l).
Proof.
  induction 1 as [| x l Hx Hl IH]; simpl; [constructor |].
  destruct (f x); [| exact IH].
  constructor; [| exact IH].
  rewrite list_elem_of_In, filter_In, <- list_elem_of_In. tauto.
Qed.

Lemma first_seen_NoDup (l : list string) : NoDup (Spec.first_seen l).
Proof.
  induction l as [| y l IH]; simpl; constructor.
  - rewrite list_elem_of_In, filter_In. intros [_ H].
    by rewrite String.eqb_refl in H.
  - by apply NoDup_list_filter.
Qed.

Lemma first_seen_id (l : list string) : NoDup l -> Spec.first_seen l = l.
Proof.
  induction 1 as [| x l Hx Hl IH]; [reflexivity |].
  simpl. rewrite IH. f_equal.
  apply forallb_filter_id, forallb_forall.
  intros y Hy. apply eqb_neq_true. intros ->.
  by apply Hx, list_elem_of_In.
Qed.

Lemma list_filter_sublist {A : Type} (f : A -> bool) (l : list A) :
  List.filter f l `sublist_of` l.
Proof.
  induction l as [| x l IH]; simpl; [constructor |].
  destruct (f x); by constructor.
Qed.

Lemma first_seen_sublist (l : list string) : Spec.first_seen l `sublist_of` l.
Proof.
  induction l as [| x l IH]; simpl; [constructor |].
  constructor. etrans; [apply list_filter_sublist | exact IH].
Qed.

Example first_seen_example :
  Spec.first_seen ["a"; "b"; "a"; "c"; "b"] = ["a"; "b"; "c"].
Proof. reflexivity. Qed.

(** ** Substrings *)

Lemma prefix_spec (a b : string) :
  String.prefix a b = true <-> exists post, b = (a ++ post)%string.
Proof.
  revert b. induction a as [| c a IH]; intros b.
  - split; [intros _; by exists b | intros _; by destruct b].
  - destruct b as [| d b].
    + split; [discriminate | intros [post H]; discriminate H].
    + cbn [String.prefix]. destruct (ascii_dec c d) as [<- | Hne].
      * rewrite IH. split; intros [post H]; exists post.
        -- by rewrite H.
        -- by injection H.
      * split; [discriminate |]. intros [post H]. injection H as H1 _. congruence.
Qed.

Lemma contains_spec (sub s : string) :
  PyStr.contains sub s = true <-> exists pre post, s = (pre ++ sub ++ post)%string.
Proof.
  split.
  - induction s as [| c s IH]; cbn [PyStr.contains]; rewrite orb_true_iff.
    + intros [H | H]; [| discriminate H].
      apply prefix_spec in H as [post H]. by exists EmptyString, post.
    + intros [H | H].
      * apply prefix_spec in H as [post H]. by exists EmptyString, post.
      * destruct (IH H) as (pre & post & ->). by exists (String c pre), post.
  - intros (pre & post & ->). induction pre as [| c pre IH].
    + assert (H : String.prefix sub (sub ++ post) = true)
        by (apply prefix_spec; by exists post).
      change (EmptyString ++ sub ++ post)%string with (sub ++ post)%string.
      destruct (sub ++ post)%string; cbn [PyStr.contains]; by rewrite H.
    + change (String c pre ++ sub ++ post)%string
        with (String c (pre ++ sub ++ post)%string).
      cbn [PyStr.contains]. rewrite IH. apply orb_true_r.
Qed.

(** ** The anchors the collector takes *)

Lemma article_anchor_iff d h :
  Spec.article_anchor d h
  <-> Bs4.is_tag "a" d = true /\ Bs4.get "href" d = Some h
      /\ PyStr.contains "/article/" h = true.
Proof.
  split.
  - intros (a & cs & pre & post & -> & Hh & Hsub).
    split; [reflexivity |]. split; [exact Hh |].
    apply contains_spec. by exists pre, post.
  - intros (Ha & Hh & Hsub). destruct d as [k s | nm a cs]; [discriminate Ha |].
    cbn in Ha. apply String.eqb_eq in Ha as ->.
    apply contains_spec in Hsub as (pre & post & Hsub).
    by exists a, cs, pre, post.
Qed.

Lemma is_anchor d h :
  Bs4.is_tag "a" d = true -> Bs4.get "href" d = Some h ->
  PyStr.contains "/article/" h = true -> Spec.article_anchor d h.
Proof. intros. by apply article_anchor_iff. Qed.

Lemma not_anchor d :
  Bs4.is_tag "a" d
  && match Bs4.get "href" d with
     | Some v => PyStr.contains "/article/" v
     | None => false
     end = false ->
  forall h, ~ Spec.article_anchor d h.
Proof.
  intros Hsel h Hh. apply article_anchor_iff in Hh as (Ha & Hg & Hc).
  rewrite Ha, Hg, Hc in Hsel. discriminate Hsel.
Qed.

Section CollectLinks.
Context `{C : Collaborators}.

(** The selector of line 36 takes the article anchors, in order. *)
Lemma article_hrefs_selected (l : list node) hs :
  Spec.article_hrefs l hs ->
  omap (Bs4.get "href")
    (List.filter
       (fun d => Bs4.is_tag "a" d
                 && match Bs4.get "href" d with
                    | Some v => PyStr.contains "/article/" v
                    | None => false
                    end) l) = hs.
Proof.
  induction 1 as [| d l h hs Hd _ IH | d l hs Hd _ IH]; [reflexivity | |].
  - apply article_anchor_iff in Hd as (Ha & Hg & Hc).
    cbn [List.filter]. rewrite Ha, Hg, Hc. cbn [andb omap list_omap].
    by rewrite Hg, IH.
  - cbn [List.filter].
    destruct (Bs4.is_tag "a" d
              && match Bs4.get "href" d with
                 | Some v => PyStr.contains "/article/" v
                 | None => false
                 end) eqn:E; [| exact IH].
    apply andb_true_iff in E as [Ha Hc].
    destruct (Bs4.get "href" d) as [v |] eqn:Hg; [| discriminate].
    destruct (Hd v). by apply is_anchor.
Qed.

(** Every selected anchor carries a non-empty href with [/article/] in it. *)
Lemma selected_href soup link :
  link ∈ select_article_links soup ->
  link ∈ Bs4.descendants soup /\ Bs4.is_tag "a" link = true
  /\ exists h, Bs4.get "href" link = Some h
               /\ PyStr.contains "/article/" h = true /\ PyStr.nonempty h = true.
Proof.
  unfold select_article_links, Bs4.select_attr_contains.
  rewrite list_elem_of_In, filter_In, <- list_elem_of_In, andb_true_iff.
  intros (Hd & Ha & Hh). split; [exact Hd |]. split; [exact Ha |].
  destruct (Bs4.get "href" link) as [h |]; [| discriminate].
  exists h. split; [reflexivity |]. split; [exact Hh |].
  destruct h; [discriminate | reflexivity].
Qed.

Lemma selected_hrefs_all soup :
  usable_hrefs (select_article_links soup)
  = omap (Bs4.get "href") (select_article_links soup)
  /\ length (omap (Bs4.get "href") (select_article_links soup))
     = length (select_article_links soup).
Proof.
  assert (H : forall l : list node,
    (forall x, x ∈ l -> x ∈ select_article_links soup) ->
    usable_hrefs l = omap (Bs4.get "href") l
    /\ length (omap (Bs4.get "href") l) = length l).
  { induction l as [| x l IH]; intros Hl; [done |].
    destruct (selected_href soup x) as (_ & _ & h & Hh & _ & Hne); [set_solver |].
    destruct IH as [IH1 IH2]; [set_solver |].
    unfold usable_hrefs in *. cbn [omap list_omap]. rewrite Hh.
    cbn [List.filter length]. rewrite Hne, IH1, IH2. done. }
  apply H. done.
Qed.

(** The article anchors of a page are what the loop of lines 49 to 55 goes
    through. *)
Lemma article_hrefs_usable soup hs :
  Spec.article_hrefs (Bs4.descendants soup) hs ->
  usable_hrefs (select_article_links soup) = hs
  /\ length (select_article_links soup) = length hs.
Proof.
  intros H. apply article_hrefs_selected in H.
  destruct (selected_hrefs_all soup) as [Huse Hlen].
  unfold select_article_links, Bs4.select_attr_contains in *.
  rewrite Huse, H. split; [reflexivity |]. by rewrite <- Hlen, H.
Qed.

(** The loop when every href resolves. *)
Lemma write_rows_seen base category links (seen : gset string) :
  Forall (fun h => urljoin_raises base h = None) (usable_hrefs links) ->
  write_rows base category links seen
  = (List.map (fun u => [base; category; u])
       (List.filter (fun u => bool_decide (u ∉ seen))
          (Spec.first_seen (List.map (urljoin base) (usable_hrefs links)))),
     None).
Proof.
  revert seen. induction links as [| link rest IH]; intros seen Hok; [reflexivity |].
  unfold usable_hrefs in *. cbn [write_rows omap list_omap] in *.
  destruct (Bs4.get "href" link) as [r |]; [| by apply IH].
  cbn [List.filter] in *. destruct (PyStr.nonempty r); [| by apply IH].
  apply Forall_cons in Hok as [Hr Hok]. rewrite Hr.
  cbn [List.map Spec.first_seen List.filter].
  fold (usable_hrefs rest) in *.
  destruct (decide (urljoin base r ∈ seen)) as [Hin | Hin].
  - rewrite (bool_decide_eq_false_2 _) by tauto.
    rewrite (IH _ Hok), filter_filter_and. do 2 f_equal.
    apply filter_ext. intros u.
    destruct (negb (String.eqb u (urljoin base r))) eqn:E; [reflexivity |].
    apply negb_false_iff, String.eqb_eq in E. subst u. cbn [andb].
    apply bool_decide_eq_false_2. tauto.
  - rewrite (bool_decide_eq_true_2 _) by exact Hin.
    rewrite (IH _ Hok). cbn [List.map]. do 2 f_equal.
    rewrite filter_filter_and. f_equal.
    apply filter_ext. intros u.
    destruct (negb (String.eqb u (urljoin base r))) eqn:E.
    + apply eqb_neq_true in E. cbn [andb].
      apply bool_decide_ext. set_solver.
    + apply negb_false_iff, String.eqb_eq in E. subst u. cbn [andb].
      apply bool_decide_eq_false_2. set_solver.
Qed.

Lemma filter_not_in_empty (l : list string) :
  List.filter (fun u => bool_decide (u ∉ (∅ : gset string))) l = l.
Proof.
  apply forallb_filter_id, forallb_forall. intros u _.
  apply bool_decide_eq_true_2. set_solver.
Qed.

Lemma write_rows_first_seen base category links :
  Forall (fun h => urljoin_raises base h = None) (usable_hrefs links) ->
  write_rows base category links ∅
  = (List.map (fun u => [base; category; u])
       (Spec.first_seen (List.map (urljoin base) (usable_hrefs links))),
     None).
Proof.
  intros Hok. rewrite (write_rows_seen _ _ _ _ Hok). by rewrite filter_not_in_empty.
Qed.

(** The loop when an href makes [urljoin] raise: the rows of the hrefs
    before it are written. *)
Lemma write_rows_stops base category links (seen : gset string) good bad more msg :
  usable_hrefs links = good ++ bad :: more ->
  Forall (fun h => urljoin_raises base h = None) good ->
  urljoin_raises base bad = Some msg ->
  write_rows base category links seen
  = (List.map (fun u => [base; category; u])
       (List.filter (fun u => bool_decide (u ∉ seen))
          (Spec.first_seen (List.map (urljoin base) good))),
     Some msg).
Proof.
  revert seen good.
  induction links as [| link rest IH]; intros seen good Huse Hok Hbad.
  - by destruct good.
  - unfold usable_hrefs in *. cbn [write_rows omap list_omap] in *.
    destruct (Bs4.get "href" link) as [r |]; [| by apply IH].
    cbn [List.filter] in *. destruct (PyStr.nonempty r); [| by apply IH].
    fold (usable_hrefs rest) in *.
    destruct good as [| g good]; cbn [app] in Huse; injection Huse as -> Huse.
    + by rewrite Hbad.
    + apply Forall_cons in Hok as [Hg Hok]. rewrite Hg.
      cbn [List.map Spec.first_seen List.filter].
      destruct (decide (urljoin base g ∈ seen)) as [Hin | Hin].
      * rewrite (bool_decide_eq_false_2 _) by tauto.
        rewrite (IH _ _ Huse Hok Hbad), filter_filter_and. do 2 f_equal.
        apply filter_ext. intros u.
        destruct (negb (String.eqb u (urljoin base g))) eqn:E; [reflexivity |].
        apply negb_false_iff, String.eqb_eq in E. subst u. cbn [andb].
        apply bool_decide_eq_false_2. tauto.
      * rewrite (bool_decide_eq_true_2 _) by exact Hin.
        rewrite (IH _ _ Huse Hok Hbad). cbn [List.map]. do 2 f_equal.
        rewrite filter_filter_and. f_equal.
        apply filter_ext. intros u.
        destruct (negb (String.eqb u (urljoin base g))) eqn:E.
        -- apply eqb_neq_true in E. cbn [andb].
           apply bool_decide_ext. set_solver.
        -- apply negb_false_iff, String.eqb_eq in E. subst u. cbn [andb].
           apply bool_decide_eq_false_2. set_solver.
Qed.

End CollectLinks.

(** Builds the list of the article hrefs of a concrete page. *)
Ltac article_hrefs_of :=
  repeat first
    [ apply Spec.hrefs_nil
    | apply Spec.hrefs_take; [apply is_anchor; vm_compute; reflexivity |]
    | apply Spec.hrefs_skip; [apply not_anchor; vm_compute; reflexivity |] ].

Section CollectLinksRun.
Context `{C : Collaborators}.

(** C1.  Let [hrefs] be the hrefs of the [a] elements of the fetched index
    page whose href holds [/article/], in document order.  When the
    category and each of them resolve against the base URL and the handoff
    file can be opened,
    the records written are the resolved URLs deduplicated in first-seen
    order, each with the given site and category: a URL reached by two
    anchors is written once, and N anchors resolving to N distinct URLs
    give exactly N records in document order.  With at least one anchor
    the records are what the handoff file holds below its header; with
    none, no file is written. *)
Theorem collect_links_first_seen base category csv_name st text w' hrefs :
  urljoin_raises base category = None ->
  requests_get (world st) (urljoin base category) = (Response text, w') ->
  Spec.article_hrefs (Bs4.descendants (parse_html text)) hrefs ->
  Forall (fun h => urljoin_raises base h = None) hrefs ->
  Fs.parent_exists (dirs st) csv_name = true ->
  let urls := List.map (urljoin base) hrefs in
  let records := List.map (fun u => [base; category; u]) (Spec.first_seen urls) in
  NoDup (Spec.first_seen urls)
  /\ (forall u, u ∈ Spec.first_seen urls <-> u ∈ urls)
  /\ Spec.first_seen urls `sublist_of` urls
  /\ (NoDup urls ->
      records = List.map (fun u => [base; category; u]) urls
      /\ length records = length hrefs)
  /\ exists st',
       scrape_category_to_csv base category csv_name st = (Returned tt, st')
       /\ files st' = match hrefs with
                      | [] => files st
                      | _ :: _ => <[csv_name := csv_writer (csv_header :: records)]> (files st)
                      end.
Proof.
  intros _ Hget Hhrefs Hok Hdir urls records.
  destruct (article_hrefs_usable _ _ Hhrefs) as [Huse Hlen].
  split; [apply first_seen_NoDup |].
  split; [intros u; apply first_seen_elem |].
  split; [apply first_seen_sublist |].
  split.
  - intros Hnd. unfold records. rewrite (first_seen_id urls Hnd).
    split; [reflexivity |]. unfold urls. by rewrite !length_map.
  - assert (Hrows : write_rows base category (select_article_links (parse_html text)) ∅
                    = (records, None)).
    { rewrite write_rows_first_seen; rewrite Huse; [reflexivity | exact Hok]. }
    unfold scrape_category_to_csv, bind, print, fetch. cbn [world files dirs stdout].
    rewrite Hget. rewrite Hrows.
    destruct (select_article_links (parse_html text)) as [| a0 rest];
      destruct hrefs as [| h0 hs]; try discriminate Hlen.
    + eexists; split; reflexivity.
    + unfold write_file, lift. cbn [world files dirs stdout]. rewrite Hdir.
      cbn [world files dirs stdout]. eexists; split; reflexivity.
Qed.

End CollectLinksRun.

(** A page with a [link] element that points to an article, an anchor
    elsewhere, an anchor without href, two anchors for [/article/a] and a
    nested anchor for [/x/article/b]: exactly two rows. *)
Lemma collect_links_first_seen_witness :
  exists st',
    scrape_category_to_csv (C := Fixture.table) Fixture.base "mixed" "links.csv"
      (Fixture.start ∅) = (Returned tt, st')
    /\ files st' !! "links.csv"
       = Some (Fixture.write_csv
                 [ ["website"; "category"; "article_url"];
                   ["https://example.com"; "mixed"; "https://example.com/article/a"];
                   ["https://example.com"; "mixed"; "https://example.com/x/article/b"] ]).
Proof.
  assert (Hhrefs : Spec.article_hrefs
                     (Bs4.descendants (parse_html (Collaborators := Fixture.table)
                                         Fixture.mixed_html))
                     ["/article/a"; "/article/a"; "/x/article/b"]).
  { change (parse_html (Collaborators := Fixture.table) Fixture.mixed_html)
      with (Fixture.parse Fixture.mixed_html).
    assert (Hp : Fixture.parse Fixture.mixed_html = Fixture.mixed_soup)
      by (vm_compute; reflexivity).
    rewrite Hp.
    unfold Fixture.mixed_soup, Fixture.document, Fixture.elem, Fixture.elem1,
      Fixture.text.
    cbn [Bs4.descendants flat_map app].
    article_hrefs_of. }
  destruct (collect_links_first_seen (C := Fixture.table) Fixture.base "mixed"
              "links.csv" (Fixture.start ∅) Fixture.mixed_html
              ["https://example.com/mixed"]
              ["/article/a"; "/article/a"; "/x/article/b"]
              eq_refl ltac:(vm_compute; reflexivity) Hhrefs
              ltac:(repeat constructor) ltac:(vm_compute; reflexivity))
    as (_ & _ & _ & _ & st' & Hrun & Hfiles).
  exists st'. split; [exact Hrun |].
  rewrite Hfiles. vm_compute. reflexivity.
Defined.
(** ** The two stages and the entry point *)

Section Stages.
Context `{C : Collaborators}.

Lemma for_each_app {A : Type} (body : A -> M unit) (l1 l2 : list A) st :
  for_each body (l1 ++ l2) st
  = match for_each body l1 st with
    | (Returned _, st1) => for_each body l2 st1
    | (Raised e, st1) => (Raised e, st1)
    end.
Proof.
  revert st. induction l1 as [| x l1 IH]; intros st; [reflexivity |].
  cbn [app for_each]. unfold bind.
  destruct (body x st) as [[[] | e] st1]; [apply IH | reflexivity].
Qed.

Lemma process_csv_missing csv_name website_name category st :
  files st !! csv_name = None ->
  process_csv_to_json csv_name website_name category st
  = (Returned tt,
     State (world st) (files st) (dirs st)
       (stdout st ++ [("[!] CSV file not found: " ++ csv_name)%string])).
Proof.
  intros Hnone. unfold process_csv_to_json, bind, read_file.
  rewrite Hnone. reflexivity.
Qed.

Lemma scrape_category_failed base category csv_name st e w' :
  requests_get (world st) (urljoin base category) = (RequestException e, w') ->
  scrape_category_to_csv base category csv_name st
  = (Returned tt,
     State w' (files st) (dirs st)
       (stdout st ++ [("[*] Scraping category page: " ++ urljoin base category)%string]
                  ++ [("[!] Error fetching category page: " ++ e)%string])).
Proof.
  intros Hget.
  unfold scrape_category_to_csv, bind, print, fetch. cbn [world files dirs stdout].
  rewrite Hget. cbn [world files dirs stdout]. by rewrite <- app_assoc.
Qed.

(** C10.  When no file has the name of the handoff CSV, the processing
    stage prints that the file was not found and returns: it raises
    nothing, requests nothing, and leaves files and directories as they
    were. *)
Theorem missing_csv_reported csv_name website_name category st :
  files st !! csv_name = None ->
  process_csv_to_json csv_name website_name category st
  = (Returned tt,
     State (world st) (files st) (dirs st)
       (stdout st ++ [("[!] CSV file not found: " ++ csv_name)%string])).
Proof. apply process_csv_missing. Qed.

(** C3, as the code has it.  When the request for the index page raises,
    the collector prints the error with its cause, writes no file and
    returns; the run then goes on with the processing stage on whatever
    file has the handoff name.  When there is none, the stage reports it
    and the run ends with nothing else requested or written. *)
Theorem index_failure_not_fatal base category csv_name st e w' :
  requests_get (world st) (urljoin base category) = (RequestException e, w') ->
  let st1 :=
    State w' (files st) (dirs st)
      (stdout st ++ [("[*] Scraping category page: " ++ urljoin base category)%string]
                 ++ [("[!] Error fetching category page: " ++ e)%string]) in
  scrape_category_to_csv base category csv_name st = (Returned tt, st1)
  /\ main base category csv_name st
     = bind (process_csv_to_json csv_name (website_name_of base) category)
         (fun _ => print "[*] All tasks completed.") st1
  /\ (files st !! csv_name = None ->
      main base category csv_name st
      = (Returned tt,
         State w' (files st) (dirs st)
           (stdout st1 ++ [("[!] CSV file not found: " ++ csv_name)%string]
                       ++ ["[*] All tasks completed."]))).
Proof.
  intros Hget st1.
  assert (Hrun : scrape_category_to_csv base category csv_name st = (Returned tt, st1)).
  { by apply scrape_category_failed. }
  assert (Hmain : main base category csv_name st
     = bind (process_csv_to_json csv_name (website_name_of base) category)
         (fun _ => print "[*] All tasks completed.") st1).
  { unfold main. unfold bind at 1. by rewrite Hrun. }
  split; [exact Hrun |]. split; [exact Hmain |].
  intros Hnone. rewrite Hmain. unfold bind at 1.
  rewrite process_csv_missing by exact Hnone.
  unfold print. cbn [world files dirs stdout]. by rewrite <- app_assoc.
Qed.

(** C8, as the code has it.  When the index page is fetched and no anchor
    matches, the collector prints a warning that names the page, raises
    nothing, writes no file and returns; what it returns and what it
    leaves in the file system are what a failed fetch gives, and only the
    line printed differs from the lines of a failed fetch and of a page
    with links. *)
Theorem no_links_warning base category csv_name st text w' :
  requests_get (world st) (urljoin base category) = (Response text, w') ->
  select_article_links (parse_html text) = [] ->
  let warning :=
    ("[!] No article links found on " ++ urljoin base category
     ++ ". The website structure may have changed, or the selector needs an update.")%string in
  scrape_category_to_csv base category csv_name st
  = (Returned tt,
     State w' (files st) (dirs st)
       (stdout st ++ [("[*] Scraping category page: " ++ urljoin base category)%string]
                  ++ [warning]))
  /\ (forall e, warning <> ("[!] Error fetching category page: " ++ e)%string)
  /\ (forall n : nat,
        warning <> ("[*] Found " ++ pretty n ++ " potential article links.")%string)
  /\ (forall st2 e w2,
        files st2 = files st -> dirs st2 = dirs st ->
        requests_get (world st2) (urljoin base category) = (RequestException e, w2) ->
        Spec.caller_view (scrape_category_to_csv base category csv_name st2)
        = Spec.caller_view (scrape_category_to_csv base category csv_name st)).
Proof.
  intros Hget Hnone warning.
  assert (Hrun : scrape_category_to_csv base category csv_name st
                 = (Returned tt,
                    State w' (files st) (dirs st)
                      (stdout st
                       ++ [("[*] Scraping category page: " ++ urljoin base category)%string]
                       ++ [warning]))).
  { unfold scrape_category_to_csv, bind, print, fetch. cbn [world files dirs stdout].
    rewrite Hget, Hnone. cbn [world files dirs stdout].
    by rewrite <- app_assoc. }
  split; [exact Hrun |]. split; [| split].
  - intros e. unfold warning. cbn. discriminate.
  - intros n. unfold warning. cbn. discriminate.
  - intros st2 e w2 Hf Hd Hfail.
    rewrite Hrun, (scrape_category_failed _ _ _ _ _ _ Hfail).
    unfold Spec.caller_view. cbn. by rewrite Hf, Hd.
Qed.

End Stages.

Lemma missing_csv_reported_witness :
  process_csv_to_json (C := Fixture.table) "links.csv" "example_com" "culture"
    (Fixture.start ∅)
  = (Returned tt, @State Fixture.table [] ∅ ∅ ["[!] CSV file not found: links.csv"]).
Proof.
  exact (missing_csv_reported (C := Fixture.table) "links.csv" "example_com" "culture"
           (Fixture.start ∅) eq_refl).
Defined.

(** C3 as stated fails: the index request fails, a handoff file of an
    earlier run is lying there, and the run goes on to request the article
    it lists and to write an output file for it. *)
Lemma index_failure_run_continues : ~ Spec.index_failure_fatal Fixture.table.
Proof.
  intros H.
  destruct (H Fixture.base "down" "links.csv"
              (Fixture.start {[ "links.csv" := Fixture.stale_csv ]})
              "503 Server Error: Service Unavailable for url: https://example.com/down"
              ["https://example.com/down"]
              _ _ ltac:(vm_compute; reflexivity) (surjective_pairing _)) as [Hworld _].
  vm_compute in Hworld. discriminate Hworld.
Qed.

Lemma index_failure_not_fatal_witness :
  main (C := Fixture.table) Fixture.base "down" "links.csv" (Fixture.start ∅)
  = (Returned tt,
     @State Fixture.table ["https://example.com/down"] ∅ ∅
       [ "[*] Scraping category page: https://example.com/down";
         "[!] Error fetching category page: 503 Server Error: Service Unavailable for url: https://example.com/down";
         "[!] CSV file not found: links.csv";
         "[*] All tasks completed." ]).
Proof.
  destruct (index_failure_not_fatal (C := Fixture.table) Fixture.base "down" "links.csv"
              (Fixture.start ∅)
              "503 Server Error: Service Unavailable for url: https://example.com/down"
              ["https://example.com/down"] ltac:(vm_compute; reflexivity))
    as (_ & _ & Hmain).
  exact (Hmain eq_refl).
Defined.

(** C8 as stated fails: on the same call and the same file system, a page
    without links and a failed fetch hand the caller the same value and
    leave the same files and directories. *)
Lemma no_links_looks_like_failure : ~ Spec.no_links_distinguished Fixture.table.
Proof.
  intros H.
  apply (H Fixture.base "flaky" "links.csv"
           (@State Fixture.table ["https://example.com/"] ∅ ∅ []) (@State Fixture.table [] ∅ ∅ [])
           Fixture.empty_html ["https://example.com/"; Fixture.flaky]
           "Read timed out" [Fixture.flaky]); reflexivity.
Qed.

Lemma no_links_warning_witness :
  scrape_category_to_csv (C := Fixture.table) Fixture.base "flaky" "links.csv"
    (@State Fixture.table ["https://example.com/"] ∅ ∅ [])
  = (Returned tt,
     @State Fixture.table ["https://example.com/"; "https://example.com/flaky"] ∅ ∅
       [ "[*] Scraping category page: https://example.com/flaky";
         "[!] No article links found on https://example.com/flaky. The website structure may have changed, or the selector needs an update." ])
  /\ Spec.caller_view
       (scrape_category_to_csv (C := Fixture.table) Fixture.base "flaky" "links.csv"
          (@State Fixture.table [] ∅ ∅ []))
     = Spec.caller_view
         (scrape_category_to_csv (C := Fixture.table) Fixture.base "flaky" "links.csv"
            (@State Fixture.table ["https://example.com/"] ∅ ∅ [])).
Proof.
  destruct (no_links_warning (C := Fixture.table) Fixture.base "flaky" "links.csv"
              (@State Fixture.table ["https://example.com/"] ∅ ∅ [])
              Fixture.empty_html ["https://example.com/"; "https://example.com/flaky"]
              eq_refl eq_refl) as (Hrun & _ & _ & Hsame).
  split; [exact Hrun |].
  exact (Hsame (@State Fixture.table [] ∅ ∅ []) "Read timed out"
           ["https://example.com/flaky"] eq_refl eq_refl eq_refl).
Defined.
(** ** File names *)

Lemma take_length n s : String.length (PyStr.take n s) = Nat.min n (String.length s).
Proof.
  revert s. induction n as [| n IH]; intros [| c s]; simpl; try reflexivity.
  by rewrite IH.
Qed.

Lemma map_chars_length f s : String.length (PyStr.map_chars f s) = String.length s.
Proof. induction s as [| c s IH]; simpl; [reflexivity | by rewrite IH]. Qed.

Lemma all_chars_take p n s :
  PyStr.all_chars p s = true -> PyStr.all_chars p (PyStr.take n s) = true.
Proof.
  revert s. induction n as [| n IH]; intros [| c s]; simpl; try reflexivity.
  rewrite !andb_true_iff. intros [Hc Hs]. split; [exact Hc | by apply IH].
Qed.

Lemma take_all n s : String.length s <= n -> PyStr.take n s = s.
Proof.
  revert s. induction n as [| n IH]; intros [| c s]; simpl; try reflexivity.
  - lia.
  - intros H. rewrite IH; [reflexivity | lia].
Qed.

Lemma safe_title_length t :
  String.length (safe_title t) = Nat.min 50 (String.length t).
Proof. unfold safe_title. by rewrite take_length, map_chars_length. Qed.

Lemma safe_title_chars t : PyStr.all_chars keeps (safe_title t) = true.
Proof.
  unfold safe_title. apply all_chars_take.
  induction t as [| c t IH]; cbn [PyStr.map_chars PyStr.all_chars]; [reflexivity |].
  rewrite IH, andb_true_r.
  destruct (keeps c) eqn:E; [exact E | reflexivity].
Qed.

Lemma safe_title_fixed t :
  PyStr.all_chars keeps t = true -> String.length t <= 50 -> safe_title t = t.
Proof.
  intros Hk Hl. unfold safe_title.
  rewrite take_all by (by rewrite map_chars_length).
  induction t as [| c t IH]; [reflexivity |].
  cbn [PyStr.map_chars PyStr.all_chars String.length] in *.
  apply andb_true_iff in Hk as [Hc Ht].
  rewrite Hc, IH; [reflexivity | exact Ht | lia].
Qed.

Lemma zfill_two n : n < 100 -> String.length (PyStr.zfill 2 n) = 2.
Proof.
  intros Hn.
  assert (H : forallb (fun k => Nat.eqb (String.length (PyStr.zfill 2 k)) 2) (seq 0 100) = true)
    by (vm_compute; reflexivity).
  rewrite forallb_forall in H.
  apply Nat.eqb_eq, H, in_seq. lia.
Qed.

Lemma zfill_four n : n < 100 * 100 -> String.length (PyStr.zfill 4 n) = 4.
Proof.
  intros Hn.
  assert (H : forallb (fun k => Nat.eqb (String.length (PyStr.zfill 4 k)) 4) (seq 0 (100 * 100)) = true)
    by (vm_compute; reflexivity).
  rewrite forallb_forall in H.
  apply Nat.eqb_eq, H, in_seq. lia.
Qed.

Lemma string_app_length (s1 s2 : string) :
  String.length (s1 ++ s2) = String.length s1 + String.length s2.
Proof. induction s1 as [| c s1 IH]; simpl; [reflexivity | by rewrite IH]. Qed.

(** A timestamp has fourteen characters. *)
Lemma strftime_length dt :
  year dt < 100 * 100 -> month dt < 100 -> day dt < 100 ->
  hour dt < 100 -> minute dt < 100 -> second dt < 100 ->
  String.length (strftime dt) = 14.
Proof.
  intros. unfold strftime. rewrite !string_app_length.
  rewrite zfill_four, !zfill_two by assumption. reflexivity.
Qed.

Lemma prefix_slash_app (w r : string) :
  String.prefix "/" w = false -> String.prefix "/" (w ++ "_" ++ r) = false.
Proof.
  intros H. destruct w as [| c w]; [reflexivity |].
  change (String c w ++ "_" ++ r)%string with (String c (w ++ "_" ++ r)%string).
  cbn [String.prefix] in *.
  destruct (ascii_dec "/" c); [destruct w; discriminate H | reflexivity].
Qed.

Lemma split_head_no_slash s : String.prefix "/" (PyStr.split_head "/"%char s) = false.
Proof.
  destruct s as [| c s]; [reflexivity |].
  cbn [PyStr.split_head].
  destruct (Ascii.eqb c "/") eqn:E; [reflexivity |].
  cbn [String.prefix].
  destruct (ascii_dec "/" c) as [<- | _]; [| reflexivity].
  by rewrite Ascii.eqb_refl in E.
Qed.

Lemma replace_dot_no_slash s :
  String.prefix "/" s = false -> String.prefix "/" (PyStr.replace "." "_" s) = false.
Proof.
  destruct s as [| c s]; [reflexivity |].
  unfold PyStr.replace. cbn [PyStr.replace_from String.prefix String.length Nat.sub].
  intros H.
  destruct (ascii_dec "." c) as [<- | _].
  - destruct s; reflexivity.
  - cbn [String.prefix].
    destruct (ascii_dec "/" c) as [<- | _]; [| reflexivity].
    destruct s; discriminate H.
Qed.

(** The site name the entry point derives never starts with a slash. *)
Lemma website_name_no_slash base_url :
  String.prefix "/" (website_name_of base_url) = false.
Proof. apply replace_dot_no_slash, split_head_no_slash. Qed.

(** ** Paths *)

Lemma all_chars_impl (p q : ascii -> bool) s :
  (forall c, p c = true -> q c = true) ->
  PyStr.all_chars p s = true -> PyStr.all_chars q s = true.
Proof.
  intros Hpq. induction s as [| c s IH]; [reflexivity |].
  cbn [PyStr.all_chars]. rewrite !andb_true_iff.
  intros [Hc Hs]. split; [by apply Hpq | by apply IH].
Qed.

Lemma all_chars_app (p : ascii -> bool) (s1 s2 : string) :
  PyStr.all_chars p (s1 ++ s2) = PyStr.all_chars p s1 && PyStr.all_chars p s2.
Proof.
  induction s1 as [| c s1 IH]; [reflexivity |].
  change (String c s1 ++ s2)%string with (String c (s1 ++ s2)%string).
  cbn [PyStr.all_chars]. by rewrite IH, andb_assoc.
Qed.

Lemma keeps_plain c : keeps c = true -> Text.plain c = true.
Proof.
  destruct c as [[] [] [] [] [] [] [] []]; vm_compute; intros H;
    first [reflexivity | discriminate H].
Qed.

Lemma plain_no_slash c : Text.plain c = true -> negb (Text.is_slash c) = true.
Proof.
  destruct c as [[] [] [] [] [] [] [] []]; vm_compute; intros H;
    first [reflexivity | discriminate H].
Qed.

Lemma safe_title_no_slash t : Spec.no_slash (safe_title t).
Proof.
  unfold Spec.no_slash. apply (all_chars_impl keeps); [| apply safe_title_chars].
  intros c Hc. by apply plain_no_slash, keeps_plain.
Qed.

Lemma pretty_N_char_no_slash x : negb (Text.is_slash (pretty_N_char x)) = true.
Proof. destruct x as [| [[[[| |] | [| |] |] | [[| |] | [| |] |] |] | [[[| |] | [| |] |] | [[| |] | [| |] |] |] |]]; reflexivity. Qed.

Lemma pretty_N_go_no_slash (x : N) s :
  Spec.no_slash s -> Spec.no_slash (pretty_N_go x s).
Proof.
  revert s. induction (N.lt_wf_0 x) as [x _ IH]; intros s Hs.
  assert (x = 0 \/ 0 < x)%N as [-> | Hpos] by lia.
  - by rewrite pretty_N_go_0.
  - rewrite pretty_N_go_step by exact Hpos. apply IH.
    + by apply N.div_lt.
    + unfold Spec.no_slash. cbn [PyStr.all_chars].
      rewrite pretty_N_char_no_slash. exact Hs.
Qed.

Lemma pretty_nat_no_slash (n : nat) : Spec.no_slash (pretty n).
Proof.
  unfold pretty, pretty_nat, pretty, pretty_N.
  destruct (decide (N.of_nat n = 0%N)); [reflexivity |].
  by apply pretty_N_go_no_slash.
Qed.

Lemma zeros_no_slash n : Spec.no_slash (PyStr.zeros n).
Proof. induction n as [| n IH]; [reflexivity | exact IH]. Qed.

Lemma zfill_no_slash w n : Spec.no_slash (PyStr.zfill w n).
Proof.
  unfold PyStr.zfill, Spec.no_slash. rewrite all_chars_app.
  apply andb_true_iff. split; [apply zeros_no_slash | apply pretty_nat_no_slash].
Qed.

(** A timestamp holds no slash. *)
Lemma strftime_no_slash dt : Spec.no_slash (strftime dt).
Proof.
  unfold strftime, Spec.no_slash. rewrite !all_chars_app.
  rewrite !(zfill_no_slash _ _). reflexivity.
Qed.

(** The name of an output file holds a slash only when the site name or the
    category does. *)
Lemma json_filename_no_slash website category title dt :
  Spec.no_slash website -> Spec.no_slash category ->
  Spec.no_slash (json_filename website category title (strftime dt)).
Proof.
  intros Hw Hc. unfold json_filename, Spec.no_slash. rewrite !all_chars_app.
  rewrite Hw, Hc, (safe_title_no_slash title), (strftime_no_slash dt). reflexivity.
Qed.

Lemma no_slash_head s : Spec.no_slash s -> Fs.head_to_last_slash s = None.
Proof.
  unfold Spec.no_slash. induction s as [| c s IH]; [reflexivity |].
  cbn [PyStr.all_chars Fs.head_to_last_slash]. intros H.
  apply andb_true_iff in H as [Hc Hs]. rewrite (IH Hs).
  apply negb_true_iff in Hc. by rewrite Hc.
Qed.

Lemma no_slash_prefix s : Spec.no_slash s -> String.prefix "/" s = false.
Proof.
  destruct s as [| c s]; [reflexivity |].
  unfold Spec.no_slash. cbn [PyStr.all_chars String.prefix]. intros H.
  apply andb_true_iff in H as [Hc _].
  destruct (ascii_dec "/" c) as [<- | _]; [discriminate Hc | reflexivity].
Qed.

Lemma head_to_last_slash_app a b :
  Spec.no_slash b ->
  Fs.head_to_last_slash (a ++ String "/" b) = Some (a ++ "/")%string.
Proof.
  intros Hb. induction a as [| c a IH].
  - change (EmptyString ++ String "/" b)%string with (String "/" b).
    cbn [Fs.head_to_last_slash]. by rewrite (no_slash_head _ Hb).
  - change (String c a ++ String "/" b)%string with (String c (a ++ String "/" b)%string).
    cbn [Fs.head_to_last_slash]. by rewrite IH.
Qed.

(** A file name without a slash is joined to the output directory by one
    slash, and the directory it is opened in is the output directory. *)
Lemma output_path name :
  Spec.no_slash name ->
  os_path_join output_dir name = ("json_output/" ++ name)%string
  /\ Fs.dirname (os_path_join output_dir name) = "json_output".
Proof.
  intros Hn.
  assert (Hj : os_path_join output_dir name = ("json_output/" ++ name)%string).
  { unfold os_path_join. by rewrite (no_slash_prefix _ Hn). }
  split; [exact Hj |]. rewrite Hj. unfold Fs.dirname.
  change ("json_output/" ++ name)%string with ("json_output" ++ String "/" name)%string.
  by rewrite (head_to_last_slash_app _ _ Hn).
Qed.

Lemma output_parent_exists (dirs : gset string) name :
  Spec.no_slash name -> "json_output" ∈ dirs ->
  Fs.parent_exists dirs (os_path_join output_dir name) = true.
Proof.
  intros Hn Hd. unfold Fs.parent_exists.
  rewrite (proj2 (output_path name Hn)).
  rewrite (bool_decide_eq_true_2 _ Hd). apply orb_true_r.
Qed.

(** Replacing a one-character pattern is a character-wise map. *)
Lemma replace_dot_map s :
  PyStr.replace "." "_" s
  = PyStr.map_chars (fun c => if Text.is_dot c then "_"%char else c) s.
Proof.
  unfold PyStr.replace. induction s as [| c s IH]; [reflexivity |].
  cbn [PyStr.replace_from PyStr.map_chars String.prefix String.length Nat.sub].
  unfold Text.is_dot. rewrite Ascii.eqb_sym.
  destruct (ascii_dec "." c) as [<- | Hne].
  - rewrite Ascii.eqb_refl.
    replace (String.prefix EmptyString s) with true by (by destruct s).
    cbn [String.append]. by rewrite IH.
  - apply Ascii.eqb_neq in Hne. rewrite Hne. by rewrite IH.
Qed.

Lemma split_head_free s :
  PyStr.all_chars (fun c => negb (Text.is_slash c)) (PyStr.split_head "/"%char s) = true.
Proof.
  induction s as [| c s IH]; [reflexivity |].
  cbn [PyStr.split_head].
  destruct (Ascii.eqb c "/") eqn:E; [reflexivity |].
  cbn [PyStr.all_chars]. rewrite IH, andb_true_r.
  unfold Text.is_slash. by rewrite E.
Qed.
(** ** One article at a time *)

Section Articles.
Context `{C : Collaborators}.

(** A failed fetch is what [requests_get] reports as an exception. *)
Lemma requests_get_failed w url a e w' :
  http_get w url = (a, w') -> Spec.failed a e ->
  requests_get w url = (RequestException e, w').
Proof.
  intros Hget Hfail. unfold requests_get. rewrite Hget.
  destruct Hfail as [e | code reason u text [Hlo Hhi] | code reason u text [Hlo Hhi]];
    cbn [raise_for_status]; [reflexivity | |].
  - apply Nat.leb_le in Hlo. apply Nat.ltb_lt in Hhi. by rewrite Hlo, Hhi.
  - assert (H4 : ((400 <=? code)%nat && (code <? 500)%nat) = false).
    { apply andb_false_iff. right. apply Nat.ltb_ge. lia. }
    rewrite H4. apply Nat.leb_le in Hlo. apply Nat.ltb_lt in Hhi. by rewrite Hlo, Hhi.
Qed.

(** Any other answer hands its text over. *)
Lemma requests_get_passed w url code reason u text w' :
  http_get w url = (HttpResponse code reason u text, w') ->
  ~ (400 <= code < 600) ->
  requests_get w url = (Response text, w').
Proof.
  intros Hget Hcode. unfold requests_get. rewrite Hget. cbn [raise_for_status].
  assert (H4 : ((400 <=? code)%nat && (code <? 500)%nat) = false).
  { apply andb_false_iff.
    destruct (Nat.leb_spec 400 code); [right; apply Nat.ltb_ge; lia | by left]. }
  assert (H5 : ((500 <=? code)%nat && (code <? 600)%nat) = false).
  { apply andb_false_iff.
    destruct (Nat.leb_spec 500 code); [right; apply Nat.ltb_ge; lia | by left]. }
  by rewrite H4, H5.
Qed.

Lemma scrape_article_metadata_failed url st e w' :
  requests_get (world st) url = (RequestException e, w') ->
  scrape_article_metadata url st
  = (Returned None,
     State w' (files st) (dirs st)
       (stdout st ++ [("    -> Scraping article: " ++ url)%string]
                  ++ [("    [!] Failed to fetch article " ++ url ++ ": " ++ e)%string])).
Proof.
  intros Hget. unfold scrape_article_metadata, bind, print, fetch, ret.
  cbn [world files dirs stdout]. rewrite Hget. cbn [world files dirs stdout].
  by rewrite <- app_assoc.
Qed.

Lemma scrape_article_metadata_fetched url st text w' :
  requests_get (world st) url = (Response text, w') ->
  scrape_article_metadata url st
  = (match scrape_soup (parse_html text) with
     | Returned md => Returned (Some md)
     | Raised e => Raised e
     end,
     State w' (files st) (dirs st)
       (stdout st ++ [("    -> Scraping article: " ++ url)%string])).
Proof.
  intros Hget. unfold scrape_article_metadata, bind, print, fetch, ret, lift.
  cbn [world files dirs stdout]. rewrite Hget. cbn [world files dirs stdout].
  by destruct (scrape_soup (parse_html text)).
Qed.

Lemma process_row_failed website category (row : gmap string (option string))
    v st e w' :
  row !! "article_url" = Some v ->
  requests_get (world st) (py_str v) = (RequestException e, w') ->
  process_row website category row st
  = (Returned tt,
     State w' (files st) (dirs st)
       (stdout st ++ [("    -> Scraping article: " ++ py_str v)%string]
                  ++ [("    [!] Failed to fetch article " ++ py_str v ++ ": " ++ e)%string])).
Proof.
  intros Hrow Hget. unfold process_row, row_getitem. rewrite Hrow.
  unfold bind at 1. unfold ret at 1. unfold bind at 1.
  by rewrite (scrape_article_metadata_failed _ _ _ _ Hget).
Qed.

Lemma process_row_saved website category (row : gmap string (option string))
    v st text w1 md dt w2 :
  row !! "article_url" = Some v ->
  requests_get (world st) (py_str v) = (Response text, w1) ->
  scrape_soup (parse_html text) = Returned md ->
  datetime_now w1 = (dt, w2) ->
  let filepath :=
    os_path_join output_dir (json_filename website category (title md) (strftime dt)) in
  Fs.parent_exists (dirs st) filepath = true ->
  process_row website category row st
  = (Returned tt,
     State w2 (<[filepath := json_dump md]> (files st)) (dirs st)
       (stdout st ++ [("    -> Scraping article: " ++ py_str v)%string]
                  ++ [("    [+] Successfully saved metadata to " ++ filepath
                       ++ PyStr.nl)%string])).
Proof.
  intros Hrow Hget Hmd Hnow filepath Hdir. unfold process_row, row_getitem. rewrite Hrow.
  unfold bind at 1. unfold ret at 1. unfold bind at 1.
  rewrite (scrape_article_metadata_fetched _ _ _ _ Hget), Hmd.
  unfold bind, now, write_file, print. cbn [world files dirs stdout].
  rewrite Hnow. cbn [world files dirs stdout]. fold filepath. rewrite Hdir.
  cbn [world files dirs stdout]. by rewrite <- app_assoc.
Qed.

(** The file cannot be opened: [open] raises out of the loop, after the
    page was requested and the clock read. *)
Lemma process_row_unwritable website category (row : gmap string (option string))
    v st text w1 md dt w2 :
  row !! "article_url" = Some v ->
  requests_get (world st) (py_str v) = (Response text, w1) ->
  scrape_soup (parse_html text) = Returned md ->
  datetime_now w1 = (dt, w2) ->
  let filepath :=
    os_path_join output_dir (json_filename website category (title md) (strftime dt)) in
  Fs.parent_exists (dirs st) filepath = false ->
  process_row website category row st
  = (Raised (FileNotFoundError filepath),
     State w2 (files st) (dirs st)
       (stdout st ++ [("    -> Scraping article: " ++ py_str v)%string])).
Proof.
  intros Hrow Hget Hmd Hnow filepath Hdir. unfold process_row, row_getitem. rewrite Hrow.
  unfold bind at 1. unfold ret at 1. unfold bind at 1.
  rewrite (scrape_article_metadata_fetched _ _ _ _ Hget), Hmd.
  unfold bind, now, write_file, print. cbn [world files dirs stdout].
  rewrite Hnow. cbn [world files dirs stdout]. fold filepath. rewrite Hdir.
  reflexivity.
Qed.

Lemma process_row_dirs website category row st o st' :
  process_row website category row st = (o, st') -> dirs st' = dirs st.
Proof.
  unfold process_row, row_getitem, scrape_article_metadata, bind, ret, lift,
    print, fetch, now, write_file.
  cbn [world files dirs stdout].
  destruct (row !! "article_url") as [v |]; [| by intros [= <- <-]].
  destruct (requests_get (world st) (py_str v)) as [[text | e] w1];
    cbn [world files dirs stdout]; [| by intros [= <- <-]].
  destruct (scrape_soup (parse_html text)) as [md | e];
    cbn [world files dirs stdout]; [| by intros [= <- <-]].
  destruct (datetime_now w1) as [dt w2]. cbn [world files dirs stdout].
  destruct (Fs.parent_exists _ _); by intros [= <- <-].
Qed.

Lemma process_articles_dirs website category rows st o st' :
  process_articles website category rows st = (o, st') -> dirs st' = dirs st.
Proof.
  unfold process_articles. revert st.
  induction rows as [| row rows IH]; intros st; cbn [for_each].
  - by intros [= <- <-].
  - unfold bind.
    destruct (process_row website category row st) as [[[] | e] st1] eqn:Hrow.
    + intros Hrest. rewrite (IH _ Hrest). by eapply process_row_dirs.
    + intros [= <- <-]. by eapply process_row_dirs.
Qed.

(** C4, as the code has it.  In a batch, an article whose request raises,
    or is answered with a status from 400 to 599, gets [None] from
    [scrape_article_metadata]: two lines are printed, no file is written
    for it, and the loop goes on with the articles after it from the same
    files.  The next article, when its request is answered with any other
    status, its page is extracted and its file can be opened, is written
    to its own file under [json_output]. *)
Theorem fetch_failure_isolated website category
    (before after : list (gmap string (option string)))
    (row : gmap string (option string)) st st1 v a e w' :
  process_articles website category before st = (Returned tt, st1) ->
  row !! "article_url" = Some v ->
  http_get (world st1) (py_str v) = (a, w') ->
  Spec.failed a e ->
  let st2 :=
    State w' (files st1) (dirs st1)
      (stdout st1 ++ [("    -> Scraping article: " ++ py_str v)%string]
                  ++ [("    [!] Failed to fetch article " ++ py_str v ++ ": " ++ e)%string]) in
  scrape_article_metadata (py_str v) st1 = (Returned None, st2)
  /\ process_row website category row st1 = (Returned tt, st2)
  /\ process_articles website category (before ++ row :: after) st
     = process_articles website category after st2
  /\ forall (row2 : gmap string (option string)) rest v2 code reason u text w2 md dt w3,
       after = row2 :: rest ->
       row2 !! "article_url" = Some v2 ->
       http_get w' (py_str v2) = (HttpResponse code reason u text, w2) ->
       ~ (400 <= code < 600) ->
       scrape_soup (parse_html text) = Returned md ->
       datetime_now w2 = (dt, w3) ->
       Spec.no_slash website -> Spec.no_slash category ->
       "json_output" ∈ dirs st1 ->
       let filepath :=
         ("json_output/"
          ++ json_filename website category (title md) (strftime dt))%string in
       process_articles website category (before ++ row :: after) st
       = process_articles website category rest
           (State w3 (<[filepath := json_dump md]> (files st1)) (dirs st1)
              (stdout st2 ++ [("    -> Scraping article: " ++ py_str v2)%string]
                          ++ [("    [+] Successfully saved metadata to " ++ filepath
                               ++ PyStr.nl)%string])).
Proof.
  intros Hbefore Hrow Hhttp Hfail st2.
  pose proof (requests_get_failed _ _ _ _ _ Hhttp Hfail) as Hget.
  pose proof (process_row_failed website category row v st1 e w' Hrow Hget) as Hskip.
  fold st2 in Hskip.
  assert (Hloop : process_articles website category (before ++ row :: after) st
                  = process_articles website category after st2).
  { unfold process_articles in *. rewrite for_each_app, Hbefore.
    cbn [for_each]. unfold bind at 1. by rewrite Hskip. }
  split; [by apply scrape_article_metadata_failed |].
  split; [exact Hskip |]. split; [exact Hloop |].
  intros row2 rest v2 code reason u text w2 md dt w3 -> Hrow2 Hhttp2 Hcode Hmd Hnow
    Hweb Hcat Hdir filepath.
  pose proof (requests_get_passed _ _ _ _ _ _ _ Hhttp2 Hcode) as Hget2.
  pose proof (json_filename_no_slash website category (title md) dt Hweb Hcat) as Hname.
  rewrite Hloop. unfold process_articles. cbn [for_each]. unfold bind at 1.
  rewrite (process_row_saved website category row2 v2 st2 text w2 md dt w3
             Hrow2 Hget2 Hmd Hnow)
    by (by apply output_parent_exists).
  rewrite (proj1 (output_path _ Hname)). reflexivity.
Qed.

(** C9, as the code has it.  The file of an extracted record is named
    [{site}_{category}_{title}_{timestamp}.json] and written under
    [json_output], provided the site name and the category hold no slash
    and [json_output] exists; the title has every character that is
    neither a word character nor a hyphen replaced by an underscore and is
    cut to 50 characters, and the timestamp is the clock read down to the
    second; the stage creates [json_output] before the loop, and the site
    name the entry point derives holds no slash. *)
Theorem output_file_name website category (row : gmap string (option string))
    url text md dt st w1 w2 :
  row !! "article_url" = Some (Some url) ->
  requests_get (world st) url = (Response text, w1) ->
  scrape_soup (parse_html text) = Returned md ->
  datetime_now w1 = (dt, w2) ->
  Spec.no_slash website ->
  Spec.no_slash category ->
  "json_output" ∈ dirs st ->
  let clean :=
    PyStr.map_chars (fun c => if keeps c then c else "_"%char) (title md) in
  let name :=
    (website ++ "_" ++ category ++ "_" ++ PyStr.take 50 clean ++ "_"
     ++ strftime dt ++ ".json")%string in
  let filepath := ("json_output/" ++ name)%string in
  process_row website category row st
  = (Returned tt,
     State w2 (<[filepath := json_dump md]> (files st)) (dirs st)
       (stdout st ++ [("    -> Scraping article: " ++ url)%string]
                  ++ [("    [+] Successfully saved metadata to " ++ filepath
                       ++ PyStr.nl)%string]))
  /\ String.length (PyStr.take 50 clean) = Nat.min 50 (String.length (title md))
  /\ PyStr.all_chars keeps (PyStr.take 50 clean) = true
  /\ (forall us, strftime (Datetime (year dt) (month dt) (day dt) (hour dt)
                             (minute dt) (second dt) us) = strftime dt)
  /\ (forall csv_name contents o st',
        files st !! csv_name = Some contents ->
        process_csv_to_json csv_name website category st = (o, st') ->
        "json_output" ∈ dirs st')
  /\ (forall base_url, Spec.no_slash (website_name_of base_url)).
Proof.
  intros Hrow Hget Hmd Hnow Hweb Hcat Hdir clean name filepath.
  pose proof (json_filename_no_slash website category (title md) dt Hweb Hcat) as Hname.
  split; [| split; [| split; [| split; [| split]]]].
  - rewrite (process_row_saved website category row (Some url) st text w1 md dt w2
               Hrow Hget Hmd Hnow)
      by (by apply output_parent_exists).
    rewrite (proj1 (output_path _ Hname)). reflexivity.
  - apply safe_title_length.
  - apply safe_title_chars.
  - reflexivity.
  - intros csv_name contents o st' Hfile.
    unfold process_csv_to_json, bind at 1, read_file. rewrite Hfile.
    unfold bind, print, makedirs. cbn [world files dirs stdout].
    intros Hloop. apply process_articles_dirs in Hloop.
    rewrite Hloop. cbn [dirs]. apply elem_of_union_l, elem_of_singleton.
    reflexivity.
  - intros base_url. unfold website_name_of, Spec.no_slash.
    rewrite replace_dot_map.
    pose proof (split_head_free
                  (PyStr.replace "www." EmptyString
                     (PyStr.replace "https://" EmptyString base_url))) as Hs.
    induction (PyStr.split_head _ _) as [| c s IH]; [reflexivity |].
    cbn [PyStr.all_chars PyStr.map_chars] in *.
    apply andb_true_iff in Hs as [Hc Hs]. rewrite (IH Hs), andb_true_r.
    destruct (Text.is_dot c); [reflexivity | exact Hc].
Qed.

End Articles.
(** The output directory of the fixture exists. *)
Lemma ready_has_output : "json_output" ∈ dirs Fixture.ready.
Proof. apply elem_of_singleton. reflexivity. Qed.

(** C4 as stated fails: the request for an article is answered with status
    304, which is outside 200 to 299, and the article is processed like any
    other: a file is written for it. *)
Lemma non_2xx_not_skipped : ~ Spec.non_2xx_is_skipped Fixture.table.
Proof.
  intros H.
  destruct (H "example_com" "culture" (Fixture.row_of "https://example.com/article/e")
              "https://example.com/article/e" Fixture.ready
              304 "Not Modified" "https://example.com/article/e" EmptyString
              ["https://example.com/article/e"]
              ltac:(vm_compute; reflexivity) ltac:(vm_compute; reflexivity)
              ltac:(right; lia))
    as (st' & Hrun & Hfiles).
  assert (Hfile : is_Some
            (files (process_row (C := Fixture.table) "example_com" "culture"
                      (Fixture.row_of "https://example.com/article/e") Fixture.ready).2
               !! "json_output/example_com_culture_Title_not_found_20240501093007.json")).
  { eexists. vm_compute. reflexivity. }
  rewrite Hrun in Hfile. cbn [snd] in Hfile. rewrite Hfiles in Hfile.
  destruct Hfile as [x Hx]. vm_compute in Hx. discriminate Hx.
Qed.

(** A batch of two: the first article is answered with status 500 and is
    skipped, the second is written to its file. *)
Lemma fetch_failure_isolated_witness :
  exists st',
    process_articles (C := Fixture.table) "example_com" "culture"
      [ Fixture.row_of "https://example.com/article/b";
        Fixture.row_of "https://example.com/article/a" ]
      Fixture.ready = (Returned tt, st')
    /\ world st' = ["https://example.com/article/b"; "https://example.com/article/a"]
    /\ stdout st'
       = [ "    -> Scraping article: https://example.com/article/b";
           "    [!] Failed to fetch article https://example.com/article/b: 500 Server Error: Internal Server Error for url: https://example.com/article/b";
           "    -> Scraping article: https://example.com/article/a";
           ("    [+] Successfully saved metadata to json_output/example_com_culture_Markets_rally_20240501093007.json"
            ++ PyStr.nl)%string ]
    /\ is_Some (files st'
                  !! "json_output/example_com_culture_Markets_rally_20240501093007.json").
Proof.
  assert (Hb : Fixture.row_of "https://example.com/article/b" !! "article_url"
               = Some (Some "https://example.com/article/b")) by (vm_compute; reflexivity).
  assert (Ha : Fixture.row_of "https://example.com/article/a" !! "article_url"
               = Some (Some "https://example.com/article/a")) by (vm_compute; reflexivity).
  destruct (fetch_failure_isolated (C := Fixture.table) "example_com" "culture" []
              [ Fixture.row_of "https://example.com/article/a" ]
              (Fixture.row_of "https://example.com/article/b")
              Fixture.ready Fixture.ready
              (Some "https://example.com/article/b")
              (HttpResponse 500 "Internal Server Error" "https://example.com/article/b"
                 EmptyString)
              _ ["https://example.com/article/b"] eq_refl Hb
              ltac:(vm_compute; reflexivity)
              (Spec.failed_server 500 "Internal Server Error"
                 "https://example.com/article/b" EmptyString ltac:(lia)))
    as (_ & _ & _ & Hnext).
  eexists. split.
  - etransitivity.
    + apply (Hnext (Fixture.row_of "https://example.com/article/a") []
               (Some "https://example.com/article/a") 200 "OK"
               "https://example.com/article/a" Fixture.full_html
               ["https://example.com/article/b"; "https://example.com/article/a"]
               (Metadata "Markets rally" "A summary" "1 May 2024"
                  "https://example.com/i.png"
                  ("First." ++ PyStr.nl ++ "Secondboldend.")
                  "Image source, Getty" "Business, Markets")
               Fixture.clock
               ["https://example.com/article/b"; "https://example.com/article/a"]
               eq_refl Ha).
      * vm_compute. reflexivity.
      * lia.
      * vm_compute. reflexivity.
      * reflexivity.
      * reflexivity.
      * reflexivity.
      * exact ready_has_output.
    + reflexivity.
  - split; [reflexivity |]. split; [vm_compute; reflexivity |].
    eexists. vm_compute. reflexivity.
Defined.

(** C9 as stated fails: a space in the title is replaced, not stripped, and
    the name ends in [.json]; no file has the name of the specification. *)
Lemma output_name_not_stripped :
  safe_title "Markets rally" = "Markets_rally"
  /\ Spec.sanitized_title "Markets rally" = "Marketsrally"
  /\ let r := process_row (C := Fixture.table) "example_com" "culture"
                (Fixture.row_of "https://example.com/article/a") Fixture.ready in
     r.1 = Returned tt
     /\ files r.2 !! ("json_output/"
                       ++ Spec.output_name "example_com" "culture" "Markets rally"
                            "20240501093007")%string = None
     /\ is_Some (files r.2
                   !! "json_output/example_com_culture_Markets_rally_20240501093007.json").
Proof.
  split; [vm_compute; reflexivity |]. split; [vm_compute; reflexivity |].
  cbv zeta. split; [vm_compute; reflexivity |].
  split; [vm_compute; reflexivity |]. eexists. vm_compute. reflexivity.
Qed.

Lemma output_file_name_witness :
  exists st',
    process_row (C := Fixture.table) "example_com" "culture"
      (Fixture.row_of "https://example.com/article/a") Fixture.ready
    = (Returned tt, st')
    /\ stdout st'
       = [ "    -> Scraping article: https://example.com/article/a";
           ("    [+] Successfully saved metadata to json_output/example_com_culture_Markets_rally_20240501093007.json"
            ++ PyStr.nl)%string ]
    /\ is_Some (files st'
                  !! "json_output/example_com_culture_Markets_rally_20240501093007.json").
Proof.
  assert (Ha : Fixture.row_of "https://example.com/article/a" !! "article_url"
               = Some (Some "https://example.com/article/a")) by (vm_compute; reflexivity).
  assert (Hmd : scrape_soup (parse_html (Collaborators := Fixture.table) Fixture.full_html)
                = Returned (Metadata "Markets rally" "A summary" "1 May 2024"
                              "https://example.com/i.png"
                              ("First." ++ PyStr.nl ++ "Secondboldend.")
                              "Image source, Getty" "Business, Markets"))
    by (vm_compute; reflexivity).
  destruct (output_file_name (C := Fixture.table) "example_com" "culture"
              (Fixture.row_of "https://example.com/article/a")
              "https://example.com/article/a" Fixture.full_html _
              Fixture.clock Fixture.ready
              ["https://example.com/article/a"] ["https://example.com/article/a"]
              Ha ltac:(vm_compute; reflexivity) Hmd eq_refl eq_refl eq_refl ready_has_output)
    as (Hrun & _).
  eexists. split; [exact Hrun |]. split; [vm_compute; reflexivity |].
  eexists. vm_compute. reflexivity.
Defined.
(** ** The extraction rules *)

Lemma filter_none {A : Type} (p : A -> bool) (l : list A) :
  (forall d, d ∈ l -> p d = false) -> List.filter p l = [].
Proof.
  induction l as [| x l IH]; intros H; [reflexivity |].
  simpl. rewrite (H x) by set_solver. apply IH. intros d Hd. apply H. set_solver.
Qed.

Lemma head_filter_first {A : Type} (p : A -> bool) (pre post : list A) (m : A) :
  (forall d, d ∈ pre -> p d = false) -> p m = true ->
  head (List.filter p (pre ++ m :: post)) = Some m.
Proof.
  intros Hpre Hm. rewrite List.filter_app, (filter_none p pre Hpre).
  simpl. by rewrite Hm.
Qed.

Lemma all_false {A : Type} (p : A -> bool) (l : list A) :
  forallb (fun d => negb (p d)) l = true -> forall d, d ∈ l -> p d = false.
Proof.
  rewrite forallb_forall. intros H d Hd.
  apply negb_true_iff, H. by apply list_elem_of_In.
Qed.

(** *** The text of an element *)

(** The strings [get_text] takes below an ordinary element are its text
    nodes. *)
Lemma strings_of_text_nodes n :
  Bs4.strings_of [PlainString; CData] n = Spec.text_nodes n.
Proof.
  induction n as [k s | nm a cs IH] using node_nested_ind.
  - by destruct k.
  - cbn [Bs4.strings_of Spec.text_nodes].
    induction IH as [| c cs Hc _ IHcs]; [reflexivity |].
    cbn [flat_map]. by rewrite Hc, IHcs.
Qed.

Lemma get_text_strip_packed d :
  Bs4.interesting_string_types (Bs4.name_of d) = [PlainString; CData] ->
  Bs4.get_text_strip d = Spec.packed_text d.
Proof.
  intros Hd. unfold Bs4.get_text_strip, Spec.packed_text.
  by rewrite Hd, strings_of_text_nodes.
Qed.

Lemma is_tag_name nm d : Bs4.is_tag nm d = true -> Bs4.name_of d = nm.
Proof.
  destruct d as [k s | nm' a cs]; [discriminate |].
  cbn. by intros H%String.eqb_eq.
Qed.

(** The texts of the elements named [nm], for a name that is not one of
    [script], [style], [template], [rt] and [rp]. *)
Lemma texts_of_tags nm (l : list node) :
  Bs4.interesting_string_types nm = [PlainString; CData] ->
  List.map Bs4.get_text_strip (List.filter (Bs4.is_tag nm) l)
  = List.map Spec.packed_text (List.filter (Bs4.is_tag nm) l).
Proof.
  intros Hnm. apply map_ext_in. intros d Hd.
  apply filter_In in Hd as [_ Hd]. apply get_text_strip_packed.
  by rewrite (is_tag_name _ _ Hd).
Qed.

(** On an element that holds one text node, the text is that string
    stripped. *)
Lemma packed_text_single nm a s :
  Spec.packed_text (Tag nm a [NavigableString PlainString s]) = PyStr.strip s.
Proof.
  unfold Spec.packed_text. simpl.
  by destruct (PyStr.strip s).
Qed.

(** *** The heading of the tags *)

Lemma sole_string_iff n s : Spec.sole_string n s <-> Bs4.dot_string n = Some s.
Proof.
  split.
  - induction 1 as [c s | nm a child s _ IH]; [reflexivity | exact IH].
  - revert s. induction n as [k s0 | nm a cs IH] using node_nested_ind; intros s.
    + intros [= <-]. constructor.
    + destruct cs as [| c [| c2 rest]]; [discriminate | | discriminate].
      cbn [Bs4.dot_string]. intros Hc. constructor.
      apply Forall_cons in IH as [IHc _]. by apply IHc.
Qed.

Lemma is_tags_heading_spec n :
  Rules.is_tags_heading n = true
  <-> Bs4.is_tag "h2" n = true /\ Bs4.dot_string n = Some "Related Topics".
Proof.
  unfold Rules.is_tags_heading. rewrite andb_true_iff.
  destruct (Bs4.dot_string n) as [s |].
  - rewrite String.eqb_eq. split; intros [H1 H2]; split; congruence.
  - split; intros [_ H]; discriminate.
Qed.

(** The test of line 106 holds exactly of the [h2] elements whose string
    is [Related Topics]. *)
Lemma related_heading_iff d :
  Spec.related_heading d <-> Rules.is_tags_heading d = true.
Proof.
  rewrite is_tags_heading_spec, <- sole_string_iff. split.
  - by intros (a & cs & -> & Hs).
  - intros [Ht Hs]. destruct d as [k s | nm a cs]; [discriminate Ht |].
    cbn in Ht. apply String.eqb_eq in Ht as ->. by exists a, cs.
Qed.

Lemma not_related_heading d :
  Rules.is_tags_heading d = false -> ~ Spec.related_heading d.
Proof. intros H Hd. apply related_heading_iff in Hd. congruence. Qed.

Lemma find_with_siblings_none p n :
  (forall d, d ∈ Bs4.descendants n -> p d = false) ->
  Bs4.find_with_siblings p n = None.
Proof.
  intros Hnone. pose proof (find_with_siblings_sound p n) as Hs.
  destruct (Bs4.find_with_siblings p n) as [[h sibs] |]; [| reflexivity].
  destruct Hs as [Hh _]. by rewrite (filter_none _ _ Hnone) in Hh.
Qed.

(** The first node that satisfies a test, with its followers, is what
    [find_with_siblings] returns. *)
Lemma first_with_followers_found (P : node -> Prop) (p : node -> bool) :
  (forall d, P d <-> p d = true) ->
  forall l h sibs,
    Spec.first_with_followers P l h sibs ->
    Bs4.first_some
      (fun c rest => if p c then Some (c, rest) else Bs4.find_with_siblings p c) l
    = Some (h, sibs).
Proof.
  intros HP l h sibs H.
  induction H as [c rest Hc | c rest h sibs Hc Hin IH | c rest h sibs Hc Hbelow _ IH];
    cbn [Bs4.first_some].
  - apply HP in Hc. by rewrite Hc.
  - assert (Hp : p c = false).
    { destruct (p c) eqn:E; [| reflexivity]. destruct Hc. by apply HP. }
    rewrite Hp. destruct c as [k s | nm a cs]; [inversion Hin |].
    cbn [Bs4.find_with_siblings]. cbn [Bs4.contents] in IH. by rewrite IH.
  - assert (Hp : p c = false).
    { destruct (p c) eqn:E; [| reflexivity]. destruct Hc. by apply HP. }
    rewrite Hp, find_with_siblings_none; [exact IH |].
    intros d Hd. destruct (p d) eqn:E; [| reflexivity].
    destruct (Hbelow d Hd). by apply HP.
Qed.

Lemma related_heading_found soup h sibs :
  Spec.first_with_followers Spec.related_heading (Bs4.contents soup) h sibs ->
  Bs4.find_with_siblings Rules.is_tags_heading soup = Some (h, sibs).
Proof.
  intros H. destruct soup as [k s | nm a cs]; [inversion H |].
  cbn [Bs4.find_with_siblings].
  exact (first_with_followers_found _ _ related_heading_iff _ _ _ H).
Qed.

(** Two ways to pass a node that is not the heading. *)
Lemma heading_inside c rest h sibs :
  Rules.is_tags_heading c = false ->
  Spec.first_with_followers Spec.related_heading (Bs4.contents c) h sibs ->
  Spec.first_with_followers Spec.related_heading (c :: rest) h sibs.
Proof. intros Hc. apply Spec.first_inside. by apply not_related_heading. Qed.

Lemma heading_later c rest h sibs :
  Rules.is_tags_heading c = false ->
  forallb (fun d => negb (Rules.is_tags_heading d)) (Bs4.descendants c) = true ->
  Spec.first_with_followers Spec.related_heading rest h sibs ->
  Spec.first_with_followers Spec.related_heading (c :: rest) h sibs.
Proof.
  intros Hc Hbelow. apply Spec.first_later; [by apply not_related_heading |].
  intros d Hd. apply not_related_heading. by apply (all_false _ _ Hbelow).
Qed.

(** *** The record *)

(** A record is returned exactly when the two [meta] rules return. *)
Lemma scrape_soup_rules soup :
  scrape_soup soup
  = outcome_bind (Rules.summary_rule soup) (fun s =>
    outcome_bind (Rules.article_image_rule soup) (fun i =>
    Returned (Metadata (Rules.title_rule soup) s (Rules.publish_date_rule soup) i
                (Rules.article_content_rule soup) (Rules.image_credit_rule soup)
                (PyStr.join ", " (Rules.tags_rule soup))))).
Proof. reflexivity. Qed.

Lemma scrape_soup_fields soup r :
  scrape_soup soup = Returned r ->
  title r = Rules.title_rule soup
  /\ Rules.summary_rule soup = Returned (summary r)
  /\ publish_date r = Rules.publish_date_rule soup
  /\ Rules.article_image_rule soup = Returned (article_image r)
  /\ article_content r = Rules.article_content_rule soup
  /\ image_credit r = Rules.image_credit_rule soup
  /\ tags r = PyStr.join ", " (Rules.tags_rule soup).
Proof.
  rewrite scrape_soup_rules.
  destruct (Rules.summary_rule soup) as [s | e]; [| discriminate].
  destruct (Rules.article_image_rule soup) as [i | e]; [| discriminate].
  cbn [outcome_bind]. intros [= <-]. cbn. tauto.
Qed.

(** The [meta] rules raise exactly on a tag without [content]. *)
Lemma summary_rule_raises soup e :
  Rules.summary_rule soup = Raised e
  <-> e = KeyError "content"
      /\ exists t, Bs4.find_attr "meta" "name" "description" soup = Some t
                   /\ Bs4.get "content" t = None.
Proof.
  unfold Rules.summary_rule, getitem.
  destruct (Bs4.find_attr "meta" "name" "description" soup) as [t |].
  - destruct (Bs4.get "content" t) as [v |] eqn:Hv.
    + split; [discriminate |]. intros (_ & t' & [= <-] & H). congruence.
    + split; [intros [= <-]; eauto |]. by intros [-> _].
  - split; [discriminate |]. intros (_ & t & H & _). discriminate.
Qed.

(** C2, at the input where the code fails.  A description tag without a
    [content] attribute makes the summary rule raise [KeyError]; the title
    the first rule had extracted is lost with the whole record, the
    exception leaves [scrape_article_metadata], and the batch stops before
    the next article is requested. *)
Theorem bare_description_raises :
  Rules.title_rule Fixture.bare_meta_soup = "Title"
  /\ Rules.summary_rule Fixture.bare_meta_soup = Raised (KeyError "content")
  /\ scrape_soup Fixture.bare_meta_soup = Raised (KeyError "content")
  /\ scrape_article_metadata (C := Fixture.table) "https://example.com/article/d"
       (Fixture.start ∅)
     = (Raised (KeyError "content"),
        @State Fixture.table ["https://example.com/article/d"] ∅ ∅
          ["    -> Scraping article: https://example.com/article/d"])
  /\ process_articles (C := Fixture.table) "example_com" "culture"
       [ {[ "article_url" := Some "https://example.com/article/d" ]};
         {[ "article_url" := Some "https://example.com/article/a" ]} ]
       (Fixture.start ∅)
     = (Raised (KeyError "content"),
        @State Fixture.table ["https://example.com/article/d"] ∅ ∅
          ["    -> Scraping article: https://example.com/article/d"]).
Proof. repeat split; vm_compute; reflexivity. Qed.

(** C5, as the code has it.  The body text is the sentinel when the
    document has no [main] element with id [main-content]; otherwise, for
    the first such element, it is the newline-joined texts of the [p]
    elements below it in document order, the text of a paragraph being its
    text nodes (comments and the contents of [script] and [style] elements
    are none) stripped one by one and concatenated, and the paragraphs
    whose text is empty being dropped.  For a paragraph that holds one
    text node the text is that string stripped. *)
Theorem article_content_main soup :
  ((forall d, d ∈ Bs4.descendants soup ->
      Bs4.is_tag "main" d && Bs4.attr_is "id" "main-content" d = false) ->
   Rules.article_content_rule soup = "Article content not found.")
  /\ (forall pre m post,
        Bs4.descendants soup = pre ++ m :: post ->
        (forall d, d ∈ pre ->
           Bs4.is_tag "main" d && Bs4.attr_is "id" "main-content" d = false) ->
        Bs4.is_tag "main" m && Bs4.attr_is "id" "main-content" m = true ->
        Rules.article_content_rule soup
        = PyStr.join PyStr.nl
            (List.filter PyStr.nonempty
               (List.map Spec.packed_text
                  (List.filter (Bs4.is_tag "p") (Bs4.descendants m)))))
  /\ (forall nm a s,
        Spec.packed_text (Tag nm a [NavigableString PlainString s]) = PyStr.strip s)
  /\ (forall r, scrape_soup soup = Returned r ->
        article_content r = Rules.article_content_rule soup).
Proof.
  split; [| split; [| split]].
  - intros Hnone. unfold Rules.article_content_rule, Bs4.find_attr.
    by rewrite (filter_none _ _ Hnone).
  - intros pre m post Hdesc Hpre Hm.
    unfold Rules.article_content_rule, Bs4.find_attr, Bs4.find_all.
    rewrite Hdesc, (head_filter_first _ pre post m Hpre Hm).
    by rewrite (texts_of_tags "p").
  - apply packed_text_single.
  - intros r Hr. by destruct (scrape_soup_fields soup r Hr) as (_ & _ & _ & _ & H & _).
Qed.

(** C5 as stated fails: a [div] with id [main-content] is not taken for the
    container, and a paragraph with inline markup loses the space between
    its strings. *)
Lemma article_content_differs :
  Rules.article_content_rule Fixture.div_content_soup = "Article content not found."
  /\ Spec.article_content Fixture.div_content_soup = "Hi"
  /\ Rules.article_content_rule Fixture.inline_soup = "Helloworld"
  /\ Spec.article_content Fixture.inline_soup = "Hello world".
Proof. repeat split; vm_compute; reflexivity. Qed.

(** A page whose container is a [div], and a page with a decoy [div], two
    [main] containers, a blank paragraph, inline markup, a script and
    comments. *)
Lemma article_content_main_witness :
  Rules.article_content_rule Fixture.div_content_soup = "Article content not found."
  /\ Rules.article_content_rule Fixture.rich_soup
     = ("First." ++ PyStr.nl ++ "Secondboldend." ++ PyStr.nl ++ "Caption")%string.
Proof.
  split.
  - destruct (article_content_main Fixture.div_content_soup) as (Hnone & _).
    apply Hnone. apply all_false. vm_compute. reflexivity.
  - destruct (article_content_main Fixture.rich_soup) as (_ & Hmain & _).
    rewrite (Hmain (firstn 20 (Bs4.descendants Fixture.rich_soup)) Fixture.rich_main
               (skipn 21 (Bs4.descendants Fixture.rich_soup))).
    + vm_compute. reflexivity.
    + vm_compute. reflexivity.
    + apply all_false. vm_compute. reflexivity.
    + vm_compute. reflexivity.
Defined.

(** C6 as stated fails: a heading whose text is spread over inline markup
    is not taken, an ordered list is not taken for the list, and the text
    of a link with inline markup loses the space between its strings. *)
Lemma tags_differ :
  Rules.tags_rule Fixture.split_heading_soup = []
  /\ Spec.tags Fixture.split_heading_soup = ["Business"]
  /\ Rules.tags_rule Fixture.ordered_topics_soup = []
  /\ Spec.tags Fixture.ordered_topics_soup = ["Business"]
  /\ Rules.tags_rule Fixture.inline_topic_soup = ["NewYork"]
  /\ Spec.tags Fixture.inline_topic_soup = ["New York"].
Proof. repeat split; vm_compute; reflexivity. Qed.

(** C6, as the code has it.  The heading is the first [h2], in document
    order, whose only content is the string [Related Topics], directly or
    through elements that are only children.  With no such heading, or
    with no [ul] among the siblings that follow it, the tags are the empty
    list; otherwise they are the texts of the [a] elements below the first
    such [ul], in document order, the text of a link being its text nodes
    stripped one by one and concatenated.  The record holds them joined
    with a comma and a space. *)
Theorem tags_related_topics soup :
  ((forall d, d ∈ Bs4.descendants soup -> ~ Spec.related_heading d) ->
   Rules.tags_rule soup = [])
  /\ (forall h sibs,
        Spec.first_with_followers Spec.related_heading (Bs4.contents soup) h sibs ->
        ((forall s, s ∈ sibs -> Bs4.is_tag "ul" s = false) ->
         Rules.tags_rule soup = [])
        /\ (forall pre ul post,
              sibs = pre ++ ul :: post ->
              (forall s, s ∈ pre -> Bs4.is_tag "ul" s = false) ->
              Bs4.is_tag "ul" ul = true ->
              Rules.tags_rule soup
              = List.map Spec.packed_text
                  (List.filter (Bs4.is_tag "a") (Bs4.descendants ul))))
  /\ (forall r, scrape_soup soup = Returned r ->
        tags r = PyStr.join ", " (Rules.tags_rule soup))
  /\ PyStr.join ", " ["Business"; "Markets"] = "Business, Markets".
Proof.
  split; [| split; [| split]].
  - intros Hnone. unfold Rules.tags_rule.
    rewrite find_with_siblings_none; [reflexivity |].
    intros d Hd. destruct (Rules.is_tags_heading d) eqn:E; [| reflexivity].
    destruct (Hnone d Hd). by apply related_heading_iff.
  - intros h sibs Hfind. apply related_heading_found in Hfind.
    unfold Rules.tags_rule, Bs4.find_next_sibling. rewrite Hfind. split.
    + intros Hnone. by rewrite (filter_none _ _ Hnone).
    + intros pre ul post -> Hpre Hul.
      rewrite (head_filter_first _ pre post ul Hpre Hul).
      unfold Bs4.find_all. by rewrite (texts_of_tags "a").
  - intros r Hr. by destruct (scrape_soup_fields soup r Hr) as (_ & _ & _ & _ & _ & _ & H).
  - reflexivity.
Qed.

(** A page without any heading, and a page where the heading comes after
    an [h2] with another string and an [h2] whose text is split by inline
    markup, in a nested [div], followed by a paragraph, an ordered list
    and two [ul] lists. *)
Lemma tags_related_topics_witness :
  Rules.tags_rule Fixture.untitled_soup = []
  /\ Rules.tags_rule Fixture.rich_soup = ["Business"; "NewYork"]
  /\ (forall r, scrape_soup Fixture.rich_soup = Returned r -> tags r = "Business, NewYork").
Proof.
  split; [| split].
  - destruct (tags_related_topics Fixture.untitled_soup) as (Hnone & _).
    apply Hnone. intros d Hd. apply not_related_heading. revert d Hd.
    apply all_false. vm_compute. reflexivity.
  - destruct (tags_related_topics Fixture.rich_soup) as (_ & Hfound & _).
    destruct (Hfound Fixture.rich_heading
                [Fixture.rich_gap; Fixture.rich_ordered; Fixture.rich_list;
                 Fixture.rich_later]) as (_ & Hul).
    + unfold Fixture.rich_soup, Fixture.document. cbn [Bs4.contents].
      apply heading_inside; [vm_compute; reflexivity |].
      unfold Fixture.elem at 1. cbn [Bs4.contents].
      apply heading_later; [vm_compute; reflexivity | vm_compute; reflexivity |].
      apply heading_inside; [vm_compute; reflexivity |].
      unfold Fixture.elem at 1, Fixture.rich_body. cbn [Bs4.contents].
      do 11 (apply heading_later; [vm_compute; reflexivity | vm_compute; reflexivity |]).
      apply heading_inside; [vm_compute; reflexivity |].
      unfold Fixture.rich_topics, Fixture.elem at 1. cbn [Bs4.contents].
      apply Spec.first_here. apply related_heading_iff. vm_compute. reflexivity.
    + rewrite (Hul [Fixture.rich_gap; Fixture.rich_ordered] Fixture.rich_list
                 [Fixture.rich_later] eq_refl).
      * vm_compute. reflexivity.
      * apply all_false. vm_compute. reflexivity.
      * reflexivity.
  - destruct (tags_related_topics Fixture.rich_soup) as (_ & _ & Hrec & _).
    intros r Hr. rewrite (Hrec r Hr). vm_compute. reflexivity.
Defined.

(** C7, at the input where the code fails.  The page has no [h1], a
    [time] element, a body and an image credit, and its description tag
    carries no [content] attribute.  The title rule gives [Title not
    found] and the rules for the date, the body, the credit and the image
    give what the markup holds, yet the summary rule raises [KeyError]:
    no record results, and neither the title nor any other field reaches
    the caller.  The same page with a [content] attribute on the tag and
    without the credit gives its record. *)
Theorem missing_heading_record_lost :
  (forall d, d ∈ Bs4.descendants Fixture.untitled_bare_soup -> Bs4.is_tag "h1" d = false)
  /\ Rules.title_rule Fixture.untitled_bare_soup = "Title not found"
  /\ Rules.publish_date_rule Fixture.untitled_bare_soup = "1 May 2024"
  /\ Rules.article_image_rule Fixture.untitled_bare_soup = Returned "Image not found"
  /\ Rules.article_content_rule Fixture.untitled_bare_soup = "Only paragraph"
  /\ Rules.image_credit_rule Fixture.untitled_bare_soup = "Image credit: AP"
  /\ Rules.tags_rule Fixture.untitled_bare_soup = []
  /\ Rules.summary_rule Fixture.untitled_bare_soup = Raised (KeyError "content")
  /\ scrape_soup Fixture.untitled_bare_soup = Raised (KeyError "content")
  /\ scrape_article_metadata (C := Fixture.table) "https://example.com/article/u"
       (Fixture.start ∅)
     = (Raised (KeyError "content"),
        @State Fixture.table ["https://example.com/article/u"] ∅ ∅
          ["    -> Scraping article: https://example.com/article/u"])
  /\ scrape_soup Fixture.untitled_soup
     = Returned (Metadata "Title not found" "A summary" "1 May 2024" "Image not found"
                   "Only paragraph" "Image credit not found" EmptyString).
Proof.
  split; [apply all_false; vm_compute; reflexivity |].
  repeat split; vm_compute; reflexivity.
Qed.
(** * Further properties of the script *)

(** ** The site name and the sanitised title *)

(** X1.  The site name derived on line 171 holds neither a dot nor a
    slash, whatever the base URL is. *)
Theorem website_name_plain base_url :
  PyStr.all_chars (fun c => negb (Text.is_dot c) && negb (Text.is_slash c))
    (website_name_of base_url) = true.
Proof.
  unfold website_name_of. rewrite replace_dot_map.
  set (s := PyStr.split_head _ _).
  pose proof (split_head_free
                (PyStr.replace "www." EmptyString
                   (PyStr.replace "https://" EmptyString base_url))) as Hs.
  fold s in Hs. induction s as [| c s IH]; [reflexivity |].
  cbn [PyStr.all_chars PyStr.map_chars] in *.
  apply andb_true_iff in Hs as [Hc Hs]. rewrite (IH Hs), andb_true_r.
  destruct (Text.is_dot c) eqn:E; [reflexivity |].
  by rewrite E, Hc.
Qed.

(** X2.  Only [https://] is removed from the base URL, so every base URL
    that starts with [http://] gets the site name [http:]. *)
Theorem website_name_plain_http rest :
  website_name_of ("http://" ++ rest) = "http:".
Proof. reflexivity. Qed.

(** X3.  Sanitising a title is idempotent, and a sanitised title holds no
    dot, no slash and no white space: the title part of a file name cannot
    name another directory or add an extension. *)
Theorem safe_title_idempotent t :
  safe_title (safe_title t) = safe_title t
  /\ PyStr.all_chars Text.plain (safe_title t) = true.
Proof.
  split.
  - apply safe_title_fixed; [apply safe_title_chars |].
    rewrite safe_title_length. lia.
  - apply (all_chars_impl keeps); [exact keeps_plain | apply safe_title_chars].
Qed.

(** ** Extracted text is trimmed *)

Lemma lstrip_starts s : Text.starts_space (PyStr.lstrip s) = false.
Proof.
  induction s as [| c s IH]; [reflexivity |].
  cbn [PyStr.lstrip]. destruct (PyStr.is_space c) eqn:E; [exact IH | exact E].
Qed.

Lemma rstrip_ends s : Text.ends_space (PyStr.rstrip s) = false.
Proof.
  induction s as [| c s IH]; [reflexivity |].
  cbn [PyStr.rstrip]. destruct (PyStr.rstrip s) as [| c' r].
  - destruct (PyStr.is_space c) eqn:E; [reflexivity | exact E].
  - exact IH.
Qed.

Lemma rstrip_starts s :
  Text.starts_space s = false -> Text.starts_space (PyStr.rstrip s) = false.
Proof.
  destruct s as [| c s]; [reflexivity |].
  cbn [PyStr.rstrip Text.starts_space]. intros Hc.
  destruct (PyStr.rstrip s); [| exact Hc].
  by rewrite Hc.
Qed.

Lemma strip_trimmed s :
  Text.starts_space (PyStr.strip s) = false /\ Text.ends_space (PyStr.strip s) = false.
Proof.
  unfold PyStr.strip. split; [apply rstrip_starts, lstrip_starts | apply rstrip_ends].
Qed.

Lemma starts_space_app (x y : string) :
  PyStr.nonempty x = true -> Text.starts_space (x ++ y) = Text.starts_space x.
Proof. destruct x; [discriminate | reflexivity]. Qed.

Lemma ends_space_app (x y : string) :
  PyStr.nonempty y = true -> Text.ends_space (x ++ y) = Text.ends_space y.
Proof.
  intros Hy. induction x as [| c x IH]; [reflexivity |].
  change (String c x ++ y)%string with (String c (x ++ y)%string).
  cbn [Text.ends_space]. rewrite IH.
  destruct (x ++ y)%string eqn:E; [| reflexivity].
  destruct x; [| discriminate E]. change (y = EmptyString) in E.
  rewrite E in Hy. discriminate Hy.
Qed.

Lemma join_trimmed (l : list string) :
  Forall (fun x => PyStr.nonempty x = true
                   /\ Text.starts_space x = false /\ Text.ends_space x = false) l ->
  Text.starts_space (PyStr.join EmptyString l) = false
  /\ Text.ends_space (PyStr.join EmptyString l) = false.
Proof.
  induction 1 as [| x l (Hne & Hs & He) Hl IH]; [by split |].
  destruct l as [| y l'].
  - cbn [PyStr.join]. by split.
  - change (PyStr.join EmptyString (x :: y :: l'))
      with (x ++ PyStr.join EmptyString (y :: l'))%string.
    assert (Hrest : PyStr.nonempty (PyStr.join EmptyString (y :: l')) = true).
    { apply Forall_cons in Hl as [(Hy & _) _].
      destruct l'; cbn [PyStr.join]; [exact Hy |].
      destruct y; [discriminate Hy | reflexivity]. }
    split.
    + by rewrite starts_space_app.
    + rewrite ends_space_app by exact Hrest. apply IH.
Qed.

Lemma get_text_strip_trimmed n :
  Text.starts_space (Bs4.get_text_strip n) = false
  /\ Text.ends_space (Bs4.get_text_strip n) = false.
Proof.
  unfold Bs4.get_text_strip. apply join_trimmed.
  apply Forall_forall. intros x Hx.
  apply list_elem_of_In, filter_In in Hx as [Hin Hne].
  apply in_map_iff in Hin as (s & <- & _).
  split; [exact Hne | apply strip_trimmed].
Qed.

(** X4.  No text field taken with [get_text(strip=True)] begins or ends
    with white space: the title, the publish date, the image credit and
    every tag are trimmed, the fallbacks included. *)
Theorem extracted_text_trimmed soup :
  let trimmed s := Text.starts_space s = false /\ Text.ends_space s = false in
  trimmed (Rules.title_rule soup)
  /\ trimmed (Rules.publish_date_rule soup)
  /\ trimmed (Rules.image_credit_rule soup)
  /\ Forall trimmed (Rules.tags_rule soup).
Proof.
  cbv zeta. repeat split.
  - unfold Rules.title_rule. destruct (Bs4.find "h1" soup);
      [apply get_text_strip_trimmed | reflexivity].
  - unfold Rules.title_rule. destruct (Bs4.find "h1" soup);
      [apply get_text_strip_trimmed | reflexivity].
  - unfold Rules.publish_date_rule. destruct (Bs4.find "time" soup);
      [apply get_text_strip_trimmed | reflexivity].
  - unfold Rules.publish_date_rule. destruct (Bs4.find "time" soup);
      [apply get_text_strip_trimmed | reflexivity].
  - unfold Rules.image_credit_rule.
    destruct (Bs4.find_string_parent Rules.credit_pattern soup);
      [apply get_text_strip_trimmed | reflexivity].
  - unfold Rules.image_credit_rule.
    destruct (Bs4.find_string_parent Rules.credit_pattern soup);
      [apply get_text_strip_trimmed | reflexivity].
  - unfold Rules.tags_rule.
    destruct (Bs4.find_with_siblings Rules.is_tags_heading soup) as [[h sibs] |];
      [| constructor].
    destruct (Bs4.find_next_sibling "ul" sibs); [| constructor].
    apply Forall_forall. intros x Hx.
    apply list_elem_of_In, in_map_iff in Hx as (a & <- & _).
    apply get_text_strip_trimmed.
Qed.

(** ** When extraction returns, and what it returns on a bare page *)

Lemma first_some_none {A B : Type} (f : A -> list A -> option B) (l : list A) :
  (forall c rest, c ∈ l -> f c rest = None) -> Bs4.first_some f l = None.
Proof.
  induction l as [| c l IH]; intros H; [reflexivity |].
  cbn [Bs4.first_some]. rewrite (H c l) by set_solver.
  apply IH. intros c' rest Hc'. apply H. set_solver.
Qed.

Lemma find_string_parent_none q n :
  (forall s, s ∈ Bs4.strings n -> q s = false) ->
  Bs4.find_string_parent q n = None.
Proof.
  induction n as [k s | nm a cs IH] using node_nested_ind; [reflexivity |].
  intros Hq. cbn [Bs4.find_string_parent].
  apply first_some_none. intros c rest Hc.
  assert (Hsub : forall s, s ∈ Bs4.strings c -> q s = false).
  { intros s Hs. apply Hq. cbn [Bs4.strings].
    apply list_elem_of_In, in_flat_map. exists c.
    split; by apply list_elem_of_In. }
  destruct c as [k s | nm' a' cs'].
  - rewrite (Hsub s); [reflexivity | cbn; set_solver].
  - exact (proj1 (Forall_forall _ _) IH _ Hc Hsub).
Qed.

Lemma article_image_rule_raises soup e :
  Rules.article_image_rule soup = Raised e
  <-> e = KeyError "content"
      /\ exists t, Bs4.find_attr "meta" "property" "og:image" soup = Some t
                   /\ Bs4.get "content" t = None.
Proof.
  unfold Rules.article_image_rule, getitem.
  destruct (Bs4.find_attr "meta" "property" "og:image" soup) as [t |].
  - destruct (Bs4.get "content" t) as [v |] eqn:Hv.
    + split; [discriminate |]. intros (_ & t' & [= <-] & H). congruence.
    + split; [intros [= <-]; eauto |]. by intros [-> _].
  - split; [discriminate |]. intros (_ & t & H & _). discriminate.
Qed.

(** X5.  Extraction raises exactly when the first description tag or the
    first [og:image] tag of the page lacks its [content] attribute, and the
    exception is then [KeyError('content')]; on every other page a record
    is returned. *)
Theorem extraction_raises_iff soup e :
  scrape_soup soup = Raised e
  <-> e = KeyError "content"
      /\ ((exists t, Bs4.find_attr "meta" "name" "description" soup = Some t
                     /\ Bs4.get "content" t = None)
          \/ (exists t, Bs4.find_attr "meta" "property" "og:image" soup = Some t
                        /\ Bs4.get "content" t = None)).
Proof.
  rewrite scrape_soup_rules.
  destruct (Rules.summary_rule soup) as [s | e1] eqn:Es.
  - destruct (Rules.article_image_rule soup) as [i | e2] eqn:Ei; cbn [outcome_bind].
    + split; [discriminate |].
      intros (He & [Hd | Hd]).
      * pose proof (proj2 (summary_rule_raises soup e) (conj He Hd)) as H.
        rewrite Es in H. discriminate H.
      * pose proof (proj2 (article_image_rule_raises soup e) (conj He Hd)) as H.
        rewrite Ei in H. discriminate H.
    + destruct (proj1 (article_image_rule_raises soup e2) Ei) as [-> Hd].
      split.
      * intros [= <-]. split; [reflexivity | by right].
      * by intros [-> _].
  - cbn [outcome_bind].
    destruct (proj1 (summary_rule_raises soup e1) Es) as [-> Hd].
    split.
    + intros [= <-]. split; [reflexivity | by left].
    + by intros [-> _].
Qed.

Lemma extraction_raises_iff_witness :
  scrape_soup Fixture.bare_meta_soup = Raised (KeyError "content").
Proof.
  apply (proj2 (extraction_raises_iff Fixture.bare_meta_soup (KeyError "content"))).
  split; [reflexivity |]. left.
  exists (Fixture.elem1 "meta" "name" "description" []).
  split; vm_compute; reflexivity.
Defined.

(** X6.  On a page that has none of the structures the rules look for,
    extraction returns the record of the seven fallbacks, the tags being
    the empty string. *)
Theorem bare_page_gives_fallbacks soup :
  (forall d nm, d ∈ Bs4.descendants soup ->
     nm ∈ ["h1"; "meta"; "time"; "main"; "h2"] -> Bs4.is_tag nm d = false) ->
  (forall s, s ∈ Bs4.strings soup -> Rules.credit_pattern s = false) ->
  scrape_soup soup
  = Returned (Metadata "Title not found" "Summary not found" "Publish date not found"
                "Image not found" "Article content not found."
                "Image credit not found" EmptyString).
Proof.
  intros Htags Hstr.
  assert (Hno : forall nm (q : node -> bool),
             nm ∈ ["h1"; "meta"; "time"; "main"; "h2"] ->
             List.filter (fun d => Bs4.is_tag nm d && q d) (Bs4.descendants soup) = []).
  { intros nm q Hnm. apply filter_none. intros d Hd. by rewrite (Htags d nm Hd Hnm). }
  assert (Hno' : forall nm,
             nm ∈ ["h1"; "meta"; "time"; "main"; "h2"] ->
             List.filter (Bs4.is_tag nm) (Bs4.descendants soup) = []).
  { intros nm Hnm. apply filter_none. intros d Hd. by apply Htags. }
  rewrite scrape_soup_rules.
  unfold Rules.title_rule, Rules.summary_rule, Rules.publish_date_rule,
    Rules.article_image_rule, Rules.article_content_rule, Rules.image_credit_rule,
    Rules.tags_rule, Bs4.find, Bs4.find_all, Bs4.find_attr.
  rewrite !Hno by set_solver. rewrite !Hno' by set_solver.
  rewrite (find_string_parent_none _ _ Hstr).
  pose proof (find_with_siblings_sound Rules.is_tags_heading soup) as Hsound.
  destruct (Bs4.find_with_siblings Rules.is_tags_heading soup) as [[h sibs] |];
    [| reflexivity].
  destruct Hsound as [Hh _]. unfold Rules.is_tags_heading in Hh.
  rewrite Hno in Hh by set_solver. discriminate Hh.
Qed.

Lemma all_false2 {A B : Type} (p : B -> A -> bool) (l : list A) (ks : list B) :
  forallb (fun d => forallb (fun k => negb (p k d)) ks) l = true ->
  forall d k, d ∈ l -> k ∈ ks -> p k d = false.
Proof.
  rewrite forallb_forall. intros H d k Hd Hk.
  apply list_elem_of_In, H in Hd. rewrite forallb_forall in Hd.
  apply negb_true_iff, Hd. by apply list_elem_of_In.
Qed.

Lemma bare_page_gives_fallbacks_witness :
  scrape_soup Fixture.empty_soup
  = Returned (Metadata "Title not found" "Summary not found" "Publish date not found"
                "Image not found" "Article content not found."
                "Image credit not found" EmptyString).
Proof.
  apply bare_page_gives_fallbacks.
  - apply all_false2. vm_compute. reflexivity.
  - apply all_false. vm_compute. reflexivity.
Defined.

(** X7.  When the container exists but none of its paragraphs has text,
    the body is the empty string, not the fallback: the fallback only
    tells that the container is missing. *)
Theorem container_without_text soup pre m post :
  Bs4.descendants soup = pre ++ m :: post ->
  (forall d, d ∈ pre ->
     Bs4.is_tag "main" d && Bs4.attr_is "id" "main-content" d = false) ->
  Bs4.is_tag "main" m && Bs4.attr_is "id" "main-content" m = true ->
  (forall p, p ∈ Bs4.find_all "p" m -> Bs4.get_text_strip p = EmptyString) ->
  Rules.article_content_rule soup = EmptyString
  /\ Rules.article_content_rule soup <> "Article content not found.".
Proof.
  intros Hdesc Hpre Hm Hempty.
  assert (H : Rules.article_content_rule soup = EmptyString).
  { unfold Rules.article_content_rule, Bs4.find_attr.
    rewrite Hdesc, (head_filter_first _ pre post m Hpre Hm).
    rewrite (filter_none PyStr.nonempty); [reflexivity |].
    intros s Hs. apply list_elem_of_In, in_map_iff in Hs as (p & <- & Hp).
    rewrite (Hempty p); [reflexivity | by apply list_elem_of_In]. }
  split; [exact H | by rewrite H].
Qed.

Lemma container_without_text_witness :
  Rules.article_content_rule Fixture2.bare_main_soup = EmptyString.
Proof.
  destruct (container_without_text Fixture2.bare_main_soup []
              (Fixture.elem1 "main" "id" "main-content"
                 [ Fixture.elem "span" [Fixture.text "Caption only"] ])
              [ Fixture.elem "span" [Fixture.text "Caption only"];
                Fixture.text "Caption only" ]) as [H _].
  - reflexivity.
  - intros d Hd. inversion Hd.
  - vm_compute. reflexivity.
  - intros p Hp. vm_compute in Hp. inversion Hp.
  - exact H.
Defined.

(** ** What a run leaves behind *)

Section Frames.
Context `{C : Collaborators}.

Lemma grows_refl st : grows st st.
Proof. unfold grows. set_solver. Qed.

Lemma grows_same st st' :
  files st' = files st -> dirs st' = dirs st -> grows st st'.
Proof. unfold grows. intros -> ->. set_solver. Qed.

Lemma grows_trans st1 st2 st3 : grows st1 st2 -> grows st2 st3 -> grows st1 st3.
Proof. unfold grows. set_solver. Qed.

Lemma growing_bind {A B : Type} (m : M A) (k : A -> M B) :
  growing m -> (forall a, growing (k a)) -> growing (bind m k).
Proof.
  intros Hm Hk st. unfold bind. specialize (Hm st).
  destruct (m st) as [[a | e] st1]; cbn [snd] in *; [| exact Hm].
  eapply grows_trans; [exact Hm | apply Hk].
Qed.

Lemma growing_ret {A : Type} (a : A) : growing (ret a).
Proof. intros st. apply grows_refl. Qed.

Lemma growing_lift {A : Type} (o : outcome A) : growing (lift o).
Proof. intros st. apply grows_refl. Qed.

Lemma growing_print line : growing (print line).
Proof. intros st. by apply grows_same. Qed.

Lemma growing_fetch url : growing (fetch url).
Proof.
  intros st. unfold fetch. destruct (requests_get (world st) url). by apply grows_same.
Qed.

Lemma growing_now : growing now.
Proof.
  intros st. unfold now. destruct (datetime_now (world st)). by apply grows_same.
Qed.

Lemma growing_read_file path : growing (read_file path).
Proof. intros st. apply grows_refl. Qed.

Lemma growing_write_file path content : growing (write_file path content).
Proof.
  intros st. unfold write_file.
  destruct (Fs.parent_exists (dirs st) path); [| apply grows_refl].
  unfold grows. cbn [snd files dirs].
  split; [apply dom_insert_subseteq | set_solver].
Qed.

Lemma growing_makedirs : growing (makedirs output_dir).
Proof. intros st. unfold grows, makedirs. cbn [snd files dirs]. set_solver. Qed.

Lemma growing_for_each {A : Type} (body : A -> M unit) (l : list A) :
  (forall x, growing (body x)) -> growing (for_each body l).
Proof.
  intros Hbody. induction l as [| x l IH]; cbn [for_each].
  - apply growing_ret.
  - apply growing_bind; [apply Hbody | intros _; exact IH].
Qed.

Lemma growing_scrape_category base category csv_name :
  growing (scrape_category_to_csv base category csv_name).
Proof.
  unfold scrape_category_to_csv.
  apply growing_bind; [apply growing_print | intros _].
  apply growing_bind; [apply growing_fetch | intros [text | e]].
  - destruct (select_article_links (parse_html text)) as [| a0 rest];
      [apply growing_print |].
    apply growing_bind; [apply growing_print | intros _].
    destruct (write_rows base category (a0 :: rest) ∅) as [rows [msg |]].
    + apply growing_bind; [apply growing_write_file | intros _; apply growing_lift].
    + apply growing_bind; [apply growing_write_file | intros _; apply growing_print].
  - apply growing_print.
Qed.

Lemma growing_scrape_article url : growing (scrape_article_metadata url).
Proof.
  unfold scrape_article_metadata.
  apply growing_bind; [apply growing_print | intros _].
  apply growing_bind; [apply growing_fetch | intros [text | e]].
  - apply growing_bind; [apply growing_lift | intros md; apply growing_ret].
  - apply growing_bind; [apply growing_print | intros _; apply growing_ret].
Qed.

Lemma growing_process_row website category row :
  growing (process_row website category row).
Proof.
  unfold process_row, row_getitem.
  apply growing_bind.
  - destruct (row !! "article_url"); [apply growing_ret | apply growing_lift].
  - intros url. apply growing_bind; [apply growing_scrape_article |].
    intros [md |]; [| apply growing_ret].
    apply growing_bind; [apply growing_now | intros dt].
    apply growing_bind; [apply growing_write_file | intros _; apply growing_print].
Qed.

Lemma growing_process_csv csv_name website category :
  growing (process_csv_to_json csv_name website category).
Proof.
  unfold process_csv_to_json.
  apply growing_bind; [apply growing_read_file | intros [text |]].
  - apply growing_bind; [apply growing_print | intros _].
    apply growing_bind; [apply growing_makedirs | intros _].
    apply growing_bind; [apply growing_print | intros _].
    apply growing_for_each. intros row. apply growing_process_row.
  - apply growing_print.
Qed.

(** X8.  A run never removes a file and creates no directory other than
    [json_output], whether it returns or dies on an exception. *)
Theorem run_keeps_files base category csv_name st :
  let st' := (main base category csv_name st).2 in
  dom (files st) ⊆ dom (files st')
  /\ dirs st ⊆ dirs st'
  /\ dirs st' ⊆ {[ "json_output" ]} ∪ dirs st.
Proof.
  cbv zeta. change "json_output" with output_dir.
  apply (growing_bind (scrape_category_to_csv base category csv_name)).
  - apply growing_scrape_category.
  - intros _. apply growing_bind; [apply growing_process_csv | intros _].
    apply growing_print.
Qed.


(** X10.  When the handoff file has a data row and its header has no
    [article_url] column, the row lacks the key: the processing stage
    prints its two lines, creates the output directory and dies on
    [KeyError('article_url')] at the first row, with nothing requested
    and nothing written. *)
Theorem missing_url_column_stops_stage csv_name website category st text
    (row : gmap string (option string)) rest :
  files st !! csv_name = Some text ->
  csv_DictReader text = row :: rest ->
  row !! "article_url" = None ->
  process_csv_to_json csv_name website category st
  = (Raised (KeyError "article_url"),
     State (world st) (files st) ({[ "json_output" ]} ∪ dirs st)
       (stdout st
        ++ [(PyStr.nl ++ "[*] Starting to process " ++ pretty (S (length rest))
             ++ " articles from " ++ csv_name)%string]
        ++ ["[*] JSON files will be saved in the 'json_output/' directory."])).
Proof.
  intros Hfile Hrows Hrow. unfold process_csv_to_json, bind at 1, read_file.
  rewrite Hfile, Hrows. unfold bind, print, makedirs, process_articles.
  cbn [world files dirs stdout for_each length]. unfold bind at 1.
  unfold process_row, row_getitem. rewrite Hrow.
  unfold bind, lift. cbn [world files dirs stdout].
  by rewrite <- app_assoc.
Qed.

(** X11.  A handoff file without data rows makes the processing stage
    create the output directory and return: nothing is requested and no
    file is written. *)
Theorem header_only_handoff csv_name website category st text :
  files st !! csv_name = Some text ->
  csv_DictReader text = [] ->
  process_csv_to_json csv_name website category st
  = (Returned tt,
     State (world st) (files st) ({[ "json_output" ]} ∪ dirs st)
       (stdout st
        ++ [(PyStr.nl ++ "[*] Starting to process 0 articles from " ++ csv_name)%string]
        ++ ["[*] JSON files will be saved in the 'json_output/' directory."])).
Proof.
  intros Hfile Hrows. unfold process_csv_to_json, bind, read_file.
  rewrite Hfile, Hrows. unfold print, makedirs, process_articles.
  cbn [world files dirs stdout for_each length]. unfold ret.
  by rewrite <- app_assoc.
Qed.

(** X12.  Two records whose sanitised titles agree and that are saved
    within the same second get the same file name: when the site name and
    the category hold no slash and [json_output] exists, the one file
    holds the later record and the earlier one is lost. *)
Theorem same_name_overwrites website category (r1 r2 : gmap string (option string))
    u1 u2 t1 t2 md1 md2 dt1 dt2 st w1 w2 w3 w4 :
  r1 !! "article_url" = Some (Some u1) ->
  requests_get (world st) u1 = (Response t1, w1) ->
  scrape_soup (parse_html t1) = Returned md1 ->
  datetime_now w1 = (dt1, w2) ->
  r2 !! "article_url" = Some (Some u2) ->
  requests_get w2 u2 = (Response t2, w3) ->
  scrape_soup (parse_html t2) = Returned md2 ->
  datetime_now w3 = (dt2, w4) ->
  safe_title (title md1) = safe_title (title md2) ->
  strftime dt1 = strftime dt2 ->
  Spec.no_slash website ->
  Spec.no_slash category ->
  "json_output" ∈ dirs st ->
  let filepath :=
    ("json_output/"
     ++ json_filename website category (title md2) (strftime dt2))%string in
  exists st',
    process_articles website category [r1; r2] st = (Returned tt, st')
    /\ files st' = <[filepath := json_dump md2]> (files st).
Proof.
  intros H1 G1 M1 N1 H2 G2 M2 N2 Htitle Hstamp Hweb Hcat Hdir filepath.
  pose proof (json_filename_no_slash website category (title md1) dt1 Hweb Hcat) as Hn1.
  pose proof (json_filename_no_slash website category (title md2) dt2 Hweb Hcat) as Hn2.
  unfold process_articles. cbn [for_each]. unfold bind at 1.
  rewrite (process_row_saved website category r1 (Some u1) st t1 w1 md1 dt1 w2
             H1 G1 M1 N1) by (by apply output_parent_exists).
  unfold bind at 1.
  match goal with
  | |- context [process_row _ _ r2 ?s] =>
      rewrite (process_row_saved website category r2 (Some u2) s t2 w3 md2 dt2 w4
                 H2 G2 M2 N2) by (by apply output_parent_exists)
  end.
  eexists. split; [reflexivity |].
  cbn [files]. rewrite (proj1 (output_path _ Hn1)), (proj1 (output_path _ Hn2)).
  unfold filepath, json_filename. rewrite Htitle, Hstamp.
  apply insert_insert_eq.
Qed.

Lemma prefix_slash_app_true (w r : string) :
  String.prefix "/" w = true -> String.prefix "/" (w ++ r) = true.
Proof.
  destruct w as [| c w]; [discriminate |].
  change (String c w ++ r)%string with (String c (w ++ r)%string).
  cbn [String.prefix]. destruct (ascii_dec "/" c); [| discriminate].
  intros _. by destruct (w ++ r)%string.
Qed.

(** X13.  When the site name handed to the processing stage starts with a
    slash, [os.path.join] drops the output directory: provided the
    directory the file name itself names exists, the record is written
    there, outside [json_output]. *)
Theorem absolute_site_name_escapes website category (row : gmap string (option string))
    url text md dt st w1 w2 :
  row !! "article_url" = Some (Some url) ->
  requests_get (world st) url = (Response text, w1) ->
  scrape_soup (parse_html text) = Returned md ->
  datetime_now w1 = (dt, w2) ->
  String.prefix "/" website = true ->
  let filename := json_filename website category (title md) (strftime dt) in
  Fs.parent_exists (dirs st) filename = true ->
  String.prefix "/" filename = true
  /\ String.prefix "json_output" filename = false
  /\ exists st',
       process_row website category row st = (Returned tt, st')
       /\ files st' = <[filename := json_dump md]> (files st).
Proof.
  intros Hrow Hget Hmd Hnow Hweb filename Hdir.
  assert (Habs : String.prefix "/" filename = true)
    by (by apply prefix_slash_app_true).
  assert (Hpath : os_path_join output_dir filename = filename).
  { unfold os_path_join. by rewrite Habs. }
  split; [exact Habs |]. split.
  - unfold filename, json_filename in *.
    destruct website as [| c w]; [discriminate Hweb |].
    cbn [String.prefix] in Hweb.
    destruct (ascii_dec "/" c) as [<- | _]; [reflexivity | discriminate Hweb].
  - rewrite (process_row_saved website category row (Some url) st text w1 md dt w2
               Hrow Hget Hmd Hnow).
    + eexists. split; [reflexivity |]. cbn [files].
      fold filename. by rewrite Hpath.
    + fold filename. by rewrite Hpath.
Qed.

End Frames.
(** ** The two stages together *)

Lemma dict_of_row_url (b c u : string) :
  dict_of_row [b; c; u] !! "article_url" = Some (Some u).
Proof.
  unfold dict_of_row, csv_header.
  cbn [zip zip_with list_to_map foldr fst snd List.map].
  rewrite lookup_insert_ne by discriminate.
  rewrite lookup_insert_ne by discriminate.
  apply lookup_insert_eq.
Qed.

Section WholeRun.
Context `{C : Collaborators}.

Lemma scrape_category_written base category csv_name st text w' hrefs :
  requests_get (world st) (urljoin base category) = (Response text, w') ->
  Spec.article_hrefs (Bs4.descendants (parse_html text)) hrefs ->
  hrefs <> [] ->
  Forall (fun h => urljoin_raises base h = None) hrefs ->
  Fs.parent_exists (dirs st) csv_name = true ->
  scrape_category_to_csv base category csv_name st
  = (Returned tt,
     State w'
       (<[csv_name := csv_writer
                        (csv_header
                         :: List.map (fun u => [base; category; u])
                              (Spec.first_seen (List.map (urljoin base) hrefs)))]>
          (files st))
       (dirs st)
       (stdout st
        ++ [("[*] Scraping category page: " ++ urljoin base category)%string]
        ++ [("[*] Found " ++ pretty (length hrefs)
             ++ " potential article links.")%string]
        ++ [("[+] Successfully saved article URLs to " ++ csv_name)%string])).
Proof.
  intros Hget Hhrefs Hne Hok Hdir.
  destruct (article_hrefs_usable _ _ Hhrefs) as [Huse Hlen].
  assert (Hrows : write_rows base category (select_article_links (parse_html text)) ∅
                  = (List.map (fun u => [base; category; u])
                       (Spec.first_seen (List.map (urljoin base) hrefs)), None)).
  { rewrite write_rows_first_seen; rewrite Huse; [reflexivity | exact Hok]. }
  unfold scrape_category_to_csv, bind, print, fetch.
  cbn [world files dirs stdout]. rewrite Hget, Hrows, Hlen.
  destruct (select_article_links (parse_html text)) as [| a0 rest].
  - destruct hrefs; [done | discriminate Hlen].
  - unfold write_file. cbn [world files dirs stdout]. rewrite Hdir.
    cbn [world files dirs stdout]. by rewrite <- !app_assoc.
Qed.

(** X14.  When the index page has article links that all resolve, the
    handoff file can be opened and the CSV reader gives back the rows the
    writer was given, a run writes the handoff file, creates the output
    directory and goes on as the processing loop over exactly the
    collected URLs, each once and in first-seen order, followed by the
    last line. *)
Theorem run_processes_collected_links base category csv_name st text w' hrefs :
  urljoin_raises base category = None ->
  requests_get (world st) (urljoin base category) = (Response text, w') ->
  Spec.article_hrefs (Bs4.descendants (parse_html text)) hrefs ->
  hrefs <> [] ->
  Forall (fun h => urljoin_raises base h = None) hrefs ->
  Fs.parent_exists (dirs st) csv_name = true ->
  let urls := Spec.first_seen (List.map (urljoin base) hrefs) in
  let records := List.map (fun u => [base; category; u]) urls in
  let articles := List.map dict_of_row records in
  csv_DictReader (csv_writer (csv_header :: records)) = articles ->
  main base category csv_name st
  = bind (process_articles (website_name_of base) category articles)
      (fun _ => print "[*] All tasks completed.")
      (State w' (<[csv_name := csv_writer (csv_header :: records)]> (files st))
         ({[ "json_output" ]} ∪ dirs st)
         (stdout st
          ++ [("[*] Scraping category page: " ++ urljoin base category)%string]
          ++ [("[*] Found " ++ pretty (length hrefs)
               ++ " potential article links.")%string]
          ++ [("[+] Successfully saved article URLs to " ++ csv_name)%string]
          ++ [(PyStr.nl ++ "[*] Starting to process " ++ pretty (length articles)
               ++ " articles from " ++ csv_name)%string]
          ++ ["[*] JSON files will be saved in the 'json_output/' directory."]))
  /\ List.map (fun row : gmap string (option string) => row !! "article_url") articles
     = List.map (fun u => Some (Some u)) urls.
Proof.
  intros _ Hget Hhrefs Hne Hok Hdir urls records articles Hcsv. split.
  - unfold main. unfold bind at 1.
    rewrite (scrape_category_written base category csv_name st text w' hrefs
               Hget Hhrefs Hne Hok Hdir).
    fold urls. fold records.
    unfold bind at 1. unfold process_csv_to_json, bind at 1, read_file.
    cbn [world files dirs stdout]. rewrite lookup_insert_eq, Hcsv.
    unfold bind, print, makedirs. cbn [world files dirs stdout].
    rewrite <- !app_assoc. reflexivity.
  - unfold articles, records.
    rewrite !List.map_map. apply map_ext. intros u. apply dict_of_row_url.
Qed.

End WholeRun.
Lemma run_processes_collected_links_witness :
  let r := main (C := Fixture.table) Fixture.base "culture" "links.csv"
             (Fixture.start ∅) in
  r.1 = Returned tt
  /\ world r.2 = [ "https://example.com/culture"; "https://example.com/article/a";
                   "https://example.com/article/b" ]
  /\ is_Some (files r.2
                !! "json_output/example_com_culture_Markets_rally_20240501093007.json").
Proof.
  assert (Hhrefs : Spec.article_hrefs
                     (Bs4.descendants (parse_html (Collaborators := Fixture.table)
                                         Fixture.culture_html))
                     ["/article/a"; "/article/a"; "/article/b"]).
  { change (parse_html (Collaborators := Fixture.table) Fixture.culture_html)
      with (Fixture.parse Fixture.culture_html).
    assert (Hp : Fixture.parse Fixture.culture_html = Fixture.culture_soup)
      by (vm_compute; reflexivity).
    rewrite Hp.
    unfold Fixture.culture_soup, Fixture.document, Fixture.elem, Fixture.elem1,
      Fixture.text.
    cbn [Bs4.descendants flat_map app].
    article_hrefs_of. }
  destruct (run_processes_collected_links (C := Fixture.table) Fixture.base "culture"
              "links.csv" (Fixture.start ∅) Fixture.culture_html
              ["https://example.com/culture"]
              ["/article/a"; "/article/a"; "/article/b"]
              eq_refl ltac:(vm_compute; reflexivity) Hhrefs
              ltac:(discriminate) ltac:(repeat constructor)
              ltac:(vm_compute; reflexivity) ltac:(vm_compute; reflexivity))
    as [Hrun _].
  cbv zeta. rewrite Hrun. split; [vm_compute; reflexivity |].
  split; [vm_compute; reflexivity |]. eexists. vm_compute. reflexivity.
Defined.

Lemma missing_url_column_stops_stage_witness :
  process_csv_to_json (C := Fixture.table) "links.csv" "example_com" "culture"
    (Fixture.start {[ "links.csv" := Fixture2.headless_csv ]})
  = (Raised (KeyError "article_url"),
     @State Fixture.table [] {[ "links.csv" := Fixture2.headless_csv ]}
       ({[ "json_output" ]} ∪ ∅)
       ([] ++ [(PyStr.nl ++ "[*] Starting to process " ++ pretty 2
                ++ " articles from links.csv")%string]
           ++ ["[*] JSON files will be saved in the 'json_output/' directory."])).
Proof.
  assert (Hfile : ({[ "links.csv" := Fixture2.headless_csv ]}
                     : gmap string string) !! "links.csv"
                  = Some Fixture2.headless_csv)
    by apply lookup_singleton_eq.
  assert (Hrows : csv_DictReader (Collaborators := Fixture.table) Fixture2.headless_csv
                  = [ {[ "website" := Some Fixture.base;
                         "url" := Some "https://example.com/article/a" ]};
                      {[ "website" := Some Fixture.base;
                         "url" := Some "https://example.com/article/b" ]} ])
    by (vm_compute; reflexivity).
  apply (missing_url_column_stops_stage (C := Fixture.table) "links.csv" "example_com"
           "culture" (Fixture.start {[ "links.csv" := Fixture2.headless_csv ]})
           Fixture2.headless_csv _ _ Hfile Hrows).
  vm_compute. reflexivity.
Defined.

Lemma header_only_handoff_witness :
  process_csv_to_json (C := Fixture.table) "links.csv" "example_com" "culture"
    (Fixture.start {[ "links.csv" := Fixture.write_csv [csv_header] ]})
  = (Returned tt,
     @State Fixture.table [] {[ "links.csv" := Fixture.write_csv [csv_header] ]}
       ({[ "json_output" ]} ∪ ∅)
       ([] ++ [(PyStr.nl ++ "[*] Starting to process 0 articles from links.csv")%string]
           ++ ["[*] JSON files will be saved in the 'json_output/' directory."])).
Proof.
  assert (Hfile : ({[ "links.csv" := Fixture.write_csv [csv_header] ]}
                     : gmap string string) !! "links.csv"
                  = Some (Fixture.write_csv [csv_header]))
    by apply lookup_singleton_eq.
  apply (header_only_handoff (C := Fixture.table) "links.csv" "example_com" "culture"
           (Fixture.start {[ "links.csv" := Fixture.write_csv [csv_header] ]})
           (Fixture.write_csv [csv_header]) Hfile).
  vm_compute. reflexivity.
Defined.

Lemma same_name_overwrites_witness :
  exists st',
    process_articles (C := Fixture.table) "example_com" "culture"
      [ Fixture.row_of "https://example.com/article/a";
        Fixture.row_of "https://example.com/article/a" ]
      Fixture.ready = (Returned tt, st')
    /\ world st' = ["https://example.com/article/a"; "https://example.com/article/a"]
    /\ files st'
       = {[ "json_output/example_com_culture_Markets_rally_20240501093007.json"
            := Fixture.dump Fixture2.full_record ]}.
Proof.
  assert (Ha : Fixture.row_of "https://example.com/article/a" !! "article_url"
               = Some (Some "https://example.com/article/a")) by (vm_compute; reflexivity).
  assert (Hmd : scrape_soup (parse_html (Collaborators := Fixture.table) Fixture.full_html)
                = Returned Fixture2.full_record) by (vm_compute; reflexivity).
  destruct (same_name_overwrites (C := Fixture.table) "example_com" "culture"
              (Fixture.row_of "https://example.com/article/a")
              (Fixture.row_of "https://example.com/article/a")
              "https://example.com/article/a" "https://example.com/article/a"
              Fixture.full_html Fixture.full_html
              Fixture2.full_record Fixture2.full_record Fixture.clock Fixture.clock
              Fixture.ready
              ["https://example.com/article/a"] ["https://example.com/article/a"]
              ["https://example.com/article/a"; "https://example.com/article/a"]
              ["https://example.com/article/a"; "https://example.com/article/a"]
              Ha ltac:(vm_compute; reflexivity) Hmd eq_refl
              Ha ltac:(vm_compute; reflexivity) Hmd eq_refl eq_refl eq_refl
              eq_refl eq_refl ready_has_output)
    as (st' & Hrun & Hfiles).
  exists st'. split; [exact Hrun |]. split.
  - assert (Hw : world (process_articles (C := Fixture.table) "example_com" "culture"
                          [ Fixture.row_of "https://example.com/article/a";
                            Fixture.row_of "https://example.com/article/a" ]
                          Fixture.ready).2
                 = ["https://example.com/article/a"; "https://example.com/article/a"])
      by (vm_compute; reflexivity).
    by rewrite Hrun in Hw.
  - rewrite Hfiles. reflexivity.
Defined.

Lemma absolute_site_name_escapes_witness :
  exists st',
    process_row (C := Fixture.table) "/tmp/site" "culture"
      (Fixture.row_of "https://example.com/article/a")
      (@State Fixture.table [] ∅ {[ "/tmp" ]} [])
    = (Returned tt, st')
    /\ files st' !! "/tmp/site_culture_Markets_rally_20240501093007.json"
       = Some (Fixture.dump Fixture2.full_record)
    /\ dirs st' = {[ "/tmp" ]}.
Proof.
  assert (Ha : Fixture.row_of "https://example.com/article/a" !! "article_url"
               = Some (Some "https://example.com/article/a")) by (vm_compute; reflexivity).
  assert (Hmd : scrape_soup (parse_html (Collaborators := Fixture.table) Fixture.full_html)
                = Returned Fixture2.full_record) by (vm_compute; reflexivity).
  destruct (absolute_site_name_escapes (C := Fixture.table) "/tmp/site" "culture"
              (Fixture.row_of "https://example.com/article/a")
              "https://example.com/article/a" Fixture.full_html Fixture2.full_record
              Fixture.clock (@State Fixture.table [] ∅ {[ "/tmp" ]} [])
              ["https://example.com/article/a"] ["https://example.com/article/a"]
              Ha ltac:(vm_compute; reflexivity) Hmd eq_refl eq_refl
              ltac:(vm_compute; reflexivity))
    as (_ & _ & st' & Hrun & Hfiles).
  exists st'. split; [exact Hrun |]. split.
  - rewrite Hfiles. apply lookup_insert_eq.
  - apply (process_row_dirs (C := Fixture.table)) in Hrun. exact Hrun.
Defined.

(** ** Which anchors are collected, and where the single fields come from *)

Section Selection.
Context `{C : Collaborators}.

(** X15.  An element of the index page is collected exactly when it is an
    [a] element whose href has [/article/] somewhere in it: in the path, in
    a query string or after another host name alike. *)
Theorem collected_iff_href_holds_article soup link :
  link ∈ select_article_links soup
  <-> link ∈ Bs4.descendants soup
      /\ Bs4.is_tag "a" link = true
      /\ exists pre post,
           Bs4.get "href" link = Some (pre ++ "/article/" ++ post)%string.
Proof.
  unfold select_article_links, Bs4.select_attr_contains.
  rewrite list_elem_of_In, filter_In, <- list_elem_of_In, andb_true_iff.
  split.
  - intros (Hd & Ha & Hh). split; [exact Hd |]. split; [exact Ha |].
    destruct (Bs4.get "href" link) as [h |]; [| discriminate].
    apply contains_spec in Hh as (pre & post & ->). by exists pre, post.
  - intros (Hd & Ha & pre & post & Hh). split; [exact Hd |]. split; [exact Ha |].
    rewrite Hh. apply contains_spec. by exists pre, post.
Qed.

End Selection.

Lemma collected_iff_href_holds_article_witness :
  Fixture.elem1 "a" "href" "/travel/article/x" [Fixture.text "X"]
  ∈ select_article_links Fixture.travel_soup.
Proof.
  apply (proj2 (collected_iff_href_holds_article Fixture.travel_soup _)).
  split; [| split].
  - apply list_elem_of_In. vm_compute. right. right. left. reflexivity.
  - reflexivity.
  - exists "/travel", "x". vm_compute. reflexivity.
Defined.

(** X16.  The title is the text of the first [h1] in document order and
    the publish date the text of the first [time] element, whatever
    elements of the same name follow; the text of an element is its text
    nodes, stripped one by one and concatenated, comments left out. *)
Theorem first_element_wins soup :
  (forall pre h post,
     Bs4.descendants soup = pre ++ h :: post ->
     (forall d, d ∈ pre -> Bs4.is_tag "h1" d = false) ->
     Bs4.is_tag "h1" h = true ->
     Rules.title_rule soup = Spec.packed_text h)
  /\ (forall pre t post,
        Bs4.descendants soup = pre ++ t :: post ->
        (forall d, d ∈ pre -> Bs4.is_tag "time" d = false) ->
        Bs4.is_tag "time" t = true ->
        Rules.publish_date_rule soup = Spec.packed_text t).
Proof.
  split; intros pre h post Hdesc Hpre Hh.
  - unfold Rules.title_rule, Bs4.find, Bs4.find_all.
    rewrite Hdesc, (head_filter_first _ pre post h Hpre Hh).
    apply get_text_strip_packed. by rewrite (is_tag_name _ _ Hh).
  - unfold Rules.publish_date_rule, Bs4.find, Bs4.find_all.
    rewrite Hdesc, (head_filter_first _ pre post h Hpre Hh).
    apply get_text_strip_packed. by rewrite (is_tag_name _ _ Hh).
Qed.

(** A page with two [h1] elements, the first of which holds a comment,
    and two [time] elements. *)
Lemma first_element_wins_witness :
  Rules.title_rule Fixture.rich_soup = "Marketsrally"
  /\ Rules.publish_date_rule Fixture.rich_soup = "1 May 2024".
Proof.
  destruct (first_element_wins Fixture.rich_soup) as [Htitle Hdate]. split.
  - rewrite (Htitle (firstn 10 (Bs4.descendants Fixture.rich_soup))
               Fixture.rich_title
               (skipn 11 (Bs4.descendants Fixture.rich_soup))).
    + vm_compute. reflexivity.
    + vm_compute. reflexivity.
    + apply all_false. vm_compute. reflexivity.
    + reflexivity.
  - rewrite (Hdate (firstn 16 (Bs4.descendants Fixture.rich_soup))
               Fixture.rich_time
               (skipn 17 (Bs4.descendants Fixture.rich_soup))).
    + vm_compute. reflexivity.
    + vm_compute. reflexivity.
    + apply all_false. vm_compute. reflexivity.
    + reflexivity.
Defined.

(** X17.  The summary and the image are the [content] attributes of the
    first description tag and of the first [og:image] tag, taken as they
    are: unlike the text fields they are not trimmed. *)
Theorem meta_content_taken_raw soup :
  (forall pre m post v,
     Bs4.descendants soup = pre ++ m :: post ->
     (forall d, d ∈ pre ->
        Bs4.is_tag "meta" d && Bs4.attr_is "name" "description" d = false) ->
     Bs4.is_tag "meta" m && Bs4.attr_is "name" "description" m = true ->
     Bs4.get "content" m = Some v ->
     Rules.summary_rule soup = Returned v)
  /\ (forall pre m post v,
        Bs4.descendants soup = pre ++ m :: post ->
        (forall d, d ∈ pre ->
           Bs4.is_tag "meta" d && Bs4.attr_is "property" "og:image" d = false) ->
        Bs4.is_tag "meta" m && Bs4.attr_is "property" "og:image" m = true ->
        Bs4.get "content" m = Some v ->
        Rules.article_image_rule soup = Returned v).
Proof.
  split; intros pre m post v Hdesc Hpre Hm Hv.
  - unfold Rules.summary_rule, Bs4.find_attr, getitem.
    by rewrite Hdesc, (head_filter_first _ pre post m Hpre Hm), Hv.
  - unfold Rules.article_image_rule, Bs4.find_attr, getitem.
    by rewrite Hdesc, (head_filter_first _ pre post m Hpre Hm), Hv.
Qed.

(** A page with a [meta] tag of another name, two description tags, the
    first with white space around its content, and an image tag. *)
Lemma meta_content_taken_raw_witness :
  Rules.summary_rule Fixture.rich_soup = Returned " A summary "
  /\ Rules.article_image_rule Fixture.rich_soup = Returned "https://example.com/i.png".
Proof.
  destruct (meta_content_taken_raw Fixture.rich_soup) as [Hsum Himg]. split.
  - apply (Hsum (firstn 3 (Bs4.descendants Fixture.rich_soup))
             Fixture.rich_summary
             (skipn 4 (Bs4.descendants Fixture.rich_soup))).
    + vm_compute. reflexivity.
    + apply all_false. vm_compute. reflexivity.
    + vm_compute. reflexivity.
    + vm_compute. reflexivity.
  - apply (Himg (firstn 5 (Bs4.descendants Fixture.rich_soup))
             Fixture.rich_image
             (skipn 6 (Bs4.descendants Fixture.rich_soup))).
    + vm_compute. reflexivity.
    + apply all_false. vm_compute. reflexivity.
    + vm_compute. reflexivity.
    + vm_compute. reflexivity.
Defined.

(** ** The image credit *)

Lemma first_some_inv {A B : Type} (f : A -> list A -> option B) (l : list A) r :
  Bs4.first_some f l = Some r ->
  exists pre c rest, l = pre ++ c :: rest /\ f c rest = Some r.
Proof.
  induction l as [| c l IH]; [discriminate |].
  cbn [Bs4.first_some]. destruct (f c l) as [r' |] eqn:E.
  - intros [= <-]. by exists [], c, l.
  - intros H. destruct (IH H) as (pre & c' & rest & -> & Hf).
    by exists (c :: pre), c', rest.
Qed.

Lemma first_some_none_inv {A B : Type} (f : A -> list A -> option B) (l : list A) :
  Bs4.first_some f l = None ->
  forall pre c rest, l = pre ++ c :: rest -> f c rest = None.
Proof.
  induction l as [| c l IH]; intros H pre c' rest Hl.
  - by destruct pre.
  - cbn [Bs4.first_some] in H. destruct (f c l) as [r |] eqn:E; [discriminate |].
    destruct pre as [| x pre]; injection Hl as -> Hl.
    + by subst l.
    + by apply (IH H pre).
Qed.

Lemma find_string_parent_some q n p :
  Bs4.find_string_parent q n = Some p ->
  (p = n \/ p ∈ Bs4.descendants n)
  /\ exists k s, NavigableString k s ∈ Bs4.contents p /\ q s = true.
Proof.
  revert p. induction n as [k s | nm a cs IH] using node_nested_ind; [discriminate |].
  intros p. cbn [Bs4.find_string_parent]. intros H.
  apply first_some_inv in H as (pre & c & rest & Hcs & Hf).
  assert (Hc : c ∈ cs) by (rewrite Hcs; set_solver).
  destruct c as [k s | nm' a' cs'].
  - destruct (q s) eqn:Hq; [| discriminate]. injection Hf as <-.
    split; [by left |]. exists k, s. by split.
  - destruct (proj1 (Forall_forall _ _) IH _ Hc p Hf) as [Hp Hs].
    split; [| exact Hs]. right. destruct Hp as [-> | Hp].
    + by apply (descendants_child (Tag nm a cs)).
    + by apply (descendants_trans (Tag nm a cs) (Tag nm' a' cs')).
Qed.

Lemma find_string_parent_none_inv q n :
  match n with
  | NavigableString _ _ => True
  | Tag _ _ _ =>
      Bs4.find_string_parent q n = None ->
      forall s, s ∈ Bs4.strings n -> q s = false
  end.
Proof.
  induction n as [k s | nm a cs IH] using node_nested_ind; [exact I |].
  cbn [Bs4.find_string_parent Bs4.strings]. intros H s Hs.
  apply list_elem_of_In, in_flat_map in Hs as (c & Hc & Hs).
  apply list_elem_of_In in Hc. apply list_elem_of_In in Hs.
  destruct (list_elem_of_split _ _ Hc) as (pre & rest & Hcs).
  pose proof (first_some_none_inv _ _ H pre c rest Hcs) as Hf.
  pose proof (proj1 (Forall_forall _ _) IH _ Hc) as IHc. cbv beta in IHc.
  destruct c as [k' s' | nm' a' cs'].
  - cbn [Bs4.strings] in Hs. apply list_elem_of_singleton in Hs as ->.
    by destruct (q s').
  - by apply IHc.
Qed.

(** X18.  The image credit is the fallback exactly when no string of the
    page, comments included, matches [Image source] or [Image credit];
    otherwise it is the text [get_text] gives for an element that has a
    matching string among its direct children: for an element that is not
    a [script], [style], [template], [rt] or [rp], its text nodes stripped
    one by one and concatenated, comments left out. *)
Theorem credit_is_text_of_enclosing_element nm a cs :
  let soup := Tag nm a cs in
  ((forall s, s ∈ Bs4.strings soup -> Rules.credit_pattern s = false) ->
   Rules.image_credit_rule soup = "Image credit not found")
  /\ (forall s, s ∈ Bs4.strings soup -> Rules.credit_pattern s = true ->
      exists parent k s',
        (parent = soup \/ parent ∈ Bs4.descendants soup)
        /\ NavigableString k s' ∈ Bs4.contents parent
        /\ Rules.credit_pattern s' = true
        /\ Rules.image_credit_rule soup = Bs4.get_text_strip parent
        /\ (Bs4.interesting_string_types (Bs4.name_of parent) = [PlainString; CData] ->
            Rules.image_credit_rule soup = Spec.packed_text parent)).
Proof.
  cbv zeta. split.
  - intros Hnone. unfold Rules.image_credit_rule.
    by rewrite (find_string_parent_none _ _ Hnone).
  - intros s Hs Hq. unfold Rules.image_credit_rule.
    destruct (Bs4.find_string_parent Rules.credit_pattern (Tag nm a cs))
      as [parent |] eqn:E.
    + destruct (find_string_parent_some _ _ _ E) as (Hp & k & s' & Hs' & Hq').
      exists parent, k, s'. repeat split; try done.
      apply get_text_strip_packed.
    + pose proof (find_string_parent_none_inv Rules.credit_pattern (Tag nm a cs) E s Hs)
        as Hfalse.
      congruence.
Qed.

(** A page without a credit, a page whose credit is followed by a comment
    in the same element, and a page where the only matching string is a
    comment: the credit is the text beside the comment. *)
Lemma credit_is_text_of_enclosing_element_witness :
  Rules.image_credit_rule Fixture.empty_soup = "Image credit not found"
  /\ (exists parent,
        parent ∈ Bs4.descendants Fixture.rich_soup
        /\ Bs4.get_text_strip parent = "Image source, Getty")
  /\ (exists parent,
        (parent = Fixture2.commented_credit_soup
         \/ parent ∈ Bs4.descendants Fixture2.commented_credit_soup)
        /\ Bs4.get_text_strip parent = "Body").
Proof.
  split; [| split].
  - destruct (credit_is_text_of_enclosing_element "[document]" ∅
                (Bs4.contents Fixture.empty_soup)) as [Hnone _].
    apply Hnone. apply all_false. vm_compute. reflexivity.
  - destruct (credit_is_text_of_enclosing_element "[document]" ∅
                (Bs4.contents Fixture.rich_soup)) as [_ Hsome].
    destruct (Hsome "Image source, Getty")
      as (parent & k & s' & Hp & _ & _ & Hrule & _).
    + apply list_elem_of_In. vm_compute. do 14 right. left. reflexivity.
    + vm_compute. reflexivity.
    + assert (Hv : Rules.image_credit_rule
                     (Tag "[document]" ∅ (Bs4.contents Fixture.rich_soup))
                   = "Image source, Getty") by (vm_compute; reflexivity).
      rewrite Hv in Hrule. exists parent. split; [| by symmetry].
      destruct Hp as [-> | Hp]; [| exact Hp].
      exfalso. vm_compute in Hrule. discriminate Hrule.
  - destruct (credit_is_text_of_enclosing_element "[document]" ∅
                (Bs4.contents Fixture2.commented_credit_soup)) as [_ Hsome].
    destruct (Hsome " Image source ")
      as (parent & k & s' & Hp & _ & _ & Hrule & _).
    + apply list_elem_of_In. vm_compute. left. reflexivity.
    + vm_compute. reflexivity.
    + assert (Hv : Rules.image_credit_rule
                     (Tag "[document]" ∅ (Bs4.contents Fixture2.commented_credit_soup))
                   = "Body") by (vm_compute; reflexivity).
      rewrite Hv in Hrule. exists parent. split; [exact Hp | by symmetry].
Defined.
(** ** Where a run dies *)

Lemma rstrip_slashes_keep a c b :
  Text.is_slash c = false ->
  Fs.rstrip_slashes (a ++ String c b) = (a ++ String c (Fs.rstrip_slashes b))%string.
Proof.
  intros Hc.
  assert (Hhere : Fs.rstrip_slashes (String c b) = String c (Fs.rstrip_slashes b)).
  { cbn [Fs.rstrip_slashes]. rewrite Hc. by destruct (Fs.rstrip_slashes b). }
  induction a as [| x a IH]; [exact Hhere |].
  change (String x a ++ String c b)%string with (String x (a ++ String c b)%string).
  cbn [Fs.rstrip_slashes]. rewrite IH.
  change (String x a ++ String c (Fs.rstrip_slashes b))%string
    with (String x (a ++ String c (Fs.rstrip_slashes b))%string).
  by destruct a.
Qed.

Lemma string_app_assoc (a b c : string) : ((a ++ b) ++ c = a ++ b ++ c)%string.
Proof.
  induction a as [| x a IH]; [reflexivity |].
  change ((String x a ++ b) ++ c)%string with (String x ((a ++ b) ++ c)%string).
  by rewrite IH.
Qed.

(** With a slash in the category, the file of a record is to be opened in
    a directory below [json_output] that nothing has created. *)
Lemma slash_category_parent_missing (dirs : gset string) website pre post title dt :
  Spec.no_slash website -> Spec.no_slash post ->
  (forall d, d ∈ dirs -> d = "json_output") ->
  let name := json_filename website (pre ++ "/" ++ post) title (strftime dt) in
  os_path_join output_dir name = ("json_output/" ++ name)%string
  /\ Fs.parent_exists dirs (os_path_join output_dir name) = false.
Proof.
  intros Hweb Hpost Hdirs name.
  assert (Hpre : String.prefix "/" name = false).
  { unfold name, json_filename. apply prefix_slash_app. by apply no_slash_prefix. }
  assert (Hj : os_path_join output_dir name = ("json_output/" ++ name)%string).
  { unfold os_path_join. by rewrite Hpre. }
  split; [exact Hj |]. rewrite Hj.
  set (tail := (post ++ "_" ++ safe_title title ++ "_" ++ strftime dt ++ ".json")%string).
  assert (Htail : Spec.no_slash tail).
  { unfold tail, Spec.no_slash. rewrite !all_chars_app.
    rewrite Hpost, (safe_title_no_slash title), (strftime_no_slash dt). reflexivity. }
  assert (Hsplit : ("json_output/" ++ name)%string
                   = (("json_output/" ++ website ++ String "_" pre)
                      ++ String "/" tail)%string).
  { unfold name, json_filename, tail. rewrite !string_app_assoc. reflexivity. }
  assert (Hhead : (("json_output/" ++ website ++ String "_" pre) ++ "/")%string
                  = (("json_output/" ++ website) ++ String "_" (pre ++ "/"))%string).
  { rewrite !string_app_assoc. reflexivity. }
  unfold Fs.parent_exists, Fs.dirname.
  rewrite Hsplit, (head_to_last_slash_app _ _ Htail), Hhead.
  assert (Hnot : PyStr.all_chars Text.is_slash
                   (("json_output/" ++ website) ++ String "_" (pre ++ "/")) = false).
  { rewrite !all_chars_app. reflexivity. }
  rewrite Hnot, (rstrip_slashes_keep _ "_" _) by reflexivity.
  set (d := (("json_output/" ++ website) ++ String "_" (Fs.rstrip_slashes (pre ++ "/")))%string).
  assert (Hlen : 11 < String.length d).
  { unfold d. rewrite !string_app_length. cbn [String.length]. lia. }
  assert (Hd : PyStr.all_chars Text.is_slash d = false).
  { unfold d. rewrite !all_chars_app. reflexivity. }
  rewrite Hd. cbn [orb].
  apply bool_decide_eq_false_2. intros Hin. apply Hdirs in Hin.
  rewrite Hin in Hlen. cbn [String.length] in Hlen. lia.
Qed.

Section Deaths.
Context `{C : Collaborators}.

(** X19.  An article href that makes [urljoin] raise ends the run in the
    collector with [ValueError]: the handoff file is left holding the
    header and the rows of the hrefs before it, the success line is not
    printed and the processing stage never starts. *)
Theorem bad_href_stops_run base category csv_name st text w' good bad more msg :
  urljoin_raises base category = None ->
  requests_get (world st) (urljoin base category) = (Response text, w') ->
  Spec.article_hrefs (Bs4.descendants (parse_html text)) (good ++ bad :: more) ->
  Forall (fun h => urljoin_raises base h = None) good ->
  urljoin_raises base bad = Some msg ->
  Fs.parent_exists (dirs st) csv_name = true ->
  let records :=
    List.map (fun u => [base; category; u])
      (Spec.first_seen (List.map (urljoin base) good)) in
  let st1 :=
    State w' (<[csv_name := csv_writer (csv_header :: records)]> (files st)) (dirs st)
      (stdout st
       ++ [("[*] Scraping category page: " ++ urljoin base category)%string]
       ++ [("[*] Found " ++ pretty (length (good ++ bad :: more))
            ++ " potential article links.")%string]) in
  scrape_category_to_csv base category csv_name st = (Raised (ValueError msg), st1)
  /\ main base category csv_name st = (Raised (ValueError msg), st1).
Proof.
  intros _ Hget Hhrefs Hgood Hbad Hdir records st1.
  destruct (article_hrefs_usable _ _ Hhrefs) as [Huse Hlen].
  assert (Hrows : write_rows base category (select_article_links (parse_html text)) ∅
                  = (records, Some msg)).
  { rewrite (write_rows_stops _ _ _ _ _ _ _ _ Huse Hgood Hbad).
    by rewrite filter_not_in_empty. }
  assert (Hrun : scrape_category_to_csv base category csv_name st
                 = (Raised (ValueError msg), st1)).
  { unfold scrape_category_to_csv, bind, print, fetch.
    cbn [world files dirs stdout]. rewrite Hget, Hrows, Hlen.
    destruct (select_article_links (parse_html text)) as [| a0 rest].
    - destruct good; discriminate Hlen.
    - unfold write_file, lift. cbn [world files dirs stdout]. rewrite Hdir.
      cbn [world files dirs stdout]. unfold st1. by rewrite <- !app_assoc. }
  split; [exact Hrun |]. unfold main. unfold bind at 1. by rewrite Hrun.
Qed.

(** X20.  With a slash in the category and no directory but
    [json_output], the first article that is fetched and extracted ends
    the batch with [FileNotFoundError]: its file is to be opened in a
    directory nothing has created, no output file is written and the
    rows after it are not looked at. *)
Theorem slash_in_category_stops_batch website pre post
    (row : gmap string (option string)) rest url text md dt st w1 w2 :
  row !! "article_url" = Some (Some url) ->
  requests_get (world st) url = (Response text, w1) ->
  scrape_soup (parse_html text) = Returned md ->
  datetime_now w1 = (dt, w2) ->
  Spec.no_slash website ->
  Spec.no_slash post ->
  (forall d, d ∈ dirs st -> d = "json_output") ->
  let category := (pre ++ "/" ++ post)%string in
  let filepath :=
    ("json_output/"
     ++ json_filename website category (title md) (strftime dt))%string in
  process_articles website category (row :: rest) st
  = (Raised (FileNotFoundError filepath),
     State w2 (files st) (dirs st)
       (stdout st ++ [("    -> Scraping article: " ++ url)%string])).
Proof.
  intros Hrow Hget Hmd Hnow Hweb Hpost Hdirs category filepath.
  destruct (slash_category_parent_missing (dirs st) website pre post (title md) dt
              Hweb Hpost Hdirs) as [Hpath Hmissing].
  unfold process_articles. cbn [for_each]. unfold bind at 1.
  rewrite (process_row_unwritable website category row (Some url) st text w1 md dt w2
             Hrow Hget Hmd Hnow Hmissing).
  fold category in Hpath. by rewrite Hpath.
Qed.

(** X21.  A row that is short of the [article_url] field holds [None]
    there, and the request for [None] raises: the row is skipped like any
    article that cannot be fetched, under the name [None]. *)
Theorem short_row_is_skipped website category (row : gmap string (option string))
    st e w' :
  row !! "article_url" = Some None ->
  http_get (world st) "None" = (GetRaised e, w') ->
  process_row website category row st
  = (Returned tt,
     State w' (files st) (dirs st)
       (stdout st ++ ["    -> Scraping article: None"]
                  ++ [("    [!] Failed to fetch article None: " ++ e)%string])).
Proof.
  intros Hrow Hget.
  apply (process_row_failed website category row None st e w' Hrow).
  apply (requests_get_failed _ _ _ _ _ Hget). constructor.
Qed.

End Deaths.
(** An index page whose second article link cannot be resolved: the run
    dies in the collector and leaves a handoff file with one row. *)
Lemma bad_href_stops_run_witness :
  let r := main (C := Fixture.table) Fixture.base "broken" "links.csv"
             (Fixture.start ∅) in
  r.1 = Raised (ValueError "Invalid IPv6 URL")
  /\ world r.2 = ["https://example.com/broken"]
  /\ files r.2
     = {[ "links.csv"
          := Fixture.write_csv
               [ ["website"; "category"; "article_url"];
                 ["https://example.com"; "broken"; "https://example.com/article/a"] ] ]}
  /\ stdout r.2
     = [ "[*] Scraping category page: https://example.com/broken";
         "[*] Found 3 potential article links." ].
Proof.
  assert (Hhrefs : Spec.article_hrefs
                     (Bs4.descendants (parse_html (Collaborators := Fixture.table)
                                         Fixture.broken_html))
                     (["/article/a"] ++ "//[bad/article/x" :: ["/article/b"])).
  { change (parse_html (Collaborators := Fixture.table) Fixture.broken_html)
      with (Fixture.parse Fixture.broken_html).
    assert (Hp : Fixture.parse Fixture.broken_html = Fixture.broken_soup)
      by (vm_compute; reflexivity).
    rewrite Hp.
    unfold Fixture.broken_soup, Fixture.document, Fixture.elem, Fixture.elem1,
      Fixture.text.
    cbn [Bs4.descendants flat_map app].
    article_hrefs_of. }
  destruct (bad_href_stops_run (C := Fixture.table) Fixture.base "broken" "links.csv"
              (Fixture.start ∅) Fixture.broken_html ["https://example.com/broken"]
              ["/article/a"] "//[bad/article/x" ["/article/b"] "Invalid IPv6 URL"
              eq_refl ltac:(vm_compute; reflexivity) Hhrefs
              ltac:(repeat constructor) ltac:(vm_compute; reflexivity)
              ltac:(vm_compute; reflexivity))
    as [_ Hmain].
  cbv zeta. rewrite Hmain. cbn [fst snd world files stdout].
  split; [reflexivity |]. split; [reflexivity |].
  split; [reflexivity | vm_compute; reflexivity].
Defined.

(** The category [news/world]: the first article is fetched, its file
    cannot be opened, and the second article is never requested. *)
Lemma slash_in_category_stops_batch_witness :
  process_articles (C := Fixture.table) "example_com" "news/world"
    [ Fixture.row_of "https://example.com/article/a";
      Fixture.row_of "https://example.com/article/c" ]
    Fixture.ready
  = (Raised (FileNotFoundError
               "json_output/example_com_news/world_Markets_rally_20240501093007.json"),
     @State Fixture.table ["https://example.com/article/a"] ∅ {[ "json_output" ]}
       ["    -> Scraping article: https://example.com/article/a"]).
Proof.
  assert (Ha : Fixture.row_of "https://example.com/article/a" !! "article_url"
               = Some (Some "https://example.com/article/a")) by (vm_compute; reflexivity).
  assert (Hmd : scrape_soup (parse_html (Collaborators := Fixture.table) Fixture.full_html)
                = Returned Fixture2.full_record) by (vm_compute; reflexivity).
  apply (slash_in_category_stops_batch (C := Fixture.table) "example_com" "news" "world"
           (Fixture.row_of "https://example.com/article/a")
           [Fixture.row_of "https://example.com/article/c"]
           "https://example.com/article/a" Fixture.full_html Fixture2.full_record
           Fixture.clock Fixture.ready
           ["https://example.com/article/a"] ["https://example.com/article/a"]
           Ha ltac:(vm_compute; reflexivity) Hmd eq_refl eq_refl eq_refl).
  intros d Hd. change (d ∈ ({[ "json_output" ]} : gset string)) in Hd.
  by apply elem_of_singleton in Hd.
Defined.

(** A handoff file whose second row is one field short: the reader gives
    the row [None] for the URL, and the row is skipped. *)
Lemma short_row_is_skipped_witness :
  (exists row,
     csv_DictReader (Collaborators := Fixture.table) Fixture2.short_csv !! 1 = Some row
     /\ row !! "article_url" = Some None)
  /\ process_row (C := Fixture.table) "example_com" "culture" Fixture.short_row
       Fixture.ready
     = (Returned tt,
        @State Fixture.table ["None"] ∅ {[ "json_output" ]}
          ([] ++ ["    -> Scraping article: None"]
              ++ ["    [!] Failed to fetch article None: Invalid URL 'None': No scheme supplied. Perhaps you meant https://None?"])).
Proof.
  split.
  - eexists. split; vm_compute; reflexivity.
  - apply (short_row_is_skipped (C := Fixture.table) "example_com" "culture"
             Fixture.short_row Fixture.ready).
    + vm_compute. reflexivity.
    + vm_compute. reflexivity.
Defined.
